(** * Sovereign Network Defense: the detection and alerting engine

    A shallow embedding of the stateful heuristics of the repository
    (port-scan tracking, connection classification, file-event
    de-duplication, process watching, alert dispatch) together with the
    properties the specification states about them and with further
    properties of the code: its behaviour over whole runs, at its edges
    and when a call raises.

    Conventions of the embedding:
    - [time.time()] readings and the CPU / memory percentages delivered by
      psutil are Python floats; they are embedded as rationals ([Q]) and
      compared exactly.  The clock reading of a call is an explicit
      argument [now].
    - dictionaries and sets are stdpp's [gmap] and [gset]; a [defaultdict]
      is a [gmap] read through its default.
    - log files and the terminal are append-only lists, newest line last;
      writing to a log file does not raise, and neither does printing,
      except in [send_alert], which is also followed on a terminal that
      refuses the lines.  The banners and signs that only decorate a
      printed line are left out.
    - what the operating system decides (whether the bell, the sound
      player or the popup fails, the name of a process, the wall clock) is
      read from a [host] record.
    - a Python exception is a value of [Py.exn]; code that can raise lives
      in the state-and-exception monad [Py.M], in which the state reached
      before the raise is kept, as in Python.

    The embedding of the five source files comes first, then the
    vocabulary in which the properties are stated, then the properties
    with their proofs. *)

From Stdlib Require Import QArith Lqa Ascii.
From stdpp Require Import gmap strings list fin_maps pretty sorting.

(* stdpp's solvers clear hypotheses that may already be gone *)
#[local] Set Warnings "-clear-no-such-hyp".

Local Open Scope string_scope.

(** ** Python preliminaries *)

Module Py.

(** [x > y] on floats. *)
Definition Qgtb (x y : Q) : bool := negb (Qle_bool x y).

(** [x < y] on floats. *)
Definition Qltb (x y : Q) : bool := negb (Qle_bool y x).

(** The exception classes that occur in the monitors.  All of them derive
    from [Exception]; the three psutil classes are the ones the process
    loops name in their [except] clauses. *)
Inductive psutil_error := NoSuchProcess | AccessDenied | ZombieProcess.

Inductive exn :=
  | PsutilError (e : psutil_error)
  | TypeError
  | AttributeError
  | OSError
  | TimeoutExpired.

Inductive result (A : Type) :=
  | Ok (a : A)
  | Raise (e : exn).
Arguments Ok {A} a.
Arguments Raise {A} e.

(** Stateful code that may raise.  The state component of the outcome is
    the state at the raise: what was mutated before stays mutated. *)
Definition M (S A : Type) : Type := S -> S * result A.

Definition ret {S A} (a : A) : M S A := fun s => (s, Ok a).

Definition bind {S A B} (m : M S A) (k : A -> M S B) : M S B :=
  fun s =>
    match m s with
    | (s', Ok a) => k a s'
    | (s', Raise e) => (s', Raise e)
    end.

Definition raise {S A} (e : exn) : M S A := fun s => (s, Raise e).

Definition get {S} : M S S := fun s => (s, Ok s).

Definition modify {S} (f : S -> S) : M S unit := fun s => (f s, Ok tt).

#[global] Instance M_ret {S} : MRet (M S) := fun A => @ret S A.
#[global] Instance M_bind {S} : MBind (M S) := fun A B k m => @bind S A B m k.

(** [m ;; k] runs [k] after [m]; [let* x := m in k] also names the value
    of [m]. *)
Notation "'let*' x ':=' m 'in' k" := (bind m (fun x => k))
  (at level 10, x name, m at level 100, k at level 200, only parsing).

(** [try: body except <classes>: handler], where [catches] decides
    whether the raised exception is an instance of the named classes. *)
Definition try_except {S A} (body : M S A) (catches : exn -> bool)
    (handler : M S A) : M S A :=
  fun s =>
    match body s with
    | (s', Ok a) => (s', Ok a)
    | (s', Raise e) => if catches e then handler s' else (s', Raise e)
    end.

(** [except Exception] and the bare [except]. *)
Definition any_exception (e : exn) : bool := true.

(** [except (psutil.NoSuchProcess, psutil.AccessDenied,
    psutil.ZombieProcess)]; [ZombieProcess] is a subclass of
    [NoSuchProcess], so the two-class clause of monitor.py catches the
    same exceptions. *)
Definition psutil_exception (e : exn) : bool :=
  match e with
  | PsutilError _ => true
  | _ => false
  end.

(** Running a sub-component's code on its part of a larger state. *)
Definition zoom {S T A} (proj : T -> S) (upd : S -> T -> T) (m : M S A)
  : M T A :=
  fun t => let '(s', r) := m (proj t) in (upd s' t, r).

(** [for x in xs: body x] *)
Fixpoint for_each {S A} (xs : list A) (body : A -> M S unit) : M S unit :=
  match xs with
  | [] => ret tt
  | x :: rest => bind (body x) (fun _ => for_each rest body)
  end.

(** [s.lower()], on the ASCII letters. *)
Definition lower_char (c : Ascii.ascii) : Ascii.ascii :=
  let n := Ascii.nat_of_ascii c in
  if ((65 <=? n) && (n <=? 90))%nat then Ascii.ascii_of_nat (n + 32) else c.

Fixpoint lower (s : string) : string :=
  match s with
  | EmptyString => EmptyString
  | String c r => String (lower_char c) (lower r)
  end.

(** [sub in s] on strings. *)
Fixpoint contains (sub s : string) : bool :=
  String.prefix sub s ||
  match s with
  | EmptyString => false
  | String _ r => contains sub r
  end.

(** [s.startswith(p)] *)
Definition startswith (s p : string) : bool := String.prefix p s.

(** [s[:n]] *)
Definition slice_to (n : nat) (s : string) : string := String.substring 0 n s.

(** [s.replace(old, new)] for a one-character [old]. *)
Fixpoint replace_char (old : Ascii.ascii) (new : string) (s : string)
  : string :=
  match s with
  | EmptyString => EmptyString
  | String c r =>
      if Ascii.eqb c old then new +:+ replace_char old new r
      else String c (replace_char old new r)
  end.

(** [' '.join(xs)] *)
Fixpoint join (sep : string) (xs : list string) : string :=
  match xs with
  | [] => EmptyString
  | [x] => x
  | x :: rest => x +:+ sep +:+ join sep rest
  end.

(** [str(x)] for an [int] that may be [None]. *)
Definition str_opt_int (x : option Z) : string :=
  match x with
  | Some z => pretty z
  | None => "None"
  end.

(** [str(x)] for a [str] that may be [None]. *)
Definition str_opt (x : option string) : string := default "None" x.

End Py.

(** ** packet_monitor.py: the port-scan detector *)

Module PacketMonitor.
Import Py.

(** One value of [scan_tracker]: the dictionary built by the
    [defaultdict] factory of [__init__]. *)
Record tracker_entry := TrackerEntry {
  syn_count : Z;
  ports : gset Z;
  first_seen : option Q;
  last_seen : option Q
}.

Definition default_entry : tracker_entry := TrackerEntry 0 ∅ None None.

(** The detection thresholds set in [__init__]. *)
Record config := Config {
  port_scan_threshold : nat;
  time_window : Q
}.

Definition default_config : config :=
  {| port_scan_threshold := 5; time_window := 10 |}.

(** The fields interpolated into the f-string of the PORT SCAN DETECTED
    message: source, target, [unique_ports], [time_span],
    [ports_list[:10]], whether the ellipsis is printed, protocol. *)
Record port_scan_message := PortScanMessage {
  ps_source : string;
  ps_target : string;
  ps_unique_ports : nat;
  ps_time_span : Q;
  ps_ports : list Z;
  ps_ellipsis : bool;
  ps_protocol : string
}.

(** What [log_alert] receives: the message and its severity.  The same
    pair goes to the console, to packet_alerts.log and to the callback. *)
Record alert := Alert {
  severity : string;
  message : port_scan_message
}.

Record state := State {
  scan_tracker : gmap string tracker_entry;
  packet_alerts : list alert
}.

Definition initial_state : state := State ∅ [].

(** Reading [self.scan_tracker[src_ip]]: a missing key yields the
    factory's entry. *)
Definition tracker_get (t : gmap string tracker_entry) (src_ip : string)
  : tracker_entry :=
  default default_entry (t !! src_ip).

Definition log_alert (m : port_scan_message) (sev : string) (st : state)
  : state :=
  State (scan_tracker st) (packet_alerts st ++ [Alert sev m]).

(** [sorted(list(ports))] *)
Definition sorted_ports (s : gset Z) : list Z := merge_sort Z.le (elements s).

(** The first half of [detect_port_scan], on the entry of the source:
    [first_seen] is initialised when it is [None], [last_seen] and the
    port set are updated, and an entry older than the window is replaced
    by one that holds the current port only. *)
Definition track (cfg : config) (now : Q) (dst_port : Z)
    (e0 : tracker_entry) : tracker_entry :=
  let first := default now (first_seen e0) in
  let e1 := TrackerEntry (syn_count e0) (ports e0 ∪ {[dst_port]})
                         (Some first) (Some now) in
  if Qgtb (now - first) (time_window cfg)
  then TrackerEntry 0 {[dst_port]} (Some now) (Some now)
  else e1.

Definition detect_port_scan (cfg : config) (now : Q)
    (src_ip dst_ip : string) (dst_port : Z) (protocol : string)
    (st : state) : state :=
  let e := track cfg now dst_port (tracker_get (scan_tracker st) src_ip) in
  (* check if the threshold is exceeded *)
  let unique_ports := size (ports e) in
  if (port_scan_threshold cfg <=? unique_ports)%nat then
    let ports_list := sorted_ports (ports e) in
    let time_span := (now - default now (first_seen e))%Q in
    let st1 :=
      log_alert (PortScanMessage src_ip dst_ip unique_ports time_span
                   (take 10 ports_list) (10 <? length ports_list)%nat
                   protocol)
                "PORT_SCAN"
                (State (<[src_ip := e]> (scan_tracker st))
                       (packet_alerts st)) in
    (* reset after the alert *)
    State (<[src_ip := TrackerEntry (syn_count e) ∅ (Some now)
                                    (last_seen e)]> (scan_tracker st1))
          (packet_alerts st1)
  else
    State (<[src_ip := e]> (scan_tracker st)) (packet_alerts st).

(** One SYN or UDP packet as [analyze_packet] hands it to the detector,
    with the clock reading of the call. *)
Record probe := Probe {
  p_time : Q;
  p_src : string;
  p_dst : string;
  p_port : Z;
  p_proto : string
}.

Definition observe (cfg : config) (st : state) (p : probe) : state :=
  detect_port_scan cfg (p_time p) (p_src p) (p_dst p) (p_port p)
                   (p_proto p) st.

Definition observe_all (cfg : config) (ps : list probe) (st : state)
  : state :=
  fold_left (observe cfg) ps st.

(** The layers of a scapy packet that [analyze_packet] reads: [packet[IP]],
    [packet[TCP]] and [packet[UDP]], each absent when [haslayer] says so. *)
Record ip_layer := IPLayer {
  ip_src : string;
  ip_dst : string
}.

Record tcp_layer := TCPLayer {
  tcp_sport : Z;
  tcp_dport : Z;
  tcp_flags : Z
}.

Record udp_layer := UDPLayer {
  udp_sport : Z;
  udp_dport : Z
}.

Record packet := Packet {
  ip_layer_of : option ip_layer;
  tcp_layer_of : option tcp_layer;
  udp_layer_of : option udp_layer
}.

(** A line of all_packets.log: [[timestamp] packet_info]. *)
Record packet_line := PacketLine {
  pk_timestamp : string;
  pk_packet_info : string
}.

(** The detector together with the packet log and with what the handler
    of [analyze_packet] prints. *)
Record capture := Capture {
  detector : state;
  all_packets : list packet_line;
  console : list string
}.

Definition initial_capture : capture := Capture initial_state [] [].

Definition log_packet (ts packet_info : string) : M capture unit :=
  modify (fun c =>
    Capture (detector c) (all_packets c ++ [PacketLine ts packet_info])
            (console c)).

Definition print (line : string) : M capture unit :=
  modify (fun c => Capture (detector c) (all_packets c) (console c ++ [line])).

(** [analyze_packet]; [now] is the reading of [time.time()] in the
    detector and [ts] the wall clock of [log_packet].  A TCP packet counts
    when [flags & 0x02] is not zero. *)
Definition analyze_packet (cfg : config) (now : Q) (ts : string)
    (pkt : packet) : M capture unit :=
  try_except
    (match ip_layer_of pkt with
     | None => ret tt
     | Some ip =>
         let src_ip := ip_src ip in
         let dst_ip := ip_dst ip in
         match tcp_layer_of pkt with
         | Some tcp =>
             let src_port := tcp_sport tcp in
             let dst_port := tcp_dport tcp in
             let flags := tcp_flags tcp in
             if negb (Z.eqb (Z.land flags 2) 0) then
               zoom detector
                    (fun d c => Capture d (all_packets c) (console c))
                    (modify (detect_port_scan cfg now src_ip dst_ip dst_port
                               "TCP")) ;;
               log_packet ts
                 ("SYN | Source: " +:+ src_ip +:+ ":" +:+ pretty src_port +:+
                  " -> " +:+
                  "Dest: " +:+ dst_ip +:+ ":" +:+ pretty dst_port +:+
                  " | Protocol: TCP")
             else ret tt
         | None =>
             match udp_layer_of pkt with
             | Some udp =>
                 let src_port := udp_sport udp in
                 let dst_port := udp_dport udp in
                 zoom detector
                      (fun d c => Capture d (all_packets c) (console c))
                      (modify (detect_port_scan cfg now src_ip dst_ip
                                 dst_port "UDP")) ;;
                 log_packet ts
                   ("UDP | Source: " +:+ src_ip +:+ ":" +:+ pretty src_port +:+
                    " -> " +:+
                    "Dest: " +:+ dst_ip +:+ ":" +:+ pretty dst_port +:+
                    " | Protocol: UDP")
             | None => ret tt
             end
         end
     end)
    any_exception
    (print "Error analyzing packet").

(** A captured packet with the two clock readings taken while it is
    analysed. *)
Record arrival := Arrival {
  a_time : Q;
  a_timestamp : string;
  a_packet : packet
}.

(** [start_sniffing]: [sniff] hands every captured packet to
    [analyze_packet] and stores none. *)
Definition start_sniffing (cfg : config) (captured : list arrival)
  : M capture unit :=
  for_each captured
    (fun a => analyze_packet cfg (a_time a) (a_timestamp a) (a_packet a)).

End PacketMonitor.

(** ** alert_system.py: the alert sink *)

Module AlertSystem.
Import Py.

(** The best-effort delivery primitives: one terminal bell
    ([sys.stdout.write('\a')] and its flush), the [paplay] subprocess and
    the PowerShell message box with its title and text. *)
Inductive channel_op :=
  | Bell
  | SystemSound
  | Popup (title text : string).

(** The machine the sink runs on: whether a delivery primitive raises
    (a missing program, a timeout, a closed terminal), and the wall clock
    as [strftime] prints it. *)
Record host := Host {
  bell_fault : option exn;
  system_sound_fault : option exn;
  popup_fault : option exn;
  timestamp : string
}.

Definition fault (h : host) (op : channel_op) : option exn :=
  match op with
  | Bell => bell_fault h
  | SystemSound => system_sound_fault h
  | Popup _ _ => popup_fault h
  end.

Section Sink.
(** [Msg] is what a caller interpolates into the f-string of its message
    and [text] the string that results: the messages of file_monitor.py
    are plain strings, those of process_monitor.py format their floats
    with [.1f], which is left to [text]. *)
Context {Msg : Type} (text : Msg -> string).

(** A line of alerts.log: [[timestamp] [severity] message]. *)
Record log_line := LogLine {
  line_timestamp : string;
  line_severity : string;
  line_message : Msg
}.

Record sink := Sink {
  attempts : list channel_op;
  console : list (string * Msg);
  alerts_log : list log_line
}.

Definition empty_sink : sink := Sink [] [] [].

(** Invoking a delivery primitive: the attempt is made, and raises when
    the host says so. *)
Definition attempt (h : host) (op : channel_op) : M sink unit :=
  fun s =>
    (Sink (attempts s ++ [op]) (console s) (alerts_log s),
     match fault h op with
     | Some e => Raise e
     | None => Ok tt
     end).

Definition play_alert_sound (h : host) : M sink unit :=
  try_except
    (attempt h Bell ;; attempt h Bell ;; attempt h Bell ;;
     try_except (attempt h SystemSound) any_exception (ret tt))
    any_exception
    (ret tt).

Definition double_quote : Ascii.ascii := Ascii.ascii_of_nat 34.

Definition send_desktop_notification (h : host) (title message : string)
  : M sink unit :=
  try_except
    (let clean_title :=
       replace_char double_quote "'"
         (replace_char "!"%char EmptyString title) in
     let clean_message :=
       slice_to 200
         (replace_char double_quote "'"
            (replace_char "!"%char EmptyString message)) in
     attempt h (Popup clean_title clean_message))
    any_exception
    (ret tt).

(** The bytes of the siren sign that opens the popup title. *)
Definition siren : string :=
  String (Ascii.ascii_of_nat 240) (String (Ascii.ascii_of_nat 159)
    (String (Ascii.ascii_of_nat 154) (String (Ascii.ascii_of_nat 168)
       EmptyString))).

(** The three [print] calls of [send_alert].  [terminal] is the state of
    [sys.stdout] at that moment: [None] while it takes what is written to
    it, the exception that a write raises otherwise (a closed terminal, a
    broken pipe).  The calls stand outside every [try]. *)
Definition print_alert (terminal : option exn) (severity : string)
    (message : Msg) : M sink unit :=
  match terminal with
  | Some e => raise e
  | None =>
      modify (fun s =>
        Sink (attempts s) (console s ++ [(severity, message)])
             (alerts_log s))
  end.

Definition append_alert_log (l : log_line) : M sink unit :=
  modify (fun s => Sink (attempts s) (console s) (alerts_log s ++ [l])).

(** [send_alert], with the state of the terminal at its [print] calls. *)
Definition send_alert_to (terminal : option exn) (h : host) (message : Msg)
    (severity : string) (play_sound notify : bool) : M sink unit :=
  let ts := timestamp h in
  (if play_sound then play_alert_sound h else ret tt) ;;
  (if notify then
     let title := siren +:+ " " +:+ severity in
     let short_message :=
       if (200 <? String.length (text message))%nat
       then slice_to 200 (text message) +:+ "..."
       else text message in
     send_desktop_notification h title short_message
   else ret tt) ;;
  print_alert terminal severity message ;;
  append_alert_log (LogLine ts severity message).

(** [send_alert] on a terminal that takes the lines: the monitors are
    followed on such a terminal. *)
Definition send_alert (h : host) (message : Msg) (severity : string)
    (play_sound notify : bool) : M sink unit :=
  send_alert_to None h message severity play_sound notify.

End Sink.

Arguments log_line : clear implicits.
Arguments sink : clear implicits.
Arguments LogLine {Msg}.
Arguments Sink {Msg}.

End AlertSystem.

(** ** monitor.py: the connection classifier *)

Module NetworkMonitor.
Import Py.

(** psutil's [addr(ip, port)]; an absent address is the empty tuple,
    which is falsy: [None] here. *)
Record addr := Addr {
  ip : string;
  port : Z
}.

(** One element of [psutil.net_connections(kind='inet')]. *)
Record sconn := SConn {
  laddr : option addr;
  raddr : option addr;
  status : string;
  pid : option Z
}.

(** The machine: its interface addresses ([get_local_ips]), what
    [psutil.Process(pid).name()] gives or raises, and the wall clock as
    [strftime] prints it. *)
Record host := Host {
  local_ips : gset string;
  process_name_of : Z -> psutil_error + string;
  timestamp : string
}.

(** A line of network_alerts.log: [[timestamp] [severity] message]. *)
Record alert_line := AlertLine {
  al_timestamp : string;
  al_severity : string;
  al_message : string
}.

(** A line of all_connections.log: [[timestamp] conn_info]. *)
Record connection_line := ConnectionLine {
  cl_timestamp : string;
  cl_conn_info : string
}.

(** The two log files, the console, and [seen_connections], the local of
    [monitor] that lives as long as its loop. *)
Record state := State {
  network_alerts : list alert_line;
  all_connections : list connection_line;
  console : list string;
  seen_connections : gset string
}.

Definition initial_state : state := State [] [] [] ∅.

Definition log_alert (h : host) (message severity : string) : M state unit :=
  modify (fun st =>
    State (network_alerts st ++ [AlertLine (timestamp h) severity message])
          (all_connections st)
          (console st ++ [severity +:+ ": " +:+ message])
          (seen_connections st)).

Definition log_connection (h : host) (conn_info : string) : M state unit :=
  modify (fun st =>
    State (network_alerts st)
          (all_connections st ++ [ConnectionLine (timestamp h) conn_info])
          (console st)
          (seen_connections st)).

Definition print (line : string) : M state unit :=
  modify (fun st =>
    State (network_alerts st) (all_connections st) (console st ++ [line])
          (seen_connections st)).

Definition is_listening_port (conn : sconn) : bool :=
  String.eqb (status conn) "LISTEN".

Definition is_inbound_connection (h : host) (conn : sconn) : bool :=
  if String.eqb (status conn) "ESTABLISHED" then
    match laddr conn, raddr conn with
    | Some l, Some r =>
        let local_ip := ip l in
        let remote_ip := ip r in
        if bool_decide (local_ip ∈ local_ips h)
           && negb (bool_decide (remote_ip ∈ local_ips h)) then
          if negb (startswith remote_ip "127.") then true else false
        else false
    | _, _ => false
    end
  else false.

(** [f"{a.ip}:{a.port}"] *)
Definition show_addr (a : addr) : string := ip a +:+ ":" +:+ pretty (port a).

(** [psutil.Process(pid).name()] *)
Definition process_name (h : host) (p : Z) : M state string :=
  match process_name_of h p with
  | inl e => raise (PsutilError e)
  | inr n => ret n
  end.

(** [if pid:] is false for [None] and for 0. *)
Definition truthy_pid (p : option Z) : option Z :=
  match p with
  | Some z => if Z.eqb z 0 then None else Some z
  | None => None
  end.

Definition threat_message (remote_ip : option string)
    (local_addr process_name : string) (pid : option Z) : string :=
  "INBOUND CONNECTION DETECTED - " +:+
  "Remote IP: " +:+ str_opt remote_ip +:+
  " attempting to connect to your machine at " +:+ local_addr +:+ " | " +:+
  "Process: " +:+ process_name +:+ " (PID: " +:+ str_opt_int pid +:+ ")".

Definition conn_info_of (local_addr remote_addr status process_name : string)
    (pid : option Z) : string :=
  "Local: " +:+ local_addr +:+ " | Remote: " +:+ remote_addr +:+ " | " +:+
  "Status: " +:+ status +:+ " | Process: " +:+ process_name +:+
  " (PID: " +:+ str_opt_int pid +:+ ")".

Definition analyze_connection (h : host) (conn : sconn) : M state bool :=
  try_except
    (let local_addr :=
       match laddr conn with
       | Some a => show_addr a
       | None => "N/A"
       end in
     let remote_addr :=
       match raddr conn with
       | Some a => show_addr a
       | None => "N/A"
       end in
     let remote_ip := ip <$> raddr conn in
     let* name :=
       try_except
         (match truthy_pid (pid conn) with
          | Some p => process_name h p
          | None => ret "Unknown"
          end)
         psutil_exception
         (ret "Unknown") in
     let conn_info :=
       conn_info_of local_addr remote_addr (status conn) name (pid conn) in
     log_connection h conn_info ;;
     if is_inbound_connection h conn then
       log_alert h (threat_message remote_ip local_addr name (pid conn))
                 "THREAT" ;;
       ret true
     else
       (if is_listening_port conn then
          print ("Listening port detected: " +:+ local_addr +:+
                 " (Process: " +:+ name +:+ ")")
        else ret tt) ;;
       ret false)
    any_exception
    (print "Error analyzing connection" ;; ret false).

(** The identifier [monitor] builds for a connection; [None] is the
    [continue] taken when there is no local address. *)
Definition conn_id (conn : sconn) : option string :=
  match laddr conn, raddr conn with
  | Some l, Some r =>
      Some (show_addr l +:+ "-" +:+ show_addr r +:+ "-" +:+ status conn)
  | Some l, None => Some (show_addr l +:+ "-" +:+ status conn)
  | None, _ => None
  end.

Definition mark_seen (id : string) : M state unit :=
  modify (fun st =>
    State (network_alerts st) (all_connections st) (console st)
          (seen_connections st ∪ {[id]})).

(** The body of [for conn in connections]. *)
Definition visit_connection (h : host) (conn : sconn) : M state unit :=
  try_except
    (match conn_id conn with
     | None => ret tt
     | Some id =>
         let* st := get in
         if bool_decide (id ∈ seen_connections st) then ret tt
         else mark_seen id ;; analyze_connection h conn ;; ret tt
     end)
    any_exception
    (ret tt).

(** One round of the [while True] loop: the connections psutil lists. *)
Definition poll (h : host) (connections : list sconn) : M state unit :=
  for_each connections (visit_connection h).

(** The loop of [monitor], run for the given rounds. *)
Definition monitor (rounds : list (host * list sconn)) : M state unit :=
  for_each rounds (fun r => poll (fst r) (snd r)).

(** psutil's [snicaddr], of which [get_local_ips] reads the family and
    the address. *)
Inductive address_family := AF_INET | AF_INET6 | AF_PACKET.

Record snicaddr := SNicAddr {
  family : address_family;
  address : string
}.

(** [get_local_ips], over the items of [psutil.net_if_addrs()]: the
    name of each interface with its addresses. *)
Definition get_local_ips (net_if_addrs : list (string * list snicaddr))
  : gset string :=
  fold_left
    (fun local_ips item =>
       fold_left
         (fun local_ips a =>
            match family a with
            | AF_INET => local_ips ∪ {[address a]}
            | _ => local_ips
            end)
         (snd item) local_ips)
    net_if_addrs ∅.

End NetworkMonitor.

(** ** file_monitor.py: the file-event classifier *)

Module FileMonitor.
Import Py.

(** A watchdog event. *)
Record event := Event {
  is_directory : bool;
  src_path : string;
  dest_path : string
}.

(** A line of file_access.log: [[timestamp] event_type: path]. *)
Record file_line := FileLine {
  fl_timestamp : string;
  fl_event_type : string;
  fl_path : string
}.

Record state := State {
  recent_events : gmap string Q;
  file_access_log : list file_line;
  alert_system : AlertSystem.sink string
}.

Definition initial_state : state := State ∅ [] AlertSystem.empty_sink.

(** [self.event_window] *)
Definition event_window : Q := 1.

(** The messages are plain strings here; their text is the message. *)
Definition send_alert (h : AlertSystem.host) (message severity : string)
    (play_sound : bool) : M state unit :=
  zoom alert_system
       (fun s st => State (recent_events st) (file_access_log st) s)
       (AlertSystem.send_alert id h message severity play_sound true).

Definition log_file_event (h : AlertSystem.host) (event_type path : string)
  : M state unit :=
  modify (fun st =>
    State (recent_events st)
          (file_access_log st ++
             [FileLine (AlertSystem.timestamp h) event_type path])
          (alert_system st)).

Definition should_alert (now : Q) (event_key : string) : M state bool :=
  let* st := get in
  let recent :=
    match recent_events st !! event_key with
    | Some t => Qltb (now - t) event_window
    | None => false
    end in
  if recent then ret false
  else
    modify (fun st =>
      State (<[event_key := now]> (recent_events st)) (file_access_log st)
            (alert_system st)) ;;
    ret true.

Definition on_modified (h : AlertSystem.host) (now : Q) (ev : event)
  : M state unit :=
  if is_directory ev then ret tt
  else
    log_file_event h "MODIFIED" (src_path ev) ;;
    let event_key := "modified:" +:+ src_path ev in
    let* alerting := should_alert now event_key in
    if alerting then
      send_alert h ("File modified: " +:+ src_path ev) "FILE_MODIFIED" false
    else ret tt.

Definition on_created (h : AlertSystem.host) (now : Q) (ev : event)
  : M state unit :=
  if is_directory ev then ret tt
  else
    log_file_event h "CREATED" (src_path ev) ;;
    let event_key := "created:" +:+ src_path ev in
    let* alerting := should_alert now event_key in
    if alerting then
      send_alert h ("File created: " +:+ src_path ev) "FILE_CREATED" false
    else ret tt.

Definition on_deleted (h : AlertSystem.host) (ev : event) : M state unit :=
  if is_directory ev then ret tt
  else
    log_file_event h "DELETED" (src_path ev) ;;
    send_alert h ("FILE DELETION DETECTED: " +:+ src_path ev) "FILE_DELETED"
               true.

Definition on_moved (h : AlertSystem.host) (ev : event) : M state unit :=
  if is_directory ev then ret tt
  else
    log_file_event h
      ("MOVED from " +:+ src_path ev +:+ " to " +:+ dest_path ev)
      EmptyString ;;
    send_alert h ("File moved: " +:+ src_path ev +:+ " -> " +:+ dest_path ev)
               "FILE_MOVED" false.

End FileMonitor.

(** ** process_monitor.py: the process watcher *)

Module ProcessMonitor.
Import Py.

(** [proc.info] of one element of [psutil.process_iter(attrs)].  psutil
    fills an attribute it could not read (access denied, zombie) with
    [None]; each scan reads the attributes it asked for. *)
Record proc_info := ProcInfo {
  pid : Z;
  name : option string;
  username : option string;
  cmdline : option (list string);
  cpu_percent : option Q;
  memory_percent : option Q
}.

(** The settings of [__init__]. *)
Record config := Config {
  suspicious_names : list string;
  cpu_threshold : Q;
  memory_threshold : Q;
  alert_threshold : nat
}.

Definition default_config : config :=
  {| suspicious_names :=
       [ "nc"; "netcat"; "nmap"; "masscan"; "hping";
         "metasploit"; "msfconsole"; "armitage";
         "mimikatz"; "procdump"; "pwdump";
         "keylogger"; "logger";
         "cryptominer"; "xmrig"; "minergate";
         "backdoor"; "trojan"; "rootkit" ];
     cpu_threshold := 80;
     memory_threshold := 80;
     alert_threshold := 3 |}.

(** The fields interpolated into the three alert f-strings. *)
Inductive alert_message :=
  | SuspiciousProcessDetected (name : option string) (pid : Z)
      (user : option string) (command : string)
  | HighCpuUsage (name : option string) (pid : Z) (cpu threshold : Q)
  | HighMemoryUsage (name : option string) (pid : Z) (memory threshold : Q).

(** The fields interpolated into the f-strings of process_monitor.log. *)
Inductive event_message :=
  | NewProcess (pid : Z) (name user : option string) (command : string)
  | HighCpu (pid : Z) (name : option string) (cpu : Q)
  | HighMemory (pid : Z) (name : option string) (memory : Q).

(** A line of process_monitor.log: [[timestamp] event_type: message]. *)
Record process_line := ProcessLine {
  pl_timestamp : string;
  pl_event_type : string;
  pl_message : event_message
}.

Record state := State {
  known_processes : gset Z;
  high_resource_tracker : gmap string nat;
  process_log : list process_line;
  alert_system : AlertSystem.sink alert_message
}.

Definition initial_state : state := State ∅ ∅ [] AlertSystem.empty_sink.

(** [f"cpu_{pid}"] and [f"mem_{pid}"] *)
Definition cpu_key (p : Z) : string := "cpu_" +:+ pretty p.
Definition mem_key (p : Z) : string := "mem_" +:+ pretty p.

(** Reading [self.high_resource_tracker[key]], a [defaultdict(int)]. *)
Definition counter (st : state) (key : string) : nat :=
  default 0%nat (high_resource_tracker st !! key).

Definition set_counter (key : string) (n : nat) : M state unit :=
  modify (fun st =>
    State (known_processes st) (<[key := n]> (high_resource_tracker st))
          (process_log st) (alert_system st)).

Definition log_process_event (h : AlertSystem.host) (event_type : string)
    (message : event_message) : M state unit :=
  modify (fun st =>
    State (known_processes st) (high_resource_tracker st)
          (process_log st ++
             [ProcessLine (AlertSystem.timestamp h) event_type message])
          (alert_system st)).

(** One scan of the process table by each of the two checks, as one round
    of the loop of [monitor] sees them. *)
Record tick := Tick {
  tick_host : AlertSystem.host;
  new_scan : list proc_info;
  usage_scan : list proc_info
}.

Section Watcher.
(** The text of an alert message (the f-strings format their floats with
    [.1f]), and the settings. *)
Context (render : alert_message -> string) (cfg : config).

Definition send_alert (h : AlertSystem.host) (message : alert_message)
    (severity : string) (play_sound : bool) : M state unit :=
  zoom alert_system
       (fun s st =>
          State (known_processes st) (high_resource_tracker st)
                (process_log st) s)
       (AlertSystem.send_alert render h message severity play_sound true).

(** [process_name.lower()] raises on [None]. *)
Definition is_suspicious_name (process_name : option string) : M state bool :=
  match process_name with
  | None => raise AttributeError
  | Some n =>
      let process_name_lower := lower n in
      ret (existsb (fun suspicious => contains suspicious process_name_lower)
                   (suspicious_names cfg))
  end.

(** The body of the loop of [check_new_processes] for one process;
    [current] is [current_processes], to which the pid is added before any
    statement that can raise. *)
Definition visit_process (h : AlertSystem.host) (known : gset Z)
    (proc : proc_info) (current : gset Z) : M state (gset Z) :=
  let cmd :=
    match cmdline proc with
    | Some (w :: ws) => join " " (w :: ws)
    | _ => EmptyString
    end in
  let current := current ∪ {[pid proc]} in
  try_except
    ((if bool_decide (pid proc ∈ known) then ret tt
      else
        log_process_event h "NEW_PROCESS"
          (NewProcess (pid proc) (name proc) (username proc)
                      (slice_to 100 cmd)) ;;
        let* suspicious := is_suspicious_name (name proc) in
        if suspicious then
          send_alert h
            (SuspiciousProcessDetected (name proc) (pid proc)
               (username proc) (slice_to 100 cmd))
            "SUSPICIOUS_PROCESS" true
        else ret tt) ;;
     ret current)
    psutil_exception
    (ret current).

Fixpoint visit_processes (h : AlertSystem.host) (known : gset Z)
    (procs : list proc_info) (current : gset Z) : M state (gset Z) :=
  match procs with
  | [] => ret current
  | proc :: rest =>
      let* current := visit_process h known proc current in
      visit_processes h known rest current
  end.

Definition check_new_processes (h : AlertSystem.host)
    (procs : list proc_info) : M state unit :=
  let* st := get in
  let* current_processes :=
    visit_processes h (known_processes st) procs ∅ in
  modify (fun st =>
    State current_processes (high_resource_tracker st) (process_log st)
          (alert_system st)).

(** The block [check_resource_usage] writes once for the CPU and once for
    the memory: [reading > threshold] raises on [None]; otherwise the
    streak under [key] grows, alerts at [alert_threshold] and restarts,
    or is put back to zero. *)
Definition check_metric (h : AlertSystem.host) (key : string)
    (reading : option Q) (threshold : Q) (event_type : string)
    (event : Q -> event_message) (message : Q -> alert_message)
  : M state unit :=
  match reading with
  | None => raise TypeError
  | Some percent =>
      if Qgtb percent threshold then
        (let* st := get in set_counter key (counter st key + 1)) ;;
        let* st := get in
        if (alert_threshold cfg <=? counter st key)%nat then
          log_process_event h event_type (event percent) ;;
          send_alert h (message percent) event_type false ;;
          set_counter key 0
        else ret tt
      else set_counter key 0
  end.

(** The body of the loop of [check_resource_usage] for one process. *)
Definition check_process (h : AlertSystem.host) (proc : proc_info)
  : M state unit :=
  try_except
    (check_metric h (cpu_key (pid proc)) (cpu_percent proc)
       (cpu_threshold cfg) "HIGH_CPU"
       (HighCpu (pid proc) (name proc))
       (fun cpu => HighCpuUsage (name proc) (pid proc) cpu
                     (cpu_threshold cfg)) ;;
     check_metric h (mem_key (pid proc)) (memory_percent proc)
       (memory_threshold cfg) "HIGH_MEMORY"
       (HighMemory (pid proc) (name proc))
       (fun mem => HighMemoryUsage (name proc) (pid proc) mem
                     (memory_threshold cfg)))
    psutil_exception
    (ret tt).

Definition check_resource_usage (h : AlertSystem.host)
    (procs : list proc_info) : M state unit :=
  for_each procs (check_process h).

(** One round of the [while True] loop of [monitor]. *)
Definition monitor_round (t : tick) : M state unit :=
  check_new_processes (tick_host t) (new_scan t) ;;
  check_resource_usage (tick_host t) (usage_scan t).

(** [monitor]: the known processes are initialised from the process
    table, then the rounds run; only [KeyboardInterrupt] is handled around
    the loop, so an exception of a round ends it. *)
Definition monitor (initial_pids : list Z) (rounds : list tick)
  : M state unit :=
  modify (fun st =>
    State (list_to_set initial_pids) (high_resource_tracker st)
          (process_log st) (alert_system st)) ;;
  for_each rounds monitor_round.

End Watcher.

End ProcessMonitor.

(** * Vocabulary of the properties

    The conditions, projections and expected values in which the
    properties below are stated, and the inputs of the scenarios. *)

Local Open Scope list_scope.

Module PacketMonitorTerms.
Import Py PacketMonitor.

Section Detector.
Context (cfg : config).

(** Every tracked source holds fewer ports than the threshold. *)
Definition under_threshold (st : state) : Prop :=
  ∀ src e, scan_tracker st !! src = Some e ->
           (size (ports e) < port_scan_threshold cfg)%nat.

(** Probes of the source [src] that arrive no later than the window after
    [t1]. *)
Definition in_burst (src : string) (t1 : Q) (p : probe) : Prop :=
  p_src p = src ∧ (p_time p - t1 <= time_window cfg)%Q.

End Detector.

End PacketMonitorTerms.

Module NetworkMonitorTerms.
Import Py NetworkMonitor.

(** The name [analyze_connection] ends up with: that of the owning
    process, or the placeholder when there is no pid or the lookup
    raises. *)
Definition resolved_name (h : host) (conn : sconn) : string :=
  match truthy_pid (pid conn) with
  | Some p =>
      match process_name_of h p with
      | inr n => n
      | inl _ => "Unknown"
      end
  | None => "Unknown"
  end.

(** The two addresses as [analyze_connection] prints them. *)
Definition local_addr_of (conn : sconn) : string :=
  from_option show_addr "N/A" (laddr conn).

Definition remote_addr_of (conn : sconn) : string :=
  from_option show_addr "N/A" (raddr conn).

(** The evidence line of a connection. *)
Definition evidence_line (h : host) (conn : sconn) : connection_line :=
  ConnectionLine (timestamp h)
    (conn_info_of (local_addr_of conn) (remote_addr_of conn) (status conn)
       (resolved_name h conn) (pid conn)).

(** The alert line of an inbound connection. *)
Definition threat_line (h : host) (conn : sconn) : alert_line :=
  AlertLine (timestamp h) "THREAT"
    (threat_message (ip <$> raddr conn) (local_addr_of conn)
       (resolved_name h conn) (pid conn)).

(** What [analyze_connection] prints. *)
Definition console_lines (h : host) (conn : sconn) : list string :=
  if is_inbound_connection h conn then
    ["THREAT" +:+ ": " +:+ al_message (threat_line h conn)]
  else if is_listening_port conn then
    ["Listening port detected: " +:+ local_addr_of conn +:+
     " (Process: " +:+ resolved_name h conn +:+ ")"]
  else [].

(** The classification rule, as one condition. *)
Definition inbound_threat (h : host) (conn : sconn) : Prop :=
  status conn = "ESTABLISHED"
  ∧ ∃ l r, laddr conn = Some l ∧ raddr conn = Some r
           ∧ ip l ∈ local_ips h
           ∧ (ip r ∉ local_ips h)
           ∧ startswith (ip r) "127." = false.

(** The state after one visit. *)
Definition visited (h : host) (st : state) (conn : sconn) : state :=
  fst (visit_connection h conn st).

(** The state after one poll. *)
Definition polled (st : state) (r : host * list sconn) : state :=
  fold_left (visited (fst r)) (snd r) st.

(** Every identity that was seen has the evidence line of a connection
    with that identity. *)
Definition audited (st : state) : Prop :=
  ∀ id, id ∈ seen_connections st ->
        ∃ h conn, conn_id conn = Some id
                  ∧ evidence_line h conn ∈ all_connections st.

End NetworkMonitorTerms.

Module AlertSystemTerms.
Import Py AlertSystem.

Section Sink.
Context {Msg : Type} (text : Msg -> string).

(** The delivery attempts of [play_alert_sound]: three bells and the
    system sound, or the first bell only when it raises. *)
Definition sound_attempts (h : host) : list channel_op :=
  match bell_fault h with
  | Some _ => [Bell]
  | None => [Bell; Bell; Bell; SystemSound]
  end.

(** The popup that [send_alert] asks for. *)
Definition popup_of (message : Msg) (severity : string) : channel_op :=
  let short_message :=
    if (200 <? String.length (text message))%nat
    then slice_to 200 (text message) +:+ "..."
    else text message in
  Popup
    (replace_char double_quote "'"
       (replace_char "!"%char EmptyString (siren +:+ " " +:+ severity)))
    (slice_to 200
       (replace_char double_quote "'"
          (replace_char "!"%char EmptyString short_message))).

(** The delivery attempts of one [send_alert]. *)
Definition delivery_attempts (h : host) (message : Msg) (severity : string)
    (play_sound notify : bool) : list channel_op :=
  (if play_sound then sound_attempts h else [])
  ++ (if notify then [popup_of message severity] else []).

End Sink.

End AlertSystemTerms.

Module FileMonitorTerms.
Import Py FileMonitor.

(** The key alerted less than [event_window] ago. *)
Definition recently_alerted (st : state) (now : Q) (event_key : string)
  : Prop :=
  ∃ t, recent_events st !! event_key = Some t ∧ (now - t < event_window)%Q.

(** The alert sink after the dispatch of an alert. *)
Definition dispatched (h : AlertSystem.host) (message severity : string)
    (play_sound : bool) (s : AlertSystem.sink string)
  : AlertSystem.sink string :=
  fst (AlertSystem.send_alert id h message severity play_sound true s).

(** The state after the evidence line of an event is written. *)
Definition logged (h : AlertSystem.host) (event_type path : string)
    (st : state) : state :=
  State (recent_events st)
        (file_access_log st ++
           [FileLine (AlertSystem.timestamp h) event_type path])
        (alert_system st).

End FileMonitorTerms.

Module ProcessMonitorTerms.
Import Py ProcessMonitor.

(** The two resources [check_resource_usage] follows. *)
Inductive metric := Cpu | Memory.

#[global] Instance metric_eq_dec : EqDecision metric.
Proof. solve_decision. Defined.

(** The key, the reading, the threshold, the severity and the messages
    that belong to a resource. *)
Definition key_of (m : metric) (p : Z) : string :=
  match m with
  | Cpu => cpu_key p
  | Memory => mem_key p
  end.

Definition reading_of (m : metric) (proc : proc_info) : option Q :=
  match m with
  | Cpu => cpu_percent proc
  | Memory => memory_percent proc
  end.

Definition threshold_of (cfg : config) (m : metric) : Q :=
  match m with
  | Cpu => cpu_threshold cfg
  | Memory => memory_threshold cfg
  end.

Definition severity_of (m : metric) : string :=
  match m with
  | Cpu => "HIGH_CPU"
  | Memory => "HIGH_MEMORY"
  end.

Definition alert_of (cfg : config) (m : metric) (proc : proc_info)
    (percent : Q) : alert_message :=
  match m with
  | Cpu => HighCpuUsage (name proc) (pid proc) percent (cpu_threshold cfg)
  | Memory =>
      HighMemoryUsage (name proc) (pid proc) percent (memory_threshold cfg)
  end.

Definition event_of (m : metric) (proc : proc_info) (percent : Q)
  : event_message :=
  match m with
  | Cpu => HighCpu (pid proc) (name proc) percent
  | Memory => HighMemory (pid proc) (name proc) percent
  end.

(** The alert lines of one resource of one pid. *)
Definition concerns (m : metric) (p : Z)
    (l : AlertSystem.log_line alert_message) : bool :=
  match m, AlertSystem.line_message l with
  | Cpu, HighCpuUsage _ q _ _ => Z.eqb q p
  | Memory, HighMemoryUsage _ q _ _ => Z.eqb q p
  | _, _ => false
  end.

Definition resource_alerts (m : metric) (p : Z) (st : state)
  : list (AlertSystem.log_line alert_message) :=
  List.filter (concerns m p) (AlertSystem.alerts_log (alert_system st)).

Section Watcher.
Context (render : alert_message -> string) (cfg : config).

(** The sink after the dispatch of an alert. *)
Definition dispatched (h : AlertSystem.host) (message : alert_message)
    (severity : string) (play_sound : bool)
    (s : AlertSystem.sink alert_message) : AlertSystem.sink alert_message :=
  fst (AlertSystem.send_alert render h message severity play_sound true s).

(** The streak after a reading, and whether the reading completes it. *)
Definition completes (over : bool) (streak : nat) : bool :=
  over && (alert_threshold cfg <=? streak + 1)%nat.

Definition next_streak (over : bool) (streak : nat) : nat :=
  if over then
    if (alert_threshold cfg <=? streak + 1)%nat then 0%nat
    else (streak + 1)%nat
  else 0%nat.

(** The state after one resource of one process has been checked. *)
Definition after_metric (h : AlertSystem.host) (m : metric)
    (proc : proc_info) (percent : Q) (st : state) : state :=
  let key := key_of m (pid proc) in
  let over := Qgtb percent (threshold_of cfg m) in
  let full := completes over (counter st key) in
  State (known_processes st)
        (<[key := next_streak over (counter st key)]>
           (high_resource_tracker st))
        (process_log st ++
           (if full
            then [ProcessLine (AlertSystem.timestamp h) (severity_of m)
                    (event_of m proc percent)]
            else []))
        (if full
         then dispatched h (alert_of cfg m proc percent) (severity_of m)
                false (alert_system st)
         else alert_system st).

(** A process whose two readings psutil could take. *)
Definition readable (proc : proc_info) : Prop :=
  is_Some (cpu_percent proc) ∧ is_Some (memory_percent proc).

(** The state after one process has been checked. *)
Definition checked (h : AlertSystem.host) (st : state) (proc : proc_info)
  : state :=
  fst (check_process render cfg h proc st).

End Watcher.

End ProcessMonitorTerms.

Module ProcessWatchTerms.
Import Py ProcessMonitor ProcessMonitorTerms.

(** The SUSPICIOUS_PROCESS alert lines of one pid. *)
Definition flags (p : Z) (l : AlertSystem.log_line alert_message) : bool :=
  match AlertSystem.line_message l with
  | SuspiciousProcessDetected _ q _ _ => Z.eqb q p
  | _ => false
  end.

Definition suspicion_alerts (p : Z) (st : state)
  : list (AlertSystem.log_line alert_message) :=
  List.filter (flags p) (AlertSystem.alerts_log (alert_system st)).

(** [' '.join(cmdline)[:100]], the empty string for a missing or empty
    command line. *)
Definition command_of (proc : proc_info) : string :=
  slice_to 100
    match cmdline proc with
    | Some (w :: ws) => join " " (w :: ws)
    | _ => EmptyString
    end.

Definition suspicion_of (proc : proc_info) : alert_message :=
  SuspiciousProcessDetected (name proc) (pid proc) (username proc)
    (command_of proc).

Section Watcher.
Context (render : alert_message -> string) (cfg : config).

(** The lower-cased name contains one of the configured substrings. *)
Definition suspicious (n : string) : Prop :=
  ∃ s, s ∈ suspicious_names cfg ∧ contains s (lower n) = true.

(** The state after one process of the scan of [check_new_processes]. *)
Definition noticed (h : AlertSystem.host) (known : gset Z) (st : state)
    (proc : proc_info) : state :=
  if bool_decide (pid proc ∈ known) then st
  else
    State (known_processes st) (high_resource_tracker st)
          (process_log st ++
             [ProcessLine (AlertSystem.timestamp h) "NEW_PROCESS"
                (NewProcess (pid proc) (name proc) (username proc)
                   (command_of proc))])
          (if existsb (λ s, contains s (lower (default EmptyString
                                                       (name proc))))
                (suspicious_names cfg)
           then dispatched render h (suspicion_of proc) "SUSPICIOUS_PROCESS"
                  true (alert_system st)
           else alert_system st).

End Watcher.

End ProcessWatchTerms.

Module ProcessLoopTerms.
Import Py ProcessMonitor ProcessMonitorTerms ProcessWatchTerms.

Section Watcher.
Context (render : alert_message -> string) (cfg : config).

(** A round in which every name and reading could be taken, the pids are
    distinct, and the process [p] reads above the threshold of [m]. *)
Definition high_round (m : metric) (p : Z) (t : tick) : Prop :=
  Forall (λ q, is_Some (name q)) (new_scan t)
  ∧ NoDup (pid <$> usage_scan t)
  ∧ Forall readable (usage_scan t)
  ∧ ∃ proc percent, proc ∈ usage_scan t ∧ pid proc = p
                    ∧ reading_of m proc = Some percent
                    ∧ (threshold_of cfg m < percent)%Q.

(** The state after a round. *)
Definition after_round (st : state) (t : tick) : state :=
  fst (monitor_round render cfg t st).

End Watcher.

End ProcessLoopTerms.

Module PacketRunTerms.
Import Py PacketMonitor.

(** The alerts that name a source, and the probes that come from it. *)
Definition alerts_about (src : string) (st : state) : list alert :=
  List.filter (λ a, String.eqb (ps_source (message a)) src)
    (packet_alerts st).

Definition probes_from (src : string) (ps : list probe) : list probe :=
  List.filter (λ p, String.eqb (p_src p) src) ps.

(** The ports a source has probed. *)
Definition ports_probed (src : string) (ps : list probe) : gset Z :=
  list_to_set (p_port <$> probes_from src ps).

(** What an alert reports when the set of the source reached the
    threshold with the call that fired it. *)
Definition reports_threshold (cfg : config) (a : alert) : Prop :=
  severity a = "PORT_SCAN"
  ∧ ps_unique_ports (message a) = port_scan_threshold cfg
  ∧ length (ps_ports (message a)) = (10 `min` port_scan_threshold cfg)%nat
  ∧ ps_ellipsis (message a) = (10 <? port_scan_threshold cfg)%nat
  ∧ StronglySorted Z.le (ps_ports (message a))
  ∧ (ps_time_span (message a) <= time_window cfg)%Q.

(** What the detector reads of a probe: its time, source and port. *)
Definition footprint (p : probe) : Q * string * Z :=
  (p_time p, p_src p, p_port p).

(** The call of the detector that a captured packet leads to, if any: an
    IP packet that is a TCP packet with the SYN bit (bit 1 of the flags)
    set, or that is not a TCP packet and is a UDP packet. *)
Definition probe_of (a : arrival) : option probe :=
  match ip_layer_of (a_packet a) with
  | None => None
  | Some ip =>
      match tcp_layer_of (a_packet a) with
      | Some tcp =>
          if Z.testbit (tcp_flags tcp) 1
          then Some (Probe (a_time a) (ip_src ip) (ip_dst ip) (tcp_dport tcp)
                       "TCP")
          else None
      | None =>
          match udp_layer_of (a_packet a) with
          | Some udp =>
              Some (Probe (a_time a) (ip_src ip) (ip_dst ip) (udp_dport udp)
                      "UDP")
          | None => None
          end
      end
  end.

End PacketRunTerms.

Module NetworkRunTerms.
Import Py NetworkMonitor.

(** A connection that has no identity or whose identity was seen. *)
Definition known (st : state) (conn : sconn) : Prop :=
  ∀ id, conn_id conn = Some id -> id ∈ seen_connections st.

(** One evidence line for each identity seen, and no more alert lines
    than evidence lines. *)
Definition tallied (st : state) : Prop :=
  length (all_connections st) = size (seen_connections st)
  ∧ (length (network_alerts st) <= length (all_connections st))%nat.

End NetworkRunTerms.

Module NotificationTerms.
Import Py AlertSystem.

(** [c in s] for a character. *)
Definition has_char (c : Ascii.ascii) (s : string) : bool :=
  contains (String c EmptyString) s.

(** What [send_desktop_notification] makes of a text before it cuts it:
    the exclamation marks removed, the double quotes turned into single
    ones. *)
Definition cleaned (s : string) : string :=
  replace_char double_quote "'" (replace_char "!"%char EmptyString s).

End NotificationTerms.

Module FileRunTerms.
Import Py FileMonitor.

(** The four kinds of events that watchdog hands to the monitor, each to
    the handler of its kind. *)
Inductive kind := Modified | Created | Deleted | Moved.

(** An event as it occurs: its kind, the machine and the clock reading
    at that moment, and the event. *)
Record occurrence := Occurrence {
  o_kind : kind;
  o_host : AlertSystem.host;
  o_time : Q;
  o_event : event
}.

Definition dispatch (o : occurrence) : M state unit :=
  match o_kind o with
  | Modified => on_modified (o_host o) (o_time o) (o_event o)
  | Created => on_created (o_host o) (o_time o) (o_event o)
  | Deleted => on_deleted (o_host o) (o_event o)
  | Moved => on_moved (o_host o) (o_event o)
  end.

(** The events on files, and among them the deletions and moves. *)
Definition on_file (o : occurrence) : bool := negb (is_directory (o_event o)).

Definition critical (o : occurrence) : bool :=
  on_file o
  && match o_kind o with
     | Deleted | Moved => true
     | _ => false
     end.

(** The lines of the alert log. *)
Definition alert_lines (st : state) : list (AlertSystem.log_line string) :=
  AlertSystem.alerts_log (alert_system st).

End FileRunTerms.

Module ProcessRunTerms.
Import Py ProcessMonitor ProcessMonitorTerms ProcessWatchTerms.


(** A process whose name psutil could read. *)
Definition named (proc : proc_info) : Prop := is_Some (name proc).

(** A round in which every name and every reading could be taken. *)
Definition readable_round (t : tick) : Prop :=
  Forall named (new_scan t) ∧ Forall readable (usage_scan t).

(** The processes of a scan whose pid is not among the known ones, and
    the line of process_monitor.log for such a process. *)
Definition unknown (known : gset Z) (proc : proc_info) : bool :=
  negb (bool_decide (pid proc ∈ known)).

Definition new_process_line (h : AlertSystem.host) (proc : proc_info)
  : process_line :=
  ProcessLine (AlertSystem.timestamp h) "NEW_PROCESS"
    (NewProcess (pid proc) (name proc) (username proc) (command_of proc)).

(** An ASCII capital letter. *)
Definition is_upper (c : Ascii.ascii) : bool :=
  let n := Ascii.nat_of_ascii c in ((65 <=? n) && (n <=? 90))%nat.

(** The string holds a capital letter. *)
Fixpoint has_upper (s : string) : bool :=
  match s with
  | EmptyString => false
  | String c r => is_upper c || has_upper r
  end.

End ProcessRunTerms.

(** ** Scenarios *)

(** The scenario of the specification: 10.0.0.5 sends SYN packets to five
    ports within four seconds. *)
Definition scan_scenario : list PacketMonitor.probe :=
  [ PacketMonitor.Probe 0 "10.0.0.5" "192.168.1.10" 22 "TCP";
    PacketMonitor.Probe 1 "10.0.0.5" "192.168.1.10" 80 "TCP";
    PacketMonitor.Probe 2 "10.0.0.5" "192.168.1.10" 443 "TCP";
    PacketMonitor.Probe 3 "10.0.0.5" "192.168.1.10" 3306 "TCP";
    PacketMonitor.Probe 4 "10.0.0.5" "192.168.1.10" 8080 "TCP" ].

(** The scenario of the specification: the machine 192.168.1.10 serves
    port 443 to 203.0.113.7. *)
Definition web_host : NetworkMonitor.host :=
  NetworkMonitor.Host {[ "192.168.1.10"; "127.0.0.1" ]}
    (λ p, if Z.eqb p 812 then inr "nginx" else inl Py.NoSuchProcess)
    "2024-05-01 12:00:00".

Definition web_conn : NetworkMonitor.sconn :=
  NetworkMonitor.SConn (Some (NetworkMonitor.Addr "192.168.1.10" 443))
    (Some (NetworkMonitor.Addr "203.0.113.7" 51422)) "ESTABLISHED"
    (Some 812%Z).

(** A connection that psutil lists without a local address. *)
Definition unbound_conn : NetworkMonitor.sconn :=
  NetworkMonitor.SConn None None "NONE" None.

(** A host on which every delivery primitive raises. *)
Definition deaf_host : AlertSystem.host :=
  AlertSystem.Host (Some Py.OSError) (Some Py.TimeoutExpired)
    (Some Py.OSError) "2024-05-01 12:00:00".

(** A file that alerted as modified at time 10, and events on it half a
    second later. *)
Definition notes_event : FileMonitor.event :=
  FileMonitor.Event false "/home/alice/notes.txt" EmptyString.

Definition just_alerted : FileMonitor.state :=
  FileMonitor.State {[ "modified:/home/alice/notes.txt" := 10%Q ]} []
    AlertSystem.empty_sink.

Definition desk_host : AlertSystem.host :=
  AlertSystem.Host None None None "2024-05-01 12:00:00".

Definition quiet_host : AlertSystem.host :=
  AlertSystem.Host None None None "2024-05-01 12:00:00".

Definition plain_render (m : ProcessMonitor.alert_message) : string :=
  "alert".

(** A scan with one busy process, and a state in which its CPU streak
    stands at two. *)
Definition busy_proc : ProcessMonitor.proc_info :=
  ProcessMonitor.ProcInfo 7 (Some "ffmpeg") (Some "alice")
    (Some ["ffmpeg"; "-i"; "a.mkv"]) (Some 95%Q) (Some 10%Q).

Definition two_high_readings : ProcessMonitor.state :=
  ProcessMonitor.State {[7%Z]} {[ "cpu_7" := 2%nat ]} []
    AlertSystem.empty_sink.

(** A scan in which a netcat listener shows up. *)
Definition netcat_proc : ProcessMonitor.proc_info :=
  ProcessMonitor.ProcInfo 4242 (Some "Netcat") (Some "mallory")
    (Some ["Netcat"; "-l"; "4444"]) None None.

(** A process whose CPU percentage psutil could not read. *)
Definition opaque_proc : ProcessMonitor.proc_info :=
  ProcessMonitor.ProcInfo 1 (Some "systemd") (Some "root") None None
    (Some (1 # 10)).

(** A patient scanner: 10.0.0.5 probes a new port every eleven seconds. *)
Definition patient_scan : list PacketMonitor.probe :=
  [ PacketMonitor.Probe 0 "10.0.0.5" "192.168.1.10" 21 "TCP";
    PacketMonitor.Probe 11 "10.0.0.5" "192.168.1.10" 22 "TCP";
    PacketMonitor.Probe 22 "10.0.0.5" "192.168.1.10" 23 "TCP";
    PacketMonitor.Probe 33 "10.0.0.5" "192.168.1.10" 25 "TCP";
    PacketMonitor.Probe 44 "10.0.0.5" "192.168.1.10" 80 "TCP";
    PacketMonitor.Probe 55 "10.0.0.5" "192.168.1.10" 443 "TCP" ].

(** A busy client: 10.0.0.8 opens six connections to two ports within
    five seconds. *)
Definition busy_client : list PacketMonitor.probe :=
  [ PacketMonitor.Probe 0 "10.0.0.8" "192.168.1.10" 80 "TCP";
    PacketMonitor.Probe 1 "10.0.0.8" "192.168.1.10" 443 "TCP";
    PacketMonitor.Probe 2 "10.0.0.8" "192.168.1.10" 80 "TCP";
    PacketMonitor.Probe 3 "10.0.0.8" "192.168.1.10" 443 "TCP";
    PacketMonitor.Probe 4 "10.0.0.8" "192.168.1.10" 80 "TCP";
    PacketMonitor.Probe 5 "10.0.0.8" "192.168.1.10" 443 "TCP" ].

(** The scan of the scenario spread over two targets and both
    protocols. *)
Definition spread_scan : list PacketMonitor.probe :=
  [ PacketMonitor.Probe 0 "10.0.0.5" "192.168.1.10" 22 "TCP";
    PacketMonitor.Probe 1 "10.0.0.5" "192.168.1.11" 80 "UDP";
    PacketMonitor.Probe 2 "10.0.0.5" "192.168.1.10" 443 "UDP";
    PacketMonitor.Probe 3 "10.0.0.5" "192.168.1.11" 3306 "TCP";
    PacketMonitor.Probe 4 "10.0.0.5" "192.168.1.11" 8080 "UDP" ].

(** Captured packets: the SYN of a client and the SYN-ACK that answers
    it, an ACK that carries data, a DNS request over UDP, and an ARP frame
    without IP layer. *)
Definition syn_packet : PacketMonitor.packet :=
  PacketMonitor.Packet
    (Some (PacketMonitor.IPLayer "10.0.0.5" "192.168.1.10"))
    (Some (PacketMonitor.TCPLayer 51422 443 2)) None.

Definition syn_ack_packet : PacketMonitor.packet :=
  PacketMonitor.Packet
    (Some (PacketMonitor.IPLayer "93.184.216.34" "192.168.1.10"))
    (Some (PacketMonitor.TCPLayer 443 40112 18)) None.

Definition ack_packet : PacketMonitor.packet :=
  PacketMonitor.Packet
    (Some (PacketMonitor.IPLayer "10.0.0.5" "192.168.1.10"))
    (Some (PacketMonitor.TCPLayer 51422 443 16)) None.

Definition dns_packet : PacketMonitor.packet :=
  PacketMonitor.Packet
    (Some (PacketMonitor.IPLayer "192.168.1.10" "9.9.9.9"))
    None (Some (PacketMonitor.UDPLayer 40000 53)).

Definition arp_frame : PacketMonitor.packet :=
  PacketMonitor.Packet None None None.

(** A machine with one IPv4 and one IPv6 address on its network card, and
    a connection that a remote machine made to the IPv6 address. *)
Definition dual_stack : list (string * list NetworkMonitor.snicaddr) :=
  [ ("lo", [ NetworkMonitor.SNicAddr NetworkMonitor.AF_INET "127.0.0.1";
             NetworkMonitor.SNicAddr NetworkMonitor.AF_INET6 "::1" ]);
    ("eth0", [ NetworkMonitor.SNicAddr NetworkMonitor.AF_INET "192.168.1.10";
               NetworkMonitor.SNicAddr NetworkMonitor.AF_INET6 "2001:db8::10";
               NetworkMonitor.SNicAddr NetworkMonitor.AF_PACKET
                 "52:54:00:12:34:56" ]) ].

Definition dual_stack_host : NetworkMonitor.host :=
  NetworkMonitor.Host (NetworkMonitor.get_local_ips dual_stack)
    (λ p, if Z.eqb p 812 then inr "nginx" else inl Py.NoSuchProcess)
    "2024-05-01 12:00:00".

Definition ipv6_conn : NetworkMonitor.sconn :=
  NetworkMonitor.SConn (Some (NetworkMonitor.Addr "2001:db8::10" 443))
    (Some (NetworkMonitor.Addr "2001:db8::bad" 51422)) "ESTABLISHED"
    (Some 812%Z).

(** A connection between two loopback addresses, of which only the local
    one is the address of an interface. *)
Definition loopback_conn : NetworkMonitor.sconn :=
  NetworkMonitor.SConn (Some (NetworkMonitor.Addr "127.0.0.1" 8080))
    (Some (NetworkMonitor.Addr "127.0.0.5" 40000)) "ESTABLISHED"
    (Some 812%Z).

(** A message of 250 characters. *)
Definition long_message : string :=
  String.string_of_list_ascii (repeat "a"%char 250).

(** A directory that is removed. *)
Definition photos_event : FileMonitor.event :=
  FileMonitor.Event true "/home/alice/photos" EmptyString.

(** A file that is renamed. *)
Definition rename_event : FileMonitor.event :=
  FileMonitor.Event false "/home/alice/draft.txt" "/home/alice/final.txt".

(** A netcat listener that idles, and a process whose memory percentage
    psutil could not read. *)
Definition idle_netcat : ProcessMonitor.proc_info :=
  ProcessMonitor.ProcInfo 4242 (Some "Netcat") (Some "mallory")
    (Some ["Netcat"; "-l"; "4444"]) (Some 0%Q) (Some (1 # 10)).

Definition half_read_proc : ProcessMonitor.proc_info :=
  ProcessMonitor.ProcInfo 9 (Some "postgres") (Some "postgres") None
    (Some 97%Q) None.


(** A process that psutil lists without a name. *)
Definition nameless_proc : ProcessMonitor.proc_info :=
  ProcessMonitor.ProcInfo 2 None None None (Some 0%Q) (Some 0%Q).

(** A round in which the busy process and the idle listener run. *)
Definition busy_round : ProcessMonitor.tick :=
  ProcessMonitor.Tick quiet_host [busy_proc; idle_netcat]
    [busy_proc; idle_netcat].

(** * Properties *)

(** ** Numbers, strings and the monad *)

Module PyFacts.
Import Py.

Lemma Qgtb_true x y : Qgtb x y = true <-> (y < x)%Q.
Proof.
  unfold Qgtb. rewrite negb_true_iff, <- not_true_iff_false, Qle_bool_iff.
  split; lra.
Qed.

Lemma Qgtb_false x y : Qgtb x y = false <-> (x <= y)%Q.
Proof. unfold Qgtb. rewrite negb_false_iff, Qle_bool_iff. tauto. Qed.

Lemma Qltb_true x y : Qltb x y = true <-> (x < y)%Q.
Proof. apply Qgtb_true. Qed.

Lemma Qltb_false x y : Qltb x y = false <-> (y <= x)%Q.
Proof. apply Qgtb_false. Qed.

(** [startswith] and [in] are the prefix and the substring relations. *)
Lemma append_cons a p post : String a p +:+ post = String a (p +:+ post).
Proof. reflexivity. Qed.

Lemma prefix_spec p s :
  String.prefix p s = true <-> ∃ post, s = p +:+ post.
Proof.
  revert s. induction p as [| a p IH]; intros s.
  - destruct s; simpl; split; eauto.
  - setoid_rewrite append_cons.
    destruct s as [| b s]; simpl; [naive_solver |].
    destruct (Ascii.ascii_dec a b) as [<- | Hne]; [| naive_solver].
    rewrite IH. naive_solver.
Qed.

Lemma startswith_spec s p : startswith s p = true <-> ∃ post, s = p +:+ post.
Proof. apply prefix_spec. Qed.

Lemma contains_spec sub s :
  contains sub s = true <-> ∃ pre post, s = pre +:+ sub +:+ post.
Proof.
  induction s as [| c r IH].
  - change (contains sub EmptyString)
      with (String.prefix sub EmptyString || false).
    rewrite orb_true_iff, prefix_spec. split.
    + intros [[post Hs] | ?]; [| done]. by exists EmptyString, post.
    + intros (pre & post & Hs). left.
      destruct pre; [by exists post | done].
  - change (contains sub (String c r))
      with (String.prefix sub (String c r) || contains sub r).
    rewrite orb_true_iff, prefix_spec, IH. split.
    + intros [[post Hs] | (pre & post & ->)].
      * by exists EmptyString, post.
      * by exists (String c pre), post.
    + intros (pre & post & Hs). destruct pre as [| c' pre].
      * left. by exists post.
      * right. rewrite append_cons in Hs. simplify_eq. by exists pre, post.
Qed.

End PyFacts.

Module MonadFacts.
Import Py.

(** Unfolds the combinators of [M] in the goal. *)
Ltac unfold_M :=
  unfold try_except, mbind, M_bind, bind, zoom, get, modify, ret, raise.

(** A loop whose body never raises runs the body on every element. *)
Lemma for_each_total {S A} (body : A -> M S unit) (step : S -> A -> S) xs :
  (∀ x s, body x s = (step s x, Ok tt)) ->
  ∀ s, for_each xs body s = (fold_left step xs s, Ok tt).
Proof.
  intros Hbody. induction xs as [| x xs IH]; intros s; [done |].
  simpl. unfold bind. by rewrite Hbody, IH.
Qed.

(** The same for a loop over elements on each of which the body does not
    raise. *)
Lemma for_each_Forall {S A} (body : A -> M S unit) (step : S -> A -> S) xs :
  Forall (λ x, ∀ s, body x s = (step s x, Ok tt)) xs ->
  ∀ s, for_each xs body s = (fold_left step xs s, Ok tt).
Proof.
  induction 1 as [| x xs Hx _ IH]; intros s; [done |].
  simpl. unfold bind. by rewrite Hx, IH.
Qed.

(** A loop over a concatenation continues where the first part ended. *)
Lemma for_each_app {S A} (body : A -> M S unit) xs ys s s' :
  for_each xs body s = (s', Ok tt) ->
  for_each (xs ++ ys) body s = for_each ys body s'.
Proof.
  revert s. induction xs as [| x xs IH]; intros s Hrun; simpl in *.
  - unfold ret in Hrun. by simplify_eq.
  - unfold bind in *. destruct (body x s) as [s1 [[] | e]]; [| done].
    by apply IH.
Qed.

(** A loop stops at the first element on which the body raises. *)
Lemma for_each_raises {S A} (body : A -> M S unit) (step : S -> A -> S)
    xs x ys e s' :
  Forall (λ x, ∀ s, body x s = (step s x, Ok tt)) xs ->
  ∀ s, body x (fold_left step xs s) = (s', Raise e) ->
       for_each (xs ++ x :: ys) body s = (s', Raise e).
Proof.
  induction 1 as [| x0 xs Hx _ IH]; intros s Hraise; simpl in *.
  - unfold bind. by rewrite Hraise.
  - unfold bind. rewrite Hx. by apply IH.
Qed.

End MonadFacts.

(** ** The port-scan detector *)

Module PacketMonitorFacts.
Import Py PyFacts PacketMonitor PacketMonitorTerms.

Section Detector.
Context (cfg : config).

(** *** What one call does *)

Lemma length_sorted_ports (s : gset Z) : length (sorted_ports s) = size s.
Proof.
  unfold sorted_ports. apply Permutation_length, merge_sort_Permutation.
Qed.

(** The list of an alert is in ascending order and holds the ports of the
    set; up to ten ports it is not cut. *)
Lemma sorted_ports_sorted (s : gset Z) : StronglySorted Z.le (sorted_ports s).
Proof. unfold sorted_ports. apply StronglySorted_merge_sort; apply _. Qed.

Lemma elem_of_sorted_ports (s : gset Z) x : x ∈ sorted_ports s <-> x ∈ s.
Proof.
  unfold sorted_ports. by rewrite merge_sort_Permutation, elem_of_elements.
Qed.

Lemma take_sorted_ports (s : gset Z) :
  (size s <= 10)%nat -> take 10 (sorted_ports s) = sorted_ports s.
Proof. intros Hsize. apply take_ge. by rewrite length_sorted_ports. Qed.

Lemma detect_port_scan_quiet now src dst port proto st :
  let e := track cfg now port (tracker_get (scan_tracker st) src) in
  (size (ports e) < port_scan_threshold cfg)%nat ->
  detect_port_scan cfg now src dst port proto st
  = State (<[src := e]> (scan_tracker st)) (packet_alerts st).
Proof.
  intros e Hlt. unfold detect_port_scan. fold e.
  destruct (Nat.leb_spec (port_scan_threshold cfg) (size (ports e)));
    [lia | done].
Qed.

Lemma detect_port_scan_fires now src dst port proto st :
  let e := track cfg now port (tracker_get (scan_tracker st) src) in
  (port_scan_threshold cfg <= size (ports e))%nat ->
  detect_port_scan cfg now src dst port proto st
  = State (<[src := TrackerEntry (syn_count e) ∅ (Some now) (last_seen e)]>
             (scan_tracker st))
          (packet_alerts st ++
             [Alert "PORT_SCAN"
                (PortScanMessage src dst (size (ports e))
                   (now - default now (first_seen e))
                   (take 10 (sorted_ports (ports e)))
                   (10 <? length (sorted_ports (ports e)))%nat proto)]).
Proof.
  intros e Hge. unfold detect_port_scan. fold e.
  destruct (Nat.leb_spec (port_scan_threshold cfg) (size (ports e)));
    [| lia].
  unfold log_alert; simpl. by rewrite insert_insert_eq.
Qed.

Lemma detect_port_scan_other now src dst port proto st src' :
  src ≠ src' ->
  scan_tracker (detect_port_scan cfg now src dst port proto st) !! src'
  = scan_tracker st !! src'.
Proof.
  intros Hne. unfold detect_port_scan.
  destruct (_ <=? _)%nat; simpl; by rewrite !lookup_insert_ne.
Qed.

Lemma observe_all_snoc ps p st :
  observe_all cfg (ps ++ [p]) st = observe cfg (observe_all cfg ps st) p.
Proof. unfold observe_all. by rewrite fold_left_app. Qed.

(** The entry [track] builds when the source is within its window. *)
Lemma track_within now port e t1 :
  first_seen e = Some t1 ->
  (now - t1 <= time_window cfg)%Q ->
  track cfg now port e
  = TrackerEntry (syn_count e) (ports e ∪ {[port]}) (Some t1) (Some now).
Proof.
  intros Hf Hw. unfold track. rewrite Hf; simpl.
  by apply Qgtb_false in Hw as ->.
Qed.

(** The entry [track] builds when the window of the source is over. *)
Lemma track_expired now port e t1 :
  first_seen e = Some t1 ->
  (time_window cfg < now - t1)%Q ->
  track cfg now port e = TrackerEntry 0 {[port]} (Some now) (Some now).
Proof.
  intros Hf Hw. unfold track. rewrite Hf; simpl.
  by apply Qgtb_true in Hw as ->.
Qed.

(** The entry [track] builds for a source it has no dates for. *)
Lemma track_fresh now port :
  track cfg now port default_entry
  = TrackerEntry 0 {[port]} (Some now) (Some now).
Proof.
  unfold track; simpl. destruct (Qgtb _ _); [done |].
  by rewrite (left_id_L ∅ (∪)).
Qed.

(** *** The resident port sets stay under the threshold *)

Lemma under_threshold_detect now src dst port proto st :
  (0 < port_scan_threshold cfg)%nat ->
  under_threshold cfg st ->
  under_threshold cfg (detect_port_scan cfg now src dst port proto st).
Proof.
  intros Hpos Hst src' e' Hlook.
  destruct (decide (src = src')) as [<- | Hne].
  - pose (e := track cfg now port (tracker_get (scan_tracker st) src)).
    destruct (Nat.lt_ge_cases (size (ports e)) (port_scan_threshold cfg))
      as [Hlt | Hge].
    + rewrite detect_port_scan_quiet in Hlook by done. simpl in Hlook.
      rewrite lookup_insert_eq in Hlook. by simplify_eq.
    + rewrite detect_port_scan_fires in Hlook by done. simpl in Hlook.
      rewrite lookup_insert_eq in Hlook. simplify_eq. cbn [ports].
      by rewrite size_empty.
  - rewrite detect_port_scan_other in Hlook by done. by eapply Hst.
Qed.

Lemma under_threshold_observe_all ps st :
  (0 < port_scan_threshold cfg)%nat ->
  under_threshold cfg st ->
  under_threshold cfg (observe_all cfg ps st).
Proof.
  intros Hpos. revert st.
  induction ps as [| p ps IH]; intros st Hst; [done |].
  simpl. apply IH. by apply under_threshold_detect.
Qed.

(** *** A burst of distinct ports inside the window *)

(** While the window that opened at [t1] lasts and the threshold is not
    reached, new ports accumulate and nothing is logged. *)
Lemma observe_all_accumulates src t1 ps : ∀ st e,
  scan_tracker st !! src = Some e ->
  first_seen e = Some t1 ->
  Forall (in_burst cfg src t1) ps ->
  NoDup (p_port <$> ps) ->
  (∀ x, x ∈ p_port <$> ps -> x ∉ ports e) ->
  (size (ports e) + length ps < port_scan_threshold cfg)%nat ->
  ∃ e', scan_tracker (observe_all cfg ps st) !! src = Some e'
        ∧ ports e' = ports e ∪ list_to_set (p_port <$> ps)
        ∧ first_seen e' = Some t1
        ∧ packet_alerts (observe_all cfg ps st) = packet_alerts st.
Proof.
  induction ps as [| p ps IH]; intros st e Hlook Hfirst Hall Hnd Hnew Hsize.
  - exists e. simpl. split_and!; [done | set_solver | done | done].
  - apply Forall_cons in Hall as [[Hsrc Htime] Hall].
    rewrite fmap_cons in Hnd, Hnew. apply NoDup_cons in Hnd as [Hp Hnd].
    simpl in Hsize.
    set (e1 := TrackerEntry (syn_count e) (ports e ∪ {[p_port p]})
                 (Some t1) (Some (p_time p))).
    set (st1 := State (<[src := e1]> (scan_tracker st)) (packet_alerts st)).
    assert (Hsz : size (ports e1) = S (size (ports e))).
    { cbn [ports e1]. rewrite size_union, size_singleton by set_solver. lia. }
    assert (Hstep : observe cfg st p = st1).
    { unfold observe. rewrite Hsrc, detect_port_scan_quiet;
        unfold tracker_get; rewrite Hlook; simpl;
        rewrite (track_within _ _ _ t1) by done; [done |].
      fold e1. lia. }
    simpl. rewrite Hstep.
    destruct (IH st1 e1) as (e' & Hlook' & Hports & Hfirst' & Halerts);
      [apply lookup_insert_eq | done | done | done | | | ].
    + cbn [ports e1]. intros x Hx. set_solver.
    + lia.
    + exists e'. split_and!; [done | | done | done].
      rewrite Hports. cbn [ports e1]. set_solver.
Qed.

(** The call that brings the number of ports to the threshold logs the
    alert, with every port gathered since the window opened. *)
Lemma observe_fires src t1 p st e :
  scan_tracker st !! src = Some e ->
  first_seen e = Some t1 ->
  in_burst cfg src t1 p ->
  p_port p ∉ ports e ->
  S (size (ports e)) = port_scan_threshold cfg ->
  packet_alerts (observe cfg st p)
  = packet_alerts st ++
      [Alert "PORT_SCAN"
         (PortScanMessage src (p_dst p) (port_scan_threshold cfg)
            (p_time p - t1)
            (take 10 (sorted_ports (ports e ∪ {[p_port p]})))
            (10 <? port_scan_threshold cfg)%nat (p_proto p))].
Proof.
  intros Hlook Hfirst [Hsrc Htime] Hnew Hsize.
  assert (Hsz : size (ports e ∪ {[p_port p]}) = port_scan_threshold cfg).
  { rewrite size_union, size_singleton by set_solver. lia. }
  unfold observe. rewrite Hsrc, detect_port_scan_fires;
    unfold tracker_get; rewrite Hlook; simpl;
    rewrite (track_within _ _ _ t1) by done; cbn [ports first_seen].
  - by rewrite length_sorted_ports, Hsz.
  - lia.
Qed.

(** A burst from a source the tracker does not know yet: below the
    threshold it only accumulates. *)
Lemma observe_all_fresh src f bs st :
  scan_tracker st !! src = None ->
  Forall (in_burst cfg src (p_time f)) (f :: bs) ->
  NoDup (p_port <$> f :: bs) ->
  (length (f :: bs) < port_scan_threshold cfg)%nat ->
  ∃ e', scan_tracker (observe_all cfg (f :: bs) st) !! src = Some e'
        ∧ ports e' = list_to_set (p_port <$> f :: bs)
        ∧ first_seen e' = Some (p_time f)
        ∧ packet_alerts (observe_all cfg (f :: bs) st) = packet_alerts st.
Proof.
  intros Hnone Hall Hnd Hlen.
  apply Forall_cons in Hall as [[Hsrc _] Hall].
  rewrite fmap_cons in Hnd. apply NoDup_cons in Hnd as [Hf Hnd].
  simpl in Hlen.
  set (e1 := TrackerEntry 0 {[p_port f]} (Some (p_time f)) (Some (p_time f))).
  set (st1 := State (<[src := e1]> (scan_tracker st)) (packet_alerts st)).
  assert (Hstep : observe cfg st f = st1).
  { unfold observe. rewrite Hsrc, detect_port_scan_quiet;
      unfold tracker_get; rewrite Hnone; simpl; rewrite track_fresh;
      [done |].
    cbn [ports]. rewrite size_singleton. lia. }
  simpl. rewrite Hstep.
  destruct (observe_all_accumulates src (p_time f) bs st1 e1)
    as (e' & Hlook' & Hports & Hfirst' & Halerts);
    [apply lookup_insert_eq | done | done | done | | | ].
  - cbn [ports e1]. intros x Hx. set_solver.
  - cbn [ports e1]. rewrite size_singleton. lia.
  - exists e'. split_and!; [done | | done | done].
    rewrite Hports. cbn [ports e1]. set_solver.
Qed.

End Detector.
End PacketMonitorFacts.

Import Py PyFacts.

(** A burst of exactly as many calls as the threshold, from a source the
    tracker does not know: the calls before the last log nothing, the last
    one logs the alert. *)
Lemma burst_of_threshold_length
    (cfg : PacketMonitor.config) (st : PacketMonitor.state) (src : string)
    (before : list PacketMonitor.probe) (p : PacketMonitor.probe) :
  let calls := before ++ [p] in
  let t1 := PacketMonitor.p_time (default p (head before)) in
  length calls = PacketMonitor.port_scan_threshold cfg ->
  PacketMonitor.scan_tracker st !! src = None ->
  Forall (λ q, PacketMonitor.p_src q = src
               ∧ (PacketMonitor.p_time q - t1
                  <= PacketMonitor.time_window cfg)%Q) calls ->
  NoDup (PacketMonitor.p_port <$> calls) ->
  (∀ k, (k < length calls)%nat ->
        PacketMonitor.packet_alerts
          (PacketMonitor.observe_all cfg (take k calls) st)
        = PacketMonitor.packet_alerts st)
  ∧ PacketMonitor.packet_alerts (PacketMonitor.observe_all cfg calls st)
    = PacketMonitor.packet_alerts st ++
        [PacketMonitor.Alert "PORT_SCAN"
           (PacketMonitor.PortScanMessage src (PacketMonitor.p_dst p)
              (PacketMonitor.port_scan_threshold cfg)
              (PacketMonitor.p_time p - t1)
              (take 10 (PacketMonitor.sorted_ports
                          (list_to_set (PacketMonitor.p_port <$> calls))))
              (10 <? PacketMonitor.port_scan_threshold cfg)%nat
              (PacketMonitor.p_proto p))].
Proof.
  intros calls t1 Hlen Hnone Hall Hnd.
  unfold calls in *. rewrite length_app in *. simpl in Hlen.
  split.
  - intros k Hk. rewrite take_app_le by (simpl in Hk; lia).
    destruct (take k before) as [| f bs] eqn:Htake; [done |].
    assert (Hhead : head before = Some f).
    { destruct before, k; simplify_eq/=; done. }
    subst t1. rewrite Hhead in Hall. simpl in Hall.
    apply Forall_app in Hall as [Hall _].
    rewrite fmap_app in Hnd. apply NoDup_app in Hnd as (Hnd & _ & _).
    edestruct (PacketMonitorFacts.observe_all_fresh cfg src f bs st)
      as (e' & _ & _ & _ & Halerts); [done | | | | done].
    + rewrite <- Htake. by apply Forall_take.
    + rewrite <- Htake, fmap_take.
      eapply sublist_NoDup; [done | apply sublist_take].
    + rewrite <- Htake, length_take. simpl in Hk. lia.
  - destruct before as [| f bs].
    + (* threshold 1: the first call fires *)
      simpl in *. apply Forall_cons in Hall as [[Hsrc _] _].
      unfold PacketMonitor.observe.
      rewrite Hsrc, PacketMonitorFacts.detect_port_scan_fires;
        unfold PacketMonitor.tracker_get; rewrite Hnone; simpl;
        rewrite PacketMonitorFacts.track_fresh;
        cbn [PacketMonitor.ports PacketMonitor.first_seen].
      * rewrite PacketMonitorFacts.length_sorted_ports, size_singleton.
        simpl. rewrite <- Hlen. do 4 f_equal.
        by rewrite (right_id_L ∅ (∪)).
      * rewrite size_singleton. lia.
    + simpl in t1. subst t1.
      apply Forall_app in Hall as [Hall Hp].
      rewrite Forall_singleton in Hp.
      rewrite fmap_app in Hnd. apply NoDup_app in Hnd as (Hnd & Hdisj & _).
      destruct (PacketMonitorFacts.observe_all_fresh cfg src f bs st)
        as (e' & Hlook & Hports & Hfirst & Halerts);
        [done | done | done | simpl in *; lia |].
      rewrite PacketMonitorFacts.observe_all_snoc.
      assert (Hfresh : PacketMonitor.p_port p ∉ PacketMonitor.ports e').
      { rewrite Hports, elem_of_list_to_set. intros Hin.
        apply (Hdisj _ Hin). set_solver. }
      rewrite (PacketMonitorFacts.observe_fires cfg src
                 (PacketMonitor.p_time f) p _ e'), Halerts;
        [| done | done | exact Hp | done |].
      * do 4 f_equal. rewrite Hports, fmap_app, list_to_set_app_L.
        simpl. by rewrite (right_id_L ∅ (∪)).
      * rewrite Hports, size_list_to_set by done.
        rewrite length_fmap. simpl in *. lia.
Qed.

(** C1.  Calls that carry distinct destination ports from one source
    that the tracker does not know yet, all of them within the time
    window of the first call.  As long as fewer calls than the threshold
    have been made, no alert is logged; the call that brings the number
    of distinct ports to the threshold logs exactly one PORT_SCAN alert,
    which lists the ports of all the calls so far. *)
Theorem C1_port_scan_alert_exactly_at_threshold
    (cfg : PacketMonitor.config) (st : PacketMonitor.state) (src : string)
    (first : PacketMonitor.probe) (rest : list PacketMonitor.probe) :
  let calls := first :: rest in
  let T := PacketMonitor.port_scan_threshold cfg in
  (0 < T)%nat ->
  PacketMonitor.scan_tracker st !! src = None ->
  Forall (λ q, PacketMonitor.p_src q = src
               ∧ (PacketMonitor.p_time q - PacketMonitor.p_time first
                  <= PacketMonitor.time_window cfg)%Q) calls ->
  NoDup (PacketMonitor.p_port <$> calls) ->
  (∀ k, (k < T)%nat ->
        PacketMonitor.packet_alerts
          (PacketMonitor.observe_all cfg (take k calls) st)
        = PacketMonitor.packet_alerts st)
  ∧ (∀ p, calls !! (T - 1)%nat = Some p ->
          PacketMonitor.packet_alerts
            (PacketMonitor.observe_all cfg (take T calls) st)
          = PacketMonitor.packet_alerts st ++
              [PacketMonitor.Alert "PORT_SCAN"
                 (PacketMonitor.PortScanMessage src (PacketMonitor.p_dst p) T
                    (PacketMonitor.p_time p - PacketMonitor.p_time first)
                    (take 10 (PacketMonitor.sorted_ports
                                (list_to_set
                                   (PacketMonitor.p_port <$> take T calls))))
                    (10 <? T)%nat (PacketMonitor.p_proto p))]).
Proof.
  intros calls T HT Hnone Hall Hnd. split.
  - intros [| k] Hk; [done |]. subst calls. rewrite firstn_cons.
    edestruct (PacketMonitorFacts.observe_all_fresh cfg src first
                 (take k rest) st) as (e' & _ & _ & _ & Halerts);
      [done | | | | done].
    + rewrite <- firstn_cons. by apply Forall_take.
    + rewrite <- firstn_cons, fmap_take.
      eapply sublist_NoDup; [done | apply sublist_take].
    + simpl. rewrite length_take. fold T. lia.
  - intros p Hp.
    assert (HT' : T = S (T - 1)) by lia.
    assert (Htake : take T calls = take (T - 1) calls ++ [p]).
    { rewrite HT' at 1. by apply take_S_r. }
    assert (Hlen : length (take (T - 1) calls) = (T - 1)%nat).
    { rewrite length_take. apply lookup_lt_Some in Hp. lia. }
    assert (Hfirst : PacketMonitor.p_time
                       (default p (head (take (T - 1) calls)))
                     = PacketMonitor.p_time first).
    { subst calls. destruct (T - 1)%nat; simpl in *; by simplify_eq. }
    rewrite Htake.
    destruct (burst_of_threshold_length cfg st src (take (T - 1) calls) p)
      as [_ Hfire].
    + rewrite length_app, Hlen. simpl. fold T. lia.
    + done.
    + rewrite Hfirst, <- Htake. by apply Forall_take.
    + rewrite <- Htake, fmap_take.
      eapply sublist_NoDup; [done | apply sublist_take].
    + rewrite Hfirst in Hfire. exact Hfire.
Qed.

(** The scenario: no alert on the first four calls, one alert with the
    five ports on the fifth. *)
Lemma C1_scenario_one_alert_listing_five_ports :
  (∀ k, (k < 5)%nat ->
        PacketMonitor.packet_alerts
          (PacketMonitor.observe_all PacketMonitor.default_config
             (take k scan_scenario) PacketMonitor.initial_state) = [])
  ∧ PacketMonitor.packet_alerts
      (PacketMonitor.observe_all PacketMonitor.default_config scan_scenario
         PacketMonitor.initial_state)
    = [PacketMonitor.Alert "PORT_SCAN"
         (PacketMonitor.PortScanMessage "10.0.0.5" "192.168.1.10" 5 (4 - 0)
            [22; 80; 443; 3306; 8080]%Z false "TCP")].
Proof.
  destruct (C1_port_scan_alert_exactly_at_threshold
              PacketMonitor.default_config PacketMonitor.initial_state
              "10.0.0.5"
              (PacketMonitor.Probe 0 "10.0.0.5" "192.168.1.10" 22 "TCP")
              (drop 1 scan_scenario))
    as [Hquiet Hfire].
  - simpl. lia.
  - reflexivity.
  - repeat constructor; vm_compute; discriminate.
  - vm_compute. repeat constructor; rewrite ?list_elem_of_In; simpl; lia.
  - split; [exact Hquiet |].
    exact (Hfire (PacketMonitor.Probe 4 "10.0.0.5" "192.168.1.10" 8080 "TCP")
             eq_refl).
Defined.

(** C3.  One call for a source that is being tracked, with a threshold
    above one.  The ports gathered so far are dropped in two situations.
    (1) The call brings the port set to the threshold: the alert is
    logged, the set is emptied and [first_seen] becomes the time of the
    call, so that after the next call, whatever its port (one seen before
    the alert too), the set holds that single port.  (2) The window of the
    source has run out: the entry is replaced by one that holds the port
    of the call only, and nothing is logged.  In the remaining situation
    nothing is dropped: the port joins the set and [first_seen] stays. *)
Theorem C3_tracker_resets_after_alert_and_after_window
    (cfg : PacketMonitor.config) (st : PacketMonitor.state) (now : Q)
    (src dst : string) (port : Z) (proto : string)
    (e0 : PacketMonitor.tracker_entry) (t0 : Q) :
  let st' := PacketMonitor.detect_port_scan cfg now src dst port proto st in
  let T := PacketMonitor.port_scan_threshold cfg in
  let W := PacketMonitor.time_window cfg in
  let gathered := PacketMonitor.ports e0 ∪ {[port]} in
  (1 < T)%nat ->
  PacketMonitor.scan_tracker st !! src = Some e0 ->
  PacketMonitor.first_seen e0 = Some t0 ->
  ((now - t0 <= W)%Q -> (T <= size gathered)%nat ->
     PacketMonitor.scan_tracker st' !! src
     = Some (PacketMonitor.TrackerEntry (PacketMonitor.syn_count e0) ∅
               (Some now) (Some now))
     ∧ (∃ a, PacketMonitor.packet_alerts st'
             = PacketMonitor.packet_alerts st ++ [a]
             ∧ PacketMonitor.ps_ports (PacketMonitor.message a)
               = take 10 (PacketMonitor.sorted_ports gathered))
     ∧ ∀ now' dst' port' proto',
         let st'' :=
           PacketMonitor.detect_port_scan cfg now' src dst' port' proto' st'
         in
         (∃ e'', PacketMonitor.scan_tracker st'' !! src = Some e''
                 ∧ PacketMonitor.ports e'' = {[port']})
         ∧ PacketMonitor.packet_alerts st'' = PacketMonitor.packet_alerts st')
  ∧ ((W < now - t0)%Q ->
     PacketMonitor.scan_tracker st' !! src
     = Some (PacketMonitor.TrackerEntry 0 {[port]} (Some now) (Some now))
     ∧ PacketMonitor.packet_alerts st' = PacketMonitor.packet_alerts st)
  ∧ ((now - t0 <= W)%Q -> (size gathered < T)%nat ->
     PacketMonitor.scan_tracker st' !! src
     = Some (PacketMonitor.TrackerEntry (PacketMonitor.syn_count e0) gathered
               (Some t0) (Some now))
     ∧ PacketMonitor.packet_alerts st' = PacketMonitor.packet_alerts st).
Proof.
  intros st' T W gathered HT Hlook Hfirst.
  assert (Hget : PacketMonitor.tracker_get (PacketMonitor.scan_tracker st) src
                 = e0).
  { unfold PacketMonitor.tracker_get. by rewrite Hlook. }
  split_and!.
  - intros Hin Hfull. subst st'.
    rewrite PacketMonitorFacts.detect_port_scan_fires;
      rewrite Hget, (PacketMonitorFacts.track_within _ _ _ _ t0) by done;
      [| done].
    cbn [PacketMonitor.scan_tracker PacketMonitor.packet_alerts
         PacketMonitor.syn_count PacketMonitor.last_seen PacketMonitor.ports].
    split_and!.
    + by rewrite lookup_insert_eq.
    + eexists. split; [reflexivity | done].
    + intros now' dst' port' proto'.
      set (e1 := PacketMonitor.TrackerEntry _ ∅ (Some now) (Some now)).
      set (st1 := PacketMonitor.State _ _).
      assert (Hports : PacketMonitor.ports
                (PacketMonitor.track cfg now' port'
                   (PacketMonitor.tracker_get
                      (PacketMonitor.scan_tracker st1) src)) = {[port']}).
      { unfold PacketMonitor.tracker_get. subst st1.
        cbn [PacketMonitor.scan_tracker]. rewrite lookup_insert_eq.
        unfold PacketMonitor.track. simpl.
        destruct (Qgtb _ _); cbn [PacketMonitor.ports]; [done |].
        by rewrite (left_id_L ∅ (∪)). }
      rewrite PacketMonitorFacts.detect_port_scan_quiet.
      * cbn [PacketMonitor.scan_tracker PacketMonitor.packet_alerts].
        split; [| done]. eexists. by rewrite lookup_insert_eq.
      * rewrite Hports, size_singleton. done.
  - intros Hout. subst st'.
    rewrite PacketMonitorFacts.detect_port_scan_quiet;
      rewrite Hget, (PacketMonitorFacts.track_expired _ _ _ _ t0) by done.
    + cbn [PacketMonitor.scan_tracker PacketMonitor.packet_alerts].
      by rewrite lookup_insert_eq.
    + cbn [PacketMonitor.ports]. by rewrite size_singleton.
  - intros Hin Hroom. subst st'.
    rewrite PacketMonitorFacts.detect_port_scan_quiet;
      rewrite Hget, (PacketMonitorFacts.track_within _ _ _ _ t0) by done;
      [| done].
    cbn [PacketMonitor.scan_tracker PacketMonitor.packet_alerts].
    by rewrite lookup_insert_eq.
Qed.

(** C10.  From the empty tracker, after any sequence of calls, every
    tracked source holds fewer ports than the threshold. *)
Theorem C10_resident_port_sets_stay_under_threshold
    (cfg : PacketMonitor.config) (calls : list PacketMonitor.probe)
    (src : string) (e : PacketMonitor.tracker_entry) :
  (0 < PacketMonitor.port_scan_threshold cfg)%nat ->
  PacketMonitor.scan_tracker
    (PacketMonitor.observe_all cfg calls PacketMonitor.initial_state) !! src
  = Some e ->
  (size (PacketMonitor.ports e) < PacketMonitor.port_scan_threshold cfg)%nat.
Proof.
  intros Hpos Hlook.
  eapply (PacketMonitorFacts.under_threshold_observe_all cfg calls);
    [done | | exact Hlook].
  intros src' e' Hnone.
  unfold PacketMonitor.initial_state in Hnone.
  cbn [PacketMonitor.scan_tracker] in Hnone.
  by rewrite lookup_empty in Hnone.
Qed.

(** Two calls of the scenario leave two ports, under the default
    threshold of five. *)
Lemma C10_two_ports_resident_under_default_threshold :
  (size (PacketMonitor.ports
           (PacketMonitor.TrackerEntry 0 {[22; 80]}%Z (Some 0%Q) (Some 1%Q)))
   < PacketMonitor.port_scan_threshold PacketMonitor.default_config)%nat.
Proof.
  apply (C10_resident_port_sets_stay_under_threshold
           PacketMonitor.default_config (take 2 scan_scenario) "10.0.0.5").
  - simpl. lia.
  - vm_compute. reflexivity.
Defined.

(** After four calls of the scenario: the fifth port within the window,
    and the fifth port after it. *)
Lemma C3_resets_in_the_scenario :
  let st4 :=
    PacketMonitor.observe_all PacketMonitor.default_config
      (take 4 scan_scenario) PacketMonitor.initial_state in
  (* the fifth port within the window: alert, then a port seen before is
     new again *)
  (let st5 :=
     PacketMonitor.detect_port_scan PacketMonitor.default_config 4
       "10.0.0.5" "192.168.1.10" 8080 "TCP" st4 in
   PacketMonitor.scan_tracker st5 !! "10.0.0.5"
   = Some (PacketMonitor.TrackerEntry 0 ∅ (Some 4%Q) (Some 4%Q))
   ∧ length (PacketMonitor.packet_alerts st5) = 1%nat
   ∧ ∃ e, PacketMonitor.scan_tracker
            (PacketMonitor.detect_port_scan PacketMonitor.default_config 5
               "10.0.0.5" "192.168.1.10" 22 "TCP" st5) !! "10.0.0.5"
          = Some e
          ∧ PacketMonitor.ports e = {[22%Z]})
  (* the fifth port after the window: the four ports are dropped *)
  ∧ (let st5 :=
       PacketMonitor.detect_port_scan PacketMonitor.default_config 11
         "10.0.0.5" "192.168.1.10" 8080 "TCP" st4 in
     PacketMonitor.scan_tracker st5 !! "10.0.0.5"
     = Some (PacketMonitor.TrackerEntry 0 {[8080%Z]} (Some 11%Q) (Some 11%Q))
     ∧ PacketMonitor.packet_alerts st5 = []).
Proof.
  intros st4.
  assert (Hlook : PacketMonitor.scan_tracker st4 !! "10.0.0.5"
                  = Some (PacketMonitor.TrackerEntry 0 {[22; 80; 443; 3306]}%Z
                            (Some 0%Q) (Some 3%Q)))
    by (vm_compute; reflexivity).
  split.
  - destruct (C3_tracker_resets_after_alert_and_after_window
                PacketMonitor.default_config st4 4 "10.0.0.5" "192.168.1.10"
                8080 "TCP" _ 0 ltac:(simpl; lia) Hlook eq_refl)
      as (Hfire & _ & _).
    destruct Hfire as (Hentry & (a & Hlog & _) & Hnext);
      [vm_compute; discriminate | vm_compute; lia |].
    split_and!.
    + exact Hentry.
    + rewrite Hlog. reflexivity.
    + destruct (Hnext 5%Q "192.168.1.10" 22%Z "TCP") as [He _]. exact He.
  - destruct (C3_tracker_resets_after_alert_and_after_window
                PacketMonitor.default_config st4 11 "10.0.0.5" "192.168.1.10"
                8080 "TCP" _ 0 ltac:(simpl; lia) Hlook eq_refl)
      as (_ & Hexpired & _).
    destruct Hexpired as [Hentry Hlog]; [vm_compute; reflexivity |].
    split; [exact Hentry | exact Hlog].
Defined.

(** ** The connection classifier *)

Module NetworkMonitorFacts.
Import Py NetworkMonitor NetworkMonitorTerms.

(** [analyze_connection] never raises: it writes the evidence line, then
    the alert line when the connection is inbound, and returns the
    classification. *)
Lemma analyze_connection_eq h conn st :
  analyze_connection h conn st
  = (State (network_alerts st ++
              (if is_inbound_connection h conn then [threat_line h conn]
               else []))
           (all_connections st ++ [evidence_line h conn])
           (console st ++ console_lines h conn)
           (seen_connections st),
     Ok (is_inbound_connection h conn)).
Proof.
  unfold analyze_connection, console_lines, evidence_line, threat_line,
    resolved_name, local_addr_of, remote_addr_of, process_name,
    log_connection, log_alert, print.
  MonadFacts.unfold_M.
  destruct (laddr conn), (raddr conn), (truthy_pid (pid conn)) as [p |];
    simpl; try destruct (process_name_of h p); simpl;
    destruct (is_inbound_connection h conn); simpl;
    try destruct (is_listening_port conn); simpl;
    rewrite ?app_nil_r; reflexivity.
Qed.

Lemma is_inbound_connection_spec h conn :
  is_inbound_connection h conn = true <-> inbound_threat h conn.
Proof.
  unfold is_inbound_connection, inbound_threat.
  destruct (String.eqb_spec (status conn) "ESTABLISHED") as [Hs | Hs];
    [| naive_solver].
  destruct (laddr conn) as [l |], (raddr conn) as [r |]; [| naive_solver ..].
  destruct (startswith (ip r) "127.") eqn:Hloop;
    repeat case_bool_decide; simpl; naive_solver.
Qed.

(** What one visit of the loop of [monitor] does. *)
Lemma visit_connection_eq h conn st :
  visit_connection h conn st
  = match conn_id conn with
    | None => (st, Ok tt)
    | Some id =>
        if bool_decide (id ∈ seen_connections st) then (st, Ok tt)
        else
          (State (network_alerts st ++
                    (if is_inbound_connection h conn then [threat_line h conn]
                     else []))
                 (all_connections st ++ [evidence_line h conn])
                 (console st ++ console_lines h conn)
                 (seen_connections st ∪ {[id]}),
           Ok tt)
    end.
Proof.
  unfold visit_connection, mark_seen. MonadFacts.unfold_M.
  destruct (conn_id conn) as [id |]; [| done].
  case_bool_decide; [done |]. by rewrite analyze_connection_eq.
Qed.

Lemma visit_connection_total h conn st :
  visit_connection h conn st = (visited h st conn, Ok tt).
Proof.
  unfold visited. rewrite visit_connection_eq.
  destruct (conn_id conn); [case_bool_decide |]; done.
Qed.

Lemma poll_eq h conns st :
  poll h conns st = (fold_left (visited h) conns st, Ok tt).
Proof. apply MonadFacts.for_each_total, visit_connection_total. Qed.

Lemma monitor_eq rounds st :
  monitor rounds st = (fold_left polled rounds st, Ok tt).
Proof.
  apply MonadFacts.for_each_total. intros [h conns] s. apply poll_eq.
Qed.

(** *** The audit trail of a run *)

Lemma visited_seen h st conn id :
  id ∈ seen_connections st -> id ∈ seen_connections (visited h st conn).
Proof.
  unfold visited. rewrite visit_connection_eq.
  destruct (conn_id conn); [case_bool_decide |]; simpl; set_solver.
Qed.

Lemma visited_lines h st conn l :
  l ∈ all_connections st -> l ∈ all_connections (visited h st conn).
Proof.
  unfold visited. rewrite visit_connection_eq.
  destruct (conn_id conn); [case_bool_decide |]; simpl; set_solver.
Qed.

Lemma visited_marks h st conn id :
  conn_id conn = Some id -> id ∈ seen_connections (visited h st conn).
Proof.
  intros Hid. unfold visited. rewrite visit_connection_eq, Hid.
  case_bool_decide; simpl; set_solver.
Qed.

Lemma audited_visited h st conn :
  audited st -> audited (visited h st conn).
Proof.
  intros Hst id. unfold visited. rewrite visit_connection_eq.
  destruct (conn_id conn) as [id' |] eqn:Hid; [case_bool_decide |];
    simpl; [apply Hst | | apply Hst].
  rewrite elem_of_union, elem_of_singleton. intros [Hin | ->].
  - destruct (Hst id Hin) as (h' & c' & ? & ?).
    exists h', c'. split; [done | set_solver].
  - exists h, conn. split; [done | set_solver].
Qed.

Lemma fold_visited_invariant (P : state -> Prop) h conns :
  (∀ st conn, P st -> P (visited h st conn)) ->
  ∀ st, P st -> P (fold_left (visited h) conns st).
Proof.
  intros Hstep. induction conns as [| c conns IH]; intros st Hst; [done |].
  simpl. by apply IH, Hstep.
Qed.

Lemma fold_polled_invariant (P : state -> Prop) rounds :
  (∀ h st conn, P st -> P (visited h st conn)) ->
  ∀ st, P st -> P (fold_left polled rounds st).
Proof.
  intros Hstep. induction rounds as [| r rounds IH]; intros st Hst; [done |].
  simpl. apply IH. unfold polled. apply fold_visited_invariant; [| done].
  intros. by apply Hstep.
Qed.

Lemma polled_marks h conns conn id : ∀ st,
  conn ∈ conns -> conn_id conn = Some id ->
  id ∈ seen_connections (polled st (h, conns)).
Proof.
  unfold polled; simpl.
  induction conns as [| c conns IH]; intros st Hin Hid;
    [by apply elem_of_nil in Hin |].
  simpl. apply elem_of_cons in Hin as [<- | Hin].
  - apply (fold_visited_invariant (λ s, id ∈ seen_connections s)).
    + intros. by apply visited_seen.
    + by apply visited_marks.
  - by apply IH.
Qed.

(** Every identity yielded in some round of a run is seen, and has its
    evidence line, at the end of the run. *)
Lemma monitor_audit_trail rounds h conns conn id :
  (h, conns) ∈ rounds -> conn ∈ conns -> conn_id conn = Some id ->
  let st := fst (monitor rounds initial_state) in
  id ∈ seen_connections st
  ∧ ∃ h' conn', conn_id conn' = Some id
                ∧ evidence_line h' conn' ∈ all_connections st.
Proof.
  intros Hround Hconn Hid st. subst st. rewrite monitor_eq. simpl.
  assert (Hseen : id ∈ seen_connections
                         (fold_left polled rounds initial_state)).
  { generalize initial_state.
    induction rounds as [| r rounds IH]; intros st;
      [by apply elem_of_nil in Hround |].
    simpl. apply elem_of_cons in Hround as [<- | Hround].
    - apply (fold_polled_invariant (λ s, id ∈ seen_connections s)).
      + intros. by apply visited_seen.
      + by eapply polled_marks.
    - by apply IH. }
  split; [done |].
  apply (fold_polled_invariant audited rounds); [| | done].
  - intros. by apply audited_visited.
  - intros id' Hin. simpl in Hin. set_solver.
Qed.

(** The addresses [get_local_ips] collects. *)

Lemma collect_addrs addrs : ∀ (acc : gset string) x,
  x ∈ fold_left
        (λ (local_ips : gset string) a,
           match family a with
           | AF_INET => local_ips ∪ {[address a]}
           | _ => local_ips
           end) addrs acc
  <-> x ∈ acc ∨ ∃ a, a ∈ addrs ∧ family a = AF_INET ∧ address a = x.
Proof.
  induction addrs as [| a addrs IH]; intros acc x; simpl.
  - split; [auto |]. intros [? | (a & Ha & _)]; [done |].
    by apply elem_of_nil in Ha.
  - rewrite IH. split.
    + intros [Hacc | (a' & Hin & Hf & Ha)].
      * destruct (family a) eqn:Hfam; [| by left | by left].
        apply elem_of_union in Hacc as [? | Heq]; [by left |].
        apply elem_of_singleton in Heq.
        right. exists a. split_and!; [by left | done | done].
      * right. exists a'. split_and!; [by right | done | done].
    + intros [Hacc | (a' & Hin & Hf & Ha)].
      * left. destruct (family a); set_solver.
      * apply elem_of_cons in Hin as [-> | Hin].
        -- left. rewrite Hf. set_solver.
        -- right. eauto.
Qed.

Lemma get_local_ips_spec ifs x :
  x ∈ get_local_ips ifs
  <-> ∃ name addrs a, (name, addrs) ∈ ifs ∧ a ∈ addrs
                      ∧ family a = AF_INET ∧ address a = x.
Proof.
  unfold get_local_ips.
  assert (Hgen : ∀ acc : gset string,
    x ∈ fold_left
          (λ (local_ips : gset string) (item : string * list snicaddr),
             fold_left
               (λ (local_ips : gset string) a,
                  match family a with
                  | AF_INET => local_ips ∪ {[address a]}
                  | _ => local_ips
                  end) item.2 local_ips) ifs acc
    <-> x ∈ acc ∨ ∃ name addrs a, (name, addrs) ∈ ifs ∧ a ∈ addrs
                                  ∧ family a = AF_INET ∧ address a = x).
  { induction ifs as [| [name addrs] ifs IH]; intros acc; simpl.
    - split; [auto |]. intros [? | (? & ? & ? & Hin & _)]; [done |].
      by apply elem_of_nil in Hin.
    - rewrite IH, collect_addrs. split.
      + intros [[Hacc | (a & Hin & Hf & Ha)] | (n & l & a & Hin & Ha)].
        * by left.
        * right. exists name, addrs, a. split_and!; [by left | done ..].
        * right. exists n, l, a. destruct Ha as (? & ? & ?).
          split_and!; [by right | done ..].
      + intros [Hacc | (n & l & a & Hin & Ha & Hf & Hx)]; [by left; left |].
        apply elem_of_cons in Hin as [[= -> ->] | Hin].
        * left. right. eauto.
        * right. exists n, l, a. eauto. }
  rewrite Hgen. set_solver.
Qed.

End NetworkMonitorFacts.

(** C2 (as amended).  On the addresses that the monitor collects at its
    start ([get_local_ips]: the addresses that an interface lists with the
    family AF_INET), a connection is classified as an inbound threat
    exactly when its status is ESTABLISHED, it has a local and a remote
    address, the local address is an IPv4 address of an interface of the
    machine, the remote address is not, and the remote address does not
    begin with 127.  [analyze_connection] returns that classification
    and logs one THREAT alert for an inbound threat and none otherwise.
    In particular a connection from an address that begins with 127. is
    never an inbound threat. *)
Theorem C2_inbound_threat_on_the_ipv4_addresses
    (net_if_addrs : list (string * list NetworkMonitor.snicaddr))
    (h : NetworkMonitor.host) (conn : NetworkMonitor.sconn)
    (st : NetworkMonitor.state) :
  NetworkMonitor.local_ips h = NetworkMonitor.get_local_ips net_if_addrs ->
  let ipv4_of_the_machine (x : string) :=
    ∃ name addrs a,
      (name, addrs) ∈ net_if_addrs ∧ a ∈ addrs
      ∧ NetworkMonitor.family a = NetworkMonitor.AF_INET
      ∧ NetworkMonitor.address a = x in
  let loopback (x : string) := ∃ rest, x = "127." +:+ rest in
  let inbound :=
    NetworkMonitor.status conn = "ESTABLISHED"
    ∧ ∃ l r, NetworkMonitor.laddr conn = Some l
             ∧ NetworkMonitor.raddr conn = Some r
             ∧ ipv4_of_the_machine (NetworkMonitor.ip l)
             ∧ ¬ ipv4_of_the_machine (NetworkMonitor.ip r)
             ∧ ¬ loopback (NetworkMonitor.ip r) in
  let out := NetworkMonitor.analyze_connection h conn st in
  (NetworkMonitor.is_inbound_connection h conn = true <-> inbound)
  ∧ (inbound ->
       snd out = Py.Ok true
       ∧ NetworkMonitor.network_alerts (fst out)
         = NetworkMonitor.network_alerts st ++
             [NetworkMonitorTerms.threat_line h conn])
  ∧ (¬ inbound ->
       snd out = Py.Ok false
       ∧ NetworkMonitor.network_alerts (fst out)
         = NetworkMonitor.network_alerts st)
  ∧ (∀ r, NetworkMonitor.raddr conn = Some r ->
          loopback (NetworkMonitor.ip r) ->
          NetworkMonitor.is_inbound_connection h conn = false
          ∧ snd out = Py.Ok false
          ∧ NetworkMonitor.network_alerts (fst out)
            = NetworkMonitor.network_alerts st).
Proof.
  intros Hips ipv4_of_the_machine loopback inbound out.
  assert (Hspec :
    NetworkMonitor.is_inbound_connection h conn = true <-> inbound).
  { rewrite NetworkMonitorFacts.is_inbound_connection_spec.
    unfold NetworkMonitorTerms.inbound_threat, inbound. rewrite Hips.
    split; intros (Hs & l & r & Hl & Hr & Hlin & Hrout & Hloop);
      (split; [done |]); exists l, r; split_and!; try done.
    - by apply NetworkMonitorFacts.get_local_ips_spec in Hlin.
    - intros Hr'. apply Hrout.
      by apply NetworkMonitorFacts.get_local_ips_spec.
    - intros Hprefix. apply PyFacts.startswith_spec in Hprefix.
      congruence.
    - by apply NetworkMonitorFacts.get_local_ips_spec.
    - intros Hr'. apply Hrout.
      by apply NetworkMonitorFacts.get_local_ips_spec in Hr'.
    - apply not_true_is_false. intros Hprefix. apply Hloop.
      by apply PyFacts.startswith_spec. }
  subst out. rewrite NetworkMonitorFacts.analyze_connection_eq. simpl.
  split_and!.
  - exact Hspec.
  - intros Hin. apply Hspec in Hin. by rewrite Hin.
  - intros Hout.
    assert (Hno : NetworkMonitor.is_inbound_connection h conn = false)
      by (apply not_true_is_false; intros Hyes; by apply Hout, Hspec).
    rewrite Hno. by rewrite app_nil_r.
  - intros r Hr Hloop.
    assert (Hout : NetworkMonitor.is_inbound_connection h conn = false).
    { apply not_true_is_false. rewrite Hspec.
      intros (_ & l & r' & _ & Hr' & _ & _ & Hne). congruence. }
    rewrite Hout. by rewrite app_nil_r.
Qed.

(** C2 (as stated) fails on a machine with an IPv6 address.  The
    connection is ESTABLISHED and has both addresses; its local address is
    an address of the interface eth0; its remote address is no address of
    an interface and no loopback address.  It is not classified as an
    inbound threat, and its analysis logs no alert: the addresses of the
    family AF_INET6 are not among those the monitor collects. *)
Lemma C2_established_connection_over_ipv6_is_not_classified :
  NetworkMonitor.local_ips dual_stack_host
  = NetworkMonitor.get_local_ips dual_stack
  ∧ NetworkMonitor.status ipv6_conn = "ESTABLISHED"
  ∧ NetworkMonitor.laddr ipv6_conn
    = Some (NetworkMonitor.Addr "2001:db8::10" 443)
  ∧ NetworkMonitor.raddr ipv6_conn
    = Some (NetworkMonitor.Addr "2001:db8::bad" 51422)
  ∧ (∃ name addrs a,
       (name, addrs) ∈ dual_stack ∧ a ∈ addrs
       ∧ NetworkMonitor.address a = "2001:db8::10")
  ∧ ¬ (∃ name addrs a,
         (name, addrs) ∈ dual_stack ∧ a ∈ addrs
         ∧ NetworkMonitor.address a = "2001:db8::bad")
  ∧ ¬ (∃ rest, "2001:db8::bad" = "127." +:+ rest)
  ∧ "2001:db8::bad" ≠ "::1"
  ∧ NetworkMonitor.is_inbound_connection dual_stack_host ipv6_conn = false
  ∧ NetworkMonitor.analyze_connection dual_stack_host ipv6_conn
      NetworkMonitor.initial_state
    = (NetworkMonitor.State []
         [NetworkMonitorTerms.evidence_line dual_stack_host ipv6_conn]
         [] ∅,
       Py.Ok false).
Proof.
  split_and!; try reflexivity.
  - exists "eth0", (snd (dual_stack !!! 1%nat)),
      (NetworkMonitor.SNicAddr NetworkMonitor.AF_INET6 "2001:db8::10").
    split_and!; [| | reflexivity].
    + apply list_elem_of_lookup. by exists 1%nat.
    + apply list_elem_of_lookup. by exists 1%nat.
  - intros (name & addrs & a & Hin & Ha & Haddr).
    unfold dual_stack in Hin.
    repeat (apply elem_of_cons in Hin as [[= -> ->] | Hin]);
      [| | by apply elem_of_nil in Hin];
      repeat (apply elem_of_cons in Ha as [-> | Ha]);
      try discriminate Haddr; by apply elem_of_nil in Ha.
  - intros [rest Hrest]. rewrite !PyFacts.append_cons in Hrest.
    discriminate Hrest.
  - discriminate.
Qed.

(** On the web server with both kinds of addresses: the connection from
    outside to the IPv4 address is an inbound threat and is alerted; the
    connection from 127.0.0.5, which is no address of an interface, is
    not. *)
Lemma C2_threat_is_alerted_and_loopback_is_not :
  (snd (NetworkMonitor.analyze_connection dual_stack_host web_conn
          NetworkMonitor.initial_state) = Py.Ok true
   ∧ NetworkMonitor.network_alerts
       (fst (NetworkMonitor.analyze_connection dual_stack_host web_conn
               NetworkMonitor.initial_state))
     = [NetworkMonitor.AlertLine "2024-05-01 12:00:00" "THREAT"
          ("INBOUND CONNECTION DETECTED - Remote IP: 203.0.113.7 " +:+
           "attempting to connect to your machine at 192.168.1.10:443 | " +:+
           "Process: nginx (PID: 812)")])
  ∧ ("127.0.0.5" ∉ NetworkMonitor.local_ips dual_stack_host
     ∧ NetworkMonitor.is_inbound_connection dual_stack_host loopback_conn
       = false
     ∧ NetworkMonitor.network_alerts
         (fst (NetworkMonitor.analyze_connection dual_stack_host
                 loopback_conn NetworkMonitor.initial_state))
       = []).
Proof.
  split.
  - destruct (C2_inbound_threat_on_the_ipv4_addresses dual_stack
                dual_stack_host web_conn NetworkMonitor.initial_state
                eq_refl) as (_ & Hin & _ & _).
    apply Hin. split; [reflexivity |].
    exists (NetworkMonitor.Addr "192.168.1.10" 443),
           (NetworkMonitor.Addr "203.0.113.7" 51422).
    split_and!; [reflexivity | reflexivity | | |].
    + exists "eth0", (snd (dual_stack !!! 1%nat)),
        (NetworkMonitor.SNicAddr NetworkMonitor.AF_INET "192.168.1.10").
      split_and!; [| | reflexivity | reflexivity].
      * apply list_elem_of_lookup. by exists 1%nat.
      * apply list_elem_of_lookup. by exists 0%nat.
    + intros (name & addrs & a & Hin' & Ha & _ & Haddr).
      unfold dual_stack in Hin'.
      repeat (apply elem_of_cons in Hin' as [[= -> ->] | Hin']);
        [| | by apply elem_of_nil in Hin'];
        repeat (apply elem_of_cons in Ha as [-> | Ha]);
        try discriminate Haddr; by apply elem_of_nil in Ha.
    + intros [rest Hrest]. rewrite !PyFacts.append_cons in Hrest.
      discriminate Hrest.
  - destruct (C2_inbound_threat_on_the_ipv4_addresses dual_stack
                dual_stack_host loopback_conn NetworkMonitor.initial_state
                eq_refl) as (_ & _ & _ & Hloop).
    destruct (Hloop (NetworkMonitor.Addr "127.0.0.5" 40000) eq_refl)
      as (Hno & _ & Hnone); [by exists "0.0.5" |].
    split_and!; [| exact Hno | exact Hnone].
    apply (bool_decide_unpack _). vm_compute. exact I.
Defined.

(** C7 (as amended).  A visit of the loop of [monitor] writes the evidence
    line of the connection when the connection has a local address and its
    identity was not seen before in the run, whatever the classification;
    it writes nothing for a connection without local address or with an
    identity already seen. *)
Theorem C7_unseen_identity_is_logged_whatever_its_class
    (h : NetworkMonitor.host) (conn : NetworkMonitor.sconn)
    (st : NetworkMonitor.state) :
  snd (NetworkMonitor.visit_connection h conn st) = Py.Ok tt
  ∧ NetworkMonitor.all_connections
      (fst (NetworkMonitor.visit_connection h conn st))
    = NetworkMonitor.all_connections st ++
        match NetworkMonitor.conn_id conn with
        | Some id =>
            if bool_decide (id ∈ NetworkMonitor.seen_connections st) then []
            else [NetworkMonitorTerms.evidence_line h conn]
        | None => []
        end.
Proof.
  rewrite NetworkMonitorFacts.visit_connection_eq.
  destruct (NetworkMonitor.conn_id conn) as [id |];
    [case_bool_decide |]; simpl; by rewrite ?app_nil_r.
Qed.

(** C7 (as stated) fails: a connection yielded again by a later poll, and
    a connection without local address, leave no evidence line. *)
Lemma C7_yielded_connection_without_evidence_line :
  let st1 :=
    fst (NetworkMonitor.poll web_host [web_conn]
           NetworkMonitor.initial_state) in
  length (NetworkMonitor.all_connections st1) = 1%nat
  ∧ NetworkMonitor.all_connections
      (fst (NetworkMonitor.poll web_host [web_conn] st1))
    = NetworkMonitor.all_connections st1
  ∧ NetworkMonitor.all_connections
      (fst (NetworkMonitor.poll web_host [unbound_conn]
              NetworkMonitor.initial_state)) = [].
Proof. vm_compute. done. Qed.

(** The first visit of the connection of the scenario writes its evidence
    line. *)
Lemma C7_first_poll_writes_the_evidence_line :
  NetworkMonitor.all_connections
    (fst (NetworkMonitor.visit_connection web_host web_conn
            NetworkMonitor.initial_state))
  = [NetworkMonitor.ConnectionLine "2024-05-01 12:00:00"
       ("Local: 192.168.1.10:443 | Remote: 203.0.113.7:51422 | " +:+
        "Status: ESTABLISHED | Process: nginx (PID: 812)")].
Proof.
  destruct (C7_unseen_identity_is_logged_whatever_its_class web_host web_conn
              NetworkMonitor.initial_state) as [_ Hlog].
  exact Hlog.
Defined.

(** The second half of the scenario: the same identity yielded by a later
    poll raises no second alert. *)
Example threat_is_alerted_once_per_identity :
  length
    (NetworkMonitor.network_alerts
       (fst (NetworkMonitor.monitor
               [(web_host, [web_conn]); (web_host, [web_conn])]
               NetworkMonitor.initial_state))) = 1%nat.
Proof. reflexivity. Qed.

(** ** The alert sink *)

Module AlertSystemFacts.
Import Py AlertSystem AlertSystemTerms.

Section Sink.
Context {Msg : Type} (text : Msg -> string).

Lemma play_alert_sound_eq h (s : sink Msg) :
  play_alert_sound h s
  = (Sink (attempts s ++ sound_attempts h) (console s) (alerts_log s), Ok tt).
Proof.
  unfold play_alert_sound, sound_attempts, attempt, fault.
  MonadFacts.unfold_M.
  destruct (bell_fault h), (system_sound_fault h); simpl;
    by rewrite <- ?app_assoc.
Qed.

Lemma send_desktop_notification_eq h title message (s : sink Msg) :
  send_desktop_notification h title message s
  = (Sink (attempts s ++
             [Popup (replace_char double_quote "'"
                       (replace_char "!"%char EmptyString title))
                    (slice_to 200
                       (replace_char double_quote "'"
                          (replace_char "!"%char EmptyString message)))])
          (console s) (alerts_log s),
     Ok tt).
Proof.
  unfold send_desktop_notification, attempt, fault. MonadFacts.unfold_M.
  by destruct (popup_fault h).
Qed.

(** [send_alert] never raises, whatever the host does to the delivery
    primitives, and always prints and logs the alert. *)
Lemma sink_send_alert_eq h message severity play_sound notify (s : sink Msg) :
  send_alert text h message severity play_sound notify s
  = (Sink (attempts s ++
             delivery_attempts text h message severity play_sound notify)
          (console s ++ [(severity, message)])
          (alerts_log s ++ [LogLine (timestamp h) severity message]),
     Ok tt).
Proof.
  unfold send_alert, send_alert_to, delivery_attempts, popup_of, print_alert,
    append_alert_log.
  MonadFacts.unfold_M.
  destruct play_sound, notify;
    rewrite ?play_alert_sound_eq, ?send_desktop_notification_eq; simpl;
    rewrite ?send_desktop_notification_eq; simpl;
    by rewrite <- ?app_assoc, ?app_nil_r.
Qed.

(** On a terminal that refuses the lines, [send_alert] is left at its
    first [print]: after the delivery attempts, before the log write. *)
Lemma sink_send_alert_refused h e message severity play_sound notify
    (s : sink Msg) :
  send_alert_to text (Some e) h message severity play_sound notify s
  = (Sink (attempts s ++
             delivery_attempts text h message severity play_sound notify)
          (console s) (alerts_log s),
     Raise e).
Proof.
  unfold send_alert_to, delivery_attempts, popup_of, print_alert,
    append_alert_log.
  MonadFacts.unfold_M.
  destruct s as [tried printed logged], play_sound, notify;
    rewrite ?play_alert_sound_eq, ?send_desktop_notification_eq; simpl;
    rewrite ?send_desktop_notification_eq; simpl;
    by rewrite <- ?app_assoc, ?app_nil_r.
Qed.

End Sink.
End AlertSystemFacts.

(** C9 (defect of the code).  The log line of an alert is lost when the
    terminal refuses the lines.  The failures of the bell, of the sound
    player and of the popup are swallowed, each by its own handler; the
    three [print] calls that follow stand outside every handler and before
    the write to alerts.log.  On a terminal on which a write raises (a
    closed terminal, the same that makes the bell fail), [send_alert]
    therefore ends with that exception, which reaches its caller, and
    nothing is appended to the alert log; the delivery attempts were made
    before.  On a terminal that takes the lines, whatever the bell, the
    sound player and the popup do, [send_alert] returns normally and the
    line (timestamp, severity, message) is appended. *)
Theorem C9_alert_is_lost_when_the_terminal_refuses_the_lines
    {Msg : Type} (text : Msg -> string) (h : AlertSystem.host) (e : Py.exn)
    (message : Msg) (severity : string) (play_sound notify : bool)
    (s : AlertSystem.sink Msg) :
  let refused :=
    AlertSystem.send_alert_to text (Some e) h message severity play_sound
      notify s in
  let taken :=
    AlertSystem.send_alert_to text None h message severity play_sound notify
      s in
  let attempted :=
    (if play_sound
     then AlertSystem.Bell ::
          match AlertSystem.bell_fault h with
          | Some _ => []
          | None => [AlertSystem.Bell; AlertSystem.Bell;
                     AlertSystem.SystemSound]
          end
     else [])
    ++ (if notify
        then [AlertSystemTerms.popup_of text message severity]
        else []) in
  (snd refused = Py.Raise e
   ∧ AlertSystem.alerts_log (fst refused) = AlertSystem.alerts_log s
   ∧ AlertSystem.attempts (fst refused)
     = AlertSystem.attempts s ++ attempted)
  ∧ (snd taken = Py.Ok tt
     ∧ AlertSystem.alerts_log (fst taken)
       = AlertSystem.alerts_log s ++
           [AlertSystem.LogLine (AlertSystem.timestamp h) severity message]
     ∧ AlertSystem.attempts (fst taken)
       = AlertSystem.attempts s ++ attempted).
Proof.
  intros refused taken attempted. subst refused taken attempted.
  rewrite AlertSystemFacts.sink_send_alert_refused.
  change (AlertSystem.send_alert_to text None h message severity play_sound
            notify s)
    with (AlertSystem.send_alert text h message severity play_sound notify s).
  rewrite AlertSystemFacts.sink_send_alert_eq. simpl.
  assert (Hattempts :
    AlertSystemTerms.delivery_attempts text h message severity play_sound
      notify
    = (if play_sound
       then AlertSystem.Bell ::
            match AlertSystem.bell_fault h with
            | Some _ => []
            | None => [AlertSystem.Bell; AlertSystem.Bell;
                       AlertSystem.SystemSound]
            end
       else [])
      ++ (if notify
          then [AlertSystemTerms.popup_of text message severity]
          else [])).
  { unfold AlertSystemTerms.delivery_attempts,
      AlertSystemTerms.sound_attempts.
    by destruct play_sound, (AlertSystem.bell_fault h). }
  rewrite Hattempts. by split_and!.
Qed.

(** On the host where every delivery primitive raises, with the terminal
    closed: the bell and the popup are attempted, the exception of the
    [print] reaches the caller, and the alert log stays empty. *)
Example alert_on_a_closed_terminal_is_not_logged :
  AlertSystem.send_alert_to id (Some Py.OSError) deaf_host "Port scan"
    "PORT_SCAN" true true AlertSystem.empty_sink
  = (AlertSystem.Sink
       [AlertSystem.Bell;
        AlertSystem.Popup
          (AlertSystem.siren +:+ " PORT_SCAN") "Port scan"]
       [] [],
     Py.Raise Py.OSError).
Proof. reflexivity. Qed.

(** The same host with a terminal that takes the lines. *)
Example send_alert_on_deaf_host :
  AlertSystem.send_alert id deaf_host "Port scan" "PORT_SCAN" true true
    AlertSystem.empty_sink
  = (AlertSystem.Sink
       [AlertSystem.Bell;
        AlertSystem.Popup
          (AlertSystem.siren +:+ " PORT_SCAN") "Port scan"]
       [("PORT_SCAN", "Port scan")]
       [AlertSystem.LogLine "2024-05-01 12:00:00" "PORT_SCAN" "Port scan"],
     Py.Ok tt).
Proof. reflexivity. Qed.

(** ** The file-event classifier *)

Module FileMonitorFacts.
Import Py PyFacts FileMonitor FileMonitorTerms.

Lemma file_send_alert_eq h message severity play_sound st :
  send_alert h message severity play_sound st
  = (State (recent_events st) (file_access_log st)
           (dispatched h message severity play_sound (alert_system st)),
     Ok tt).
Proof.
  unfold send_alert, zoom, dispatched.
  by rewrite AlertSystemFacts.sink_send_alert_eq.
Qed.

Lemma should_alert_suppressed now event_key st :
  recently_alerted st now event_key ->
  should_alert now event_key st = (st, Ok false).
Proof.
  intros (t & Hlook & Hlt). unfold should_alert, bind, get.
  rewrite Hlook. by apply Qltb_true in Hlt as ->.
Qed.

Lemma should_alert_granted now event_key st :
  ¬ recently_alerted st now event_key ->
  should_alert now event_key st
  = (State (<[event_key := now]> (recent_events st)) (file_access_log st)
           (alert_system st),
     Ok true).
Proof.
  intros Hnot. unfold should_alert, bind, get.
  destruct (recent_events st !! event_key) as [t |] eqn:Hlook; [| done].
  destruct (Qltb (now - t) event_window) eqn:Hlt; [| done].
  exfalso. apply Hnot. exists t. by apply Qltb_true in Hlt.
Qed.

Lemma recently_alerted_cases st now event_key :
  recently_alerted st now event_key ∨ ¬ recently_alerted st now event_key.
Proof.
  unfold recently_alerted.
  destruct (recent_events st !! event_key) as [t |]; [| naive_solver].
  destruct (Qltb (now - t) event_window) eqn:Hlt.
  - left. exists t. by apply Qltb_true in Hlt.
  - right. intros (t' & [= <-] & Hlt'). apply Qltb_true in Hlt'. congruence.
Qed.

Lemma on_deleted_eq h ev st :
  is_directory ev = false ->
  on_deleted h ev st
  = (State (recent_events st)
           (file_access_log st ++
              [FileLine (AlertSystem.timestamp h) "DELETED" (src_path ev)])
           (dispatched h ("FILE DELETION DETECTED: " +:+ src_path ev)
              "FILE_DELETED" true (alert_system st)),
     Ok tt).
Proof.
  intros Hfile. unfold on_deleted. rewrite Hfile.
  unfold log_file_event. MonadFacts.unfold_M.
  by rewrite file_send_alert_eq.
Qed.

Lemma on_modified_suppressed h now ev st :
  is_directory ev = false ->
  recently_alerted st now ("modified:" +:+ src_path ev) ->
  on_modified h now ev st = (logged h "MODIFIED" (src_path ev) st, Ok tt).
Proof.
  intros Hfile Hrec. unfold on_modified. rewrite Hfile.
  unfold log_file_event. MonadFacts.unfold_M.
  fold (logged h "MODIFIED" (src_path ev) st).
  by rewrite should_alert_suppressed.
Qed.

Lemma on_modified_alerts h now ev st :
  is_directory ev = false ->
  ¬ recently_alerted st now ("modified:" +:+ src_path ev) ->
  on_modified h now ev st
  = (State (<["modified:" +:+ src_path ev := now]> (recent_events st))
           (file_access_log st ++
              [FileLine (AlertSystem.timestamp h) "MODIFIED" (src_path ev)])
           (dispatched h ("File modified: " +:+ src_path ev) "FILE_MODIFIED"
              false (alert_system st)),
     Ok tt).
Proof.
  intros Hfile Hrec. unfold on_modified. rewrite Hfile.
  unfold log_file_event. MonadFacts.unfold_M.
  fold (logged h "MODIFIED" (src_path ev) st).
  rewrite should_alert_granted by done.
  by rewrite file_send_alert_eq.
Qed.

Lemma on_created_suppressed h now ev st :
  is_directory ev = false ->
  recently_alerted st now ("created:" +:+ src_path ev) ->
  on_created h now ev st = (logged h "CREATED" (src_path ev) st, Ok tt).
Proof.
  intros Hfile Hrec. unfold on_created. rewrite Hfile.
  unfold log_file_event. MonadFacts.unfold_M.
  fold (logged h "CREATED" (src_path ev) st).
  by rewrite should_alert_suppressed.
Qed.

Lemma on_created_alerts h now ev st :
  is_directory ev = false ->
  ¬ recently_alerted st now ("created:" +:+ src_path ev) ->
  on_created h now ev st
  = (State (<["created:" +:+ src_path ev := now]> (recent_events st))
           (file_access_log st ++
              [FileLine (AlertSystem.timestamp h) "CREATED" (src_path ev)])
           (dispatched h ("File created: " +:+ src_path ev) "FILE_CREATED"
              false (alert_system st)),
     Ok tt).
Proof.
  intros Hfile Hrec. unfold on_created. rewrite Hfile.
  unfold log_file_event. MonadFacts.unfold_M.
  fold (logged h "CREATED" (src_path ev) st).
  rewrite should_alert_granted by done.
  by rewrite file_send_alert_eq.
Qed.

End FileMonitorFacts.

(** C5.  For an event on a file (not a directory).  A deletion is logged
    to the evidence log and dispatched as a FILE_DELETED alert with the
    sound asked for, whatever the table of recent events holds.  A
    modification or creation is logged to the evidence log in every case;
    when its key (kind and path) alerted less than one second before, no
    alert is dispatched and the table is unchanged; otherwise the alert is
    dispatched without the sound and the key is dated with the current
    time. *)
Theorem C5_file_event_alert_policy
    (h : AlertSystem.host) (now : Q) (ev : FileMonitor.event)
    (st : FileMonitor.state) :
  FileMonitor.is_directory ev = false ->
  let path := FileMonitor.src_path ev in
  let ts := AlertSystem.timestamp h in
  let deleted := FileMonitor.on_deleted h ev st in
  let modified := FileMonitor.on_modified h now ev st in
  let created := FileMonitor.on_created h now ev st in
  (snd deleted = Py.Ok tt
   ∧ FileMonitor.file_access_log (fst deleted)
     = FileMonitor.file_access_log st ++
         [FileMonitor.FileLine ts "DELETED" path]
   ∧ FileMonitor.alert_system (fst deleted)
     = fst (AlertSystem.send_alert id h
              ("FILE DELETION DETECTED: " +:+ path) "FILE_DELETED"
              true true (FileMonitor.alert_system st))
   ∧ AlertSystem.alerts_log (FileMonitor.alert_system (fst deleted))
     = AlertSystem.alerts_log (FileMonitor.alert_system st) ++
         [AlertSystem.LogLine ts "FILE_DELETED"
            ("FILE DELETION DETECTED: " +:+ path)])
  ∧ (snd modified = Py.Ok tt
     ∧ FileMonitor.file_access_log (fst modified)
       = FileMonitor.file_access_log st ++
           [FileMonitor.FileLine ts "MODIFIED" path]
     ∧ (FileMonitorTerms.recently_alerted st now ("modified:" +:+ path) ->
        FileMonitor.alert_system (fst modified) = FileMonitor.alert_system st
        ∧ FileMonitor.recent_events (fst modified)
          = FileMonitor.recent_events st)
     ∧ (¬ FileMonitorTerms.recently_alerted st now ("modified:" +:+ path) ->
        FileMonitor.alert_system (fst modified)
        = fst (AlertSystem.send_alert id h ("File modified: " +:+ path)
                 "FILE_MODIFIED" false true (FileMonitor.alert_system st))
        ∧ FileMonitor.recent_events (fst modified)
          = <["modified:" +:+ path := now]> (FileMonitor.recent_events st)))
  ∧ (snd created = Py.Ok tt
     ∧ FileMonitor.file_access_log (fst created)
       = FileMonitor.file_access_log st ++
           [FileMonitor.FileLine ts "CREATED" path]
     ∧ (FileMonitorTerms.recently_alerted st now ("created:" +:+ path) ->
        FileMonitor.alert_system (fst created) = FileMonitor.alert_system st
        ∧ FileMonitor.recent_events (fst created)
          = FileMonitor.recent_events st)
     ∧ (¬ FileMonitorTerms.recently_alerted st now ("created:" +:+ path) ->
        FileMonitor.alert_system (fst created)
        = fst (AlertSystem.send_alert id h ("File created: " +:+ path)
                 "FILE_CREATED" false true (FileMonitor.alert_system st))
        ∧ FileMonitor.recent_events (fst created)
          = <["created:" +:+ path := now]> (FileMonitor.recent_events st))).
Proof.
  intros Hfile path ts deleted modified created.
  subst deleted modified created path ts.
  rewrite FileMonitorFacts.on_deleted_eq by done.
  split_and!; try done.
  - unfold FileMonitorTerms.dispatched.
    by rewrite AlertSystemFacts.sink_send_alert_eq.
  - destruct (FileMonitorFacts.recently_alerted_cases st now
                ("modified:" +:+ FileMonitor.src_path ev));
      [by rewrite FileMonitorFacts.on_modified_suppressed
      | by rewrite FileMonitorFacts.on_modified_alerts].
  - destruct (FileMonitorFacts.recently_alerted_cases st now
                ("modified:" +:+ FileMonitor.src_path ev));
      [by rewrite FileMonitorFacts.on_modified_suppressed
      | by rewrite FileMonitorFacts.on_modified_alerts].
  - intros Hrec. by rewrite FileMonitorFacts.on_modified_suppressed.
  - intros Hrec. by rewrite FileMonitorFacts.on_modified_alerts.
  - destruct (FileMonitorFacts.recently_alerted_cases st now
                ("created:" +:+ FileMonitor.src_path ev));
      [by rewrite FileMonitorFacts.on_created_suppressed
      | by rewrite FileMonitorFacts.on_created_alerts].
  - destruct (FileMonitorFacts.recently_alerted_cases st now
                ("created:" +:+ FileMonitor.src_path ev));
      [by rewrite FileMonitorFacts.on_created_suppressed
      | by rewrite FileMonitorFacts.on_created_alerts].
  - intros Hrec. by rewrite FileMonitorFacts.on_created_suppressed.
  - intros Hrec. by rewrite FileMonitorFacts.on_created_alerts.
Qed.

(** Half a second after the alert: a deletion alerts, a modification is
    logged and not alerted. *)
Lemma C5_deletion_alerts_while_modification_is_suppressed :
  AlertSystem.alerts_log
    (FileMonitor.alert_system
       (fst (FileMonitor.on_deleted desk_host notes_event just_alerted)))
  = [AlertSystem.LogLine "2024-05-01 12:00:00" "FILE_DELETED"
       "FILE DELETION DETECTED: /home/alice/notes.txt"]
  ∧ FileMonitor.alert_system
      (fst (FileMonitor.on_modified desk_host (21 # 2) notes_event
              just_alerted))
    = AlertSystem.empty_sink
  ∧ FileMonitor.file_access_log
      (fst (FileMonitor.on_modified desk_host (21 # 2) notes_event
              just_alerted))
    = [FileMonitor.FileLine "2024-05-01 12:00:00" "MODIFIED"
         "/home/alice/notes.txt"].
Proof.
  destruct (C5_file_event_alert_policy desk_host (21 # 2) notes_event
              just_alerted eq_refl)
    as ((_ & _ & _ & Hdeleted) & (_ & Hlogged & Hsuppressed & _) & _).
  split_and!.
  - exact Hdeleted.
  - apply Hsuppressed. exists 10%Q. split; [reflexivity |].
    vm_compute. reflexivity.
  - exact Hlogged.
Defined.

(** ** The process watcher: resource streaks *)

Module ProcessMonitorFacts.
Import Py PyFacts ProcessMonitor ProcessMonitorTerms.

Lemma key_of_inj m1 p1 m2 p2 :
  key_of m1 p1 = key_of m2 p2 -> m1 = m2 ∧ p1 = p2.
Proof.
  destruct m1, m2; unfold key_of, cpu_key, mem_key; simpl; intros [= H].
  all: split; [done | by apply pretty_Z_inj].
Qed.

Lemma counter_insert_eq known tracker log sink key n :
  counter (State known (<[key := n]> tracker) log sink) key = n.
Proof. unfold counter. simpl. by rewrite lookup_insert_eq. Qed.

Lemma counter_insert_ne known tracker log sink key key' n :
  key ≠ key' ->
  counter (State known (<[key := n]> tracker) log sink) key'
  = default 0%nat (tracker !! key').
Proof. intros. unfold counter. simpl. by rewrite lookup_insert_ne. Qed.

Section Watcher.
Context (render : alert_message -> string) (cfg : config).

Lemma process_send_alert_eq h message severity play_sound st :
  send_alert render h message severity play_sound st
  = (State (known_processes st) (high_resource_tracker st) (process_log st)
           (dispatched render h message severity play_sound (alert_system st)),
     Ok tt).
Proof.
  unfold send_alert, zoom, dispatched.
  by rewrite AlertSystemFacts.sink_send_alert_eq.
Qed.

Lemma alerts_log_dispatched h message severity play_sound s :
  AlertSystem.alerts_log (dispatched render h message severity play_sound s)
  = AlertSystem.alerts_log s ++
      [AlertSystem.LogLine (AlertSystem.timestamp h) severity message].
Proof. unfold dispatched. by rewrite AlertSystemFacts.sink_send_alert_eq. Qed.

Lemma check_metric_eq h key percent threshold event_type event message st :
  let over := Qgtb percent threshold in
  let full := completes cfg over (counter st key) in
  check_metric render cfg h key (Some percent) threshold event_type event
    message st
  = (State (known_processes st)
           (<[key := next_streak cfg over (counter st key)]>
              (high_resource_tracker st))
           (process_log st ++
              (if full
               then [ProcessLine (AlertSystem.timestamp h) event_type
                       (event percent)]
               else []))
           (if full
            then dispatched render h (message percent) event_type false
                   (alert_system st)
            else alert_system st),
     Ok tt).
Proof.
  intros over full. subst over full.
  unfold check_metric, completes, next_streak, set_counter,
    log_process_event.
  MonadFacts.unfold_M.
  destruct (Qgtb percent threshold); simpl; [| by rewrite app_nil_r].
  rewrite counter_insert_eq.
  destruct (alert_threshold cfg <=? counter st key + 1)%nat; simpl.
  - rewrite process_send_alert_eq. simpl. by rewrite insert_insert_eq.
  - by rewrite app_nil_r.
Qed.

Lemma check_process_eq h proc cpu mem st :
  cpu_percent proc = Some cpu ->
  memory_percent proc = Some mem ->
  check_process render cfg h proc st
  = (after_metric render cfg h Memory proc mem
       (after_metric render cfg h Cpu proc cpu st),
     Ok tt).
Proof.
  intros Hcpu Hmem. unfold check_process. MonadFacts.unfold_M.
  rewrite Hcpu, Hmem, check_metric_eq.
  cbv zeta. by rewrite check_metric_eq.
Qed.

(** An unreadable CPU percentage: the comparison raises, the handler of
    the loop body does not catch it, the state is untouched. *)
Lemma check_process_raises h proc st :
  cpu_percent proc = None ->
  check_process render cfg h proc st = (st, Raise TypeError).
Proof.
  intros Hcpu. unfold check_process. MonadFacts.unfold_M.
  by rewrite Hcpu.
Qed.

Lemma check_process_total h proc :
  readable proc ->
  ∀ st, check_process render cfg h proc st
        = (checked render cfg h st proc, Ok tt).
Proof.
  intros [[cpu Hcpu] [mem Hmem]] st. unfold checked.
  by rewrite (check_process_eq h proc cpu mem).
Qed.

Lemma check_resource_usage_eq h procs st :
  Forall readable procs ->
  check_resource_usage render cfg h procs st
  = (fold_left (checked render cfg h) procs st, Ok tt).
Proof.
  intros Hall. apply MonadFacts.for_each_Forall.
  eapply Forall_impl; [exact Hall |]. apply check_process_total.
Qed.

(** *** One resource of one pid across a scan *)

Lemma counter_after_metric_eq h m proc percent st :
  counter (after_metric render cfg h m proc percent st) (key_of m (pid proc))
  = next_streak cfg (Qgtb percent (threshold_of cfg m))
      (counter st (key_of m (pid proc))).
Proof. unfold after_metric. apply counter_insert_eq. Qed.

Lemma counter_after_metric_ne h m proc percent st m' p :
  (m, pid proc) ≠ (m', p) ->
  counter (after_metric render cfg h m proc percent st) (key_of m' p)
  = counter st (key_of m' p).
Proof.
  intros Hne. unfold after_metric. apply counter_insert_ne.
  intros Heq. apply key_of_inj in Heq as [? ?]. congruence.
Qed.

Lemma concerns_alert_of m proc percent m' p ts :
  concerns m' p
    (AlertSystem.LogLine ts (severity_of m) (alert_of cfg m proc percent))
  = bool_decide ((m, pid proc) = (m', p)).
Proof.
  destruct m, m'; cbn [concerns AlertSystem.line_message alert_of];
    case_bool_decide as Heq; simplify_eq; rewrite ?Z.eqb_refl; try done.
  all: apply Z.eqb_neq; congruence.
Qed.

Lemma resource_alerts_after_metric h m proc percent st m' p :
  resource_alerts m' p (after_metric render cfg h m proc percent st)
  = resource_alerts m' p st ++
      (if completes cfg (Qgtb percent (threshold_of cfg m))
            (counter st (key_of m (pid proc)))
          && bool_decide ((m, pid proc) = (m', p))
       then [AlertSystem.LogLine (AlertSystem.timestamp h) (severity_of m)
               (alert_of cfg m proc percent)]
       else []).
Proof.
  unfold resource_alerts, after_metric. cbn [alert_system].
  destruct (completes cfg _ _); simpl; [| by rewrite app_nil_r].
  rewrite alerts_log_dispatched, List.filter_app. simpl.
  rewrite concerns_alert_of. by destruct (bool_decide _).
Qed.

(** The check of a process leaves the streaks and the alerts of the other
    pids alone. *)
Lemma checked_other h st proc m p :
  readable proc -> pid proc ≠ p ->
  counter (checked render cfg h st proc) (key_of m p) = counter st (key_of m p)
  ∧ resource_alerts m p (checked render cfg h st proc)
    = resource_alerts m p st.
Proof.
  intros [[cpu Hcpu] [mem Hmem]] Hne. unfold checked.
  rewrite (check_process_eq h proc cpu mem) by done. cbn [fst].
  rewrite !counter_after_metric_ne by congruence.
  rewrite !resource_alerts_after_metric.
  rewrite !bool_decide_eq_false_2 by congruence.
  by rewrite !andb_false_r, !app_nil_r.
Qed.

(** The check of a process moves each of its two streaks by the reading
    of that resource only, and logs the alert of a completed streak. *)
Lemma checked_self h st proc m percent :
  readable proc -> reading_of m proc = Some percent ->
  let over := Qgtb percent (threshold_of cfg m) in
  let streak := counter st (key_of m (pid proc)) in
  counter (checked render cfg h st proc) (key_of m (pid proc))
  = next_streak cfg over streak
  ∧ resource_alerts m (pid proc) (checked render cfg h st proc)
    = resource_alerts m (pid proc) st ++
        (if completes cfg over streak
         then [AlertSystem.LogLine (AlertSystem.timestamp h) (severity_of m)
                 (alert_of cfg m proc percent)]
         else []).
Proof.
  intros [[cpu Hcpu] [mem Hmem]] Hread. unfold checked.
  rewrite (check_process_eq h proc cpu mem) by done. cbn [fst].
  destruct m; simpl in Hread; simplify_eq.
  - rewrite counter_after_metric_ne, (counter_after_metric_eq h Cpu)
      by congruence.
    rewrite !resource_alerts_after_metric.
    rewrite (bool_decide_eq_true_2 ((Cpu, pid proc) = (Cpu, pid proc)))
      by done.
    rewrite (bool_decide_eq_false_2 ((Memory, pid proc) = (Cpu, pid proc)))
      by congruence.
    by rewrite andb_false_r, andb_true_r, app_nil_r.
  - rewrite (counter_after_metric_eq h Memory).
    rewrite !resource_alerts_after_metric.
    rewrite counter_after_metric_ne by congruence.
    rewrite (bool_decide_eq_true_2
               ((Memory, pid proc) = (Memory, pid proc))) by done.
    rewrite (bool_decide_eq_false_2 ((Cpu, pid proc) = (Memory, pid proc)))
      by congruence.
    by rewrite andb_false_r, andb_true_r, app_nil_r.
Qed.

Lemma fold_checked_other h m p procs : ∀ st,
  Forall readable procs -> p ∉ pid <$> procs ->
  counter (fold_left (checked render cfg h) procs st) (key_of m p)
  = counter st (key_of m p)
  ∧ resource_alerts m p (fold_left (checked render cfg h) procs st)
    = resource_alerts m p st.
Proof.
  induction procs as [| q procs IH]; intros st Hall Hnot; [done |].
  apply Forall_cons in Hall as [Hq Hall].
  rewrite fmap_cons, not_elem_of_cons in Hnot. destruct Hnot as [Hne Hnot].
  simpl. destruct (IH (checked render cfg h st q) Hall Hnot) as [-> ->].
  apply checked_other; [done | congruence].
Qed.

(** One scan, seen from one resource of one of its processes. *)
Lemma check_resource_usage_one h procs proc m percent st :
  NoDup (pid <$> procs) -> Forall readable procs -> proc ∈ procs ->
  reading_of m proc = Some percent ->
  let over := Qgtb percent (threshold_of cfg m) in
  let streak := counter st (key_of m (pid proc)) in
  let out := check_resource_usage render cfg h procs st in
  snd out = Ok tt
  ∧ counter (fst out) (key_of m (pid proc)) = next_streak cfg over streak
  ∧ resource_alerts m (pid proc) (fst out)
    = resource_alerts m (pid proc) st ++
        (if completes cfg over streak
         then [AlertSystem.LogLine (AlertSystem.timestamp h) (severity_of m)
                 (alert_of cfg m proc percent)]
         else []).
Proof.
  intros Hnd Hall Hin Hread over streak out. subst out.
  rewrite check_resource_usage_eq by done. cbn [fst snd].
  split; [done |].
  apply list_elem_of_split in Hin as (l1 & l2 & ->).
  rewrite fmap_app, fmap_cons in Hnd.
  apply NoDup_app in Hnd as (_ & Hl1 & Hnd).
  apply NoDup_cons in Hnd as [Hl2 _].
  apply Forall_app in Hall as [Hall1 Hall2].
  apply Forall_cons in Hall2 as [Hproc Hall2].
  rewrite fold_left_app. simpl.
  destruct (fold_checked_other h m (pid proc) l2
              (checked render cfg h (fold_left (checked render cfg h) l1 st)
                 proc) Hall2 Hl2)
    as [-> ->].
  destruct (checked_self h (fold_left (checked render cfg h) l1 st) proc m
              percent
              Hproc Hread) as [-> ->].
  assert (Hnot1 : pid proc ∉ pid <$> l1).
  { intros Hin1. apply (Hl1 _ Hin1). set_solver. }
  destruct (fold_checked_other h m (pid proc) l1 st Hall1 Hnot1) as [-> ->].
  done.
Qed.

End Watcher.
End ProcessMonitorFacts.




(** ** The process watcher: new processes and the loop *)

Module ProcessWatchFacts.
Import Py PyFacts ProcessMonitor ProcessMonitorTerms ProcessMonitorFacts
  ProcessWatchTerms.

Section Watcher.
Context (render : alert_message -> string) (cfg : config).

Lemma is_suspicious_name_eq n st :
  is_suspicious_name cfg (Some n) st
  = (st, Ok (existsb (λ s, contains s (lower n)) (suspicious_names cfg))).
Proof. done. Qed.

Lemma existsb_suspicious n :
  existsb (λ s, contains s (lower n)) (suspicious_names cfg) = true
  <-> suspicious cfg n.
Proof.
  rewrite existsb_exists. unfold suspicious.
  by setoid_rewrite list_elem_of_In.
Qed.

Lemma visit_process_eq h known proc current st :
  is_Some (name proc) ->
  visit_process render cfg h known proc current st
  = (noticed render cfg h known st proc, Ok (current ∪ {[pid proc]})).
Proof.
  intros [n Hn]. unfold visit_process, noticed, log_process_event.
  MonadFacts.unfold_M.
  case_bool_decide; [done |].
  rewrite Hn, is_suspicious_name_eq. simpl.
  destruct (existsb _ _); [| done].
  rewrite process_send_alert_eq. unfold suspicion_of, command_of. by rewrite Hn.
Qed.

(** A new process whose name psutil could not read: [lower] raises, and
    the handler of the loop body does not catch it. *)
Lemma visit_process_raises h known proc current st :
  name proc = None -> pid proc ∉ known ->
  snd (visit_process render cfg h known proc current st)
  = Raise AttributeError.
Proof.
  intros Hn Hnew. unfold visit_process, log_process_event.
  MonadFacts.unfold_M.
  rewrite bool_decide_eq_false_2 by done. by rewrite Hn.
Qed.

Lemma visit_processes_eq h known procs : ∀ current st,
  Forall (λ proc, is_Some (name proc)) procs ->
  visit_processes render cfg h known procs current st
  = (fold_left (noticed render cfg h known) procs st,
     Ok (current ∪ list_to_set (pid <$> procs))).
Proof.
  induction procs as [| proc procs IH]; intros current st Hall.
  - simpl. unfold ret. by rewrite (right_id_L ∅ (∪)).
  - apply Forall_cons in Hall as [Hproc Hall]. simpl. unfold bind.
    rewrite visit_process_eq, IH by done.
    do 2 f_equal. set_solver.
Qed.

Lemma check_new_processes_eq h procs st :
  Forall (λ proc, is_Some (name proc)) procs ->
  check_new_processes render cfg h procs st
  = (let st' :=
       fold_left (noticed render cfg h (known_processes st)) procs st in
     State (list_to_set (pid <$> procs)) (high_resource_tracker st')
           (process_log st') (alert_system st'),
     Ok tt).
Proof.
  intros Hall. unfold check_new_processes, bind, get, modify.
  rewrite visit_processes_eq by done. cbv zeta.
  by rewrite (left_id_L ∅ (∪)).
Qed.

Lemma suspicion_alerts_noticed h known st proc p :
  suspicion_alerts p (noticed render cfg h known st proc)
  = suspicion_alerts p st ++
      (if negb (bool_decide (pid proc ∈ known))
          && existsb (λ s, contains s (lower (default EmptyString
                                                      (name proc))))
               (suspicious_names cfg)
          && Z.eqb (pid proc) p
       then [AlertSystem.LogLine (AlertSystem.timestamp h)
               "SUSPICIOUS_PROCESS" (suspicion_of proc)]
       else []).
Proof.
  unfold noticed, suspicion_alerts.
  case_bool_decide; cbn [negb andb]; [by rewrite app_nil_r |].
  cbn [alert_system].
  destruct (existsb _ _); cbn [andb]; [| by rewrite app_nil_r].
  rewrite alerts_log_dispatched, List.filter_app.
  cbn [List.filter flags AlertSystem.line_message suspicion_of].
  by destruct (Z.eqb _ _).
Qed.

Lemma fold_noticed_other h known p procs : ∀ st,
  p ∉ pid <$> procs ->
  suspicion_alerts p (fold_left (noticed render cfg h known) procs st)
  = suspicion_alerts p st.
Proof.
  induction procs as [| q procs IH]; intros st Hnot; [done |].
  rewrite fmap_cons, not_elem_of_cons in Hnot. destruct Hnot as [Hne Hnot].
  simpl. rewrite IH, suspicion_alerts_noticed by done.
  apply not_eq_sym, Z.eqb_neq in Hne. rewrite Hne.
  by rewrite andb_false_r, app_nil_r.
Qed.

(** One scan, seen from one of its processes. *)
Lemma fold_noticed_one h known procs proc st :
  NoDup (pid <$> procs) -> proc ∈ procs ->
  suspicion_alerts (pid proc) (fold_left (noticed render cfg h known) procs st)
  = suspicion_alerts (pid proc) st ++
      (if negb (bool_decide (pid proc ∈ known))
          && existsb (λ s, contains s (lower (default EmptyString
                                                      (name proc))))
               (suspicious_names cfg)
       then [AlertSystem.LogLine (AlertSystem.timestamp h)
               "SUSPICIOUS_PROCESS" (suspicion_of proc)]
       else []).
Proof.
  intros Hnd Hin.
  apply list_elem_of_split in Hin as (l1 & l2 & ->).
  rewrite fmap_app, fmap_cons in Hnd.
  apply NoDup_app in Hnd as (_ & Hl1 & Hnd).
  apply NoDup_cons in Hnd as [Hl2 _].
  rewrite fold_left_app. simpl.
  rewrite fold_noticed_other by done.
  rewrite suspicion_alerts_noticed.
  rewrite fold_noticed_other by (intros Hin1; apply (Hl1 _ Hin1); set_solver).
  by rewrite Z.eqb_refl, andb_true_r.
Qed.

End Watcher.
End ProcessWatchFacts.




Module ProcessLoopFacts.
Import Py PyFacts ProcessMonitor ProcessMonitorTerms ProcessMonitorFacts
  ProcessWatchTerms ProcessWatchFacts ProcessLoopTerms.

Section Watcher.
Context (render : alert_message -> string) (cfg : config).

(** A scan stops at the first process whose CPU percentage is [None]: the
    processes after it are not checked. *)
Lemma check_resource_usage_raises h l1 proc l2 st :
  Forall readable l1 ->
  cpu_percent proc = None ->
  check_resource_usage render cfg h (l1 ++ proc :: l2) st
  = (fold_left (checked render cfg h) l1 st, Raise TypeError).
Proof.
  intros Hall Hcpu. unfold check_resource_usage.
  apply (MonadFacts.for_each_raises _ (checked render cfg h)).
  - eapply Forall_impl; [exact Hall |]. apply check_process_total.
  - by apply check_process_raises.
Qed.

(** A round that raises ends the loop of [monitor]. *)
Lemma monitor_round_raises_ends_monitor pids t rounds st st' e :
  monitor_round render cfg t
    (State (list_to_set pids) (high_resource_tracker st) (process_log st)
       (alert_system st)) = (st', Raise e) ->
  monitor render cfg pids (t :: rounds) st = (st', Raise e).
Proof.
  intros Hround. unfold monitor, mbind, M_bind, bind, modify. simpl.
  unfold bind. by rewrite Hround.
Qed.

(** *** Streaks across the rounds of the loop *)

(** The scan for new processes leaves the streaks and the resource alerts
    as they are. *)
Lemma noticed_resources h known st proc m p :
  counter (noticed render cfg h known st proc) (key_of m p)
  = counter st (key_of m p)
  ∧ resource_alerts m p (noticed render cfg h known st proc)
    = resource_alerts m p st.
Proof.
  unfold noticed. case_bool_decide; [done |]. split; [done |].
  unfold resource_alerts. cbn [alert_system].
  destruct (existsb _ _); [| done].
  rewrite alerts_log_dispatched, List.filter_app.
  cbn [List.filter concerns AlertSystem.line_message suspicion_of].
  destruct m; by rewrite app_nil_r.
Qed.

Lemma fold_noticed_resources h known m p procs : ∀ st,
  counter (fold_left (noticed render cfg h known) procs st) (key_of m p)
  = counter st (key_of m p)
  ∧ resource_alerts m p (fold_left (noticed render cfg h known) procs st)
    = resource_alerts m p st.
Proof.
  induction procs as [| q procs IH]; intros st; [done |].
  simpl. destruct (IH (noticed render cfg h known st q)) as [-> ->].
  apply noticed_resources.
Qed.

Lemma monitor_round_high m p t st :
  high_round cfg m p t ->
  let streak := counter st (key_of m p) in
  monitor_round render cfg t st = (after_round render cfg st t, Ok tt)
  ∧ counter (after_round render cfg st t) (key_of m p)
    = (if (alert_threshold cfg <=? streak + 1)%nat then 0 else streak + 1)%nat
  ∧ length (resource_alerts m p (after_round render cfg st t))
    = (length (resource_alerts m p st)
       + if (alert_threshold cfg <=? streak + 1)%nat then 1 else 0)%nat.
Proof.
  intros (Hnamed & Hnd & Hread & proc & percent & Hin & <- & Hm & Hover) streak.
  unfold after_round, monitor_round, mbind, M_bind, bind.
  rewrite (check_new_processes_eq render cfg) by done. cbv zeta.
  set (st1 := State _ _ _ _).
  destruct (fold_noticed_resources (tick_host t) (known_processes st) m
              (pid proc) (new_scan t) st) as [Hc Ha].
  assert (Hc1 : counter st1 (key_of m (pid proc)) = streak) by exact Hc.
  assert (Ha1 : resource_alerts m (pid proc) st1
                = resource_alerts m (pid proc) st) by exact Ha.
  destruct (check_resource_usage_one render cfg (tick_host t) (usage_scan t)
              proc m percent st1 Hnd Hread Hin Hm) as (Hok & Hcount & Hal).
  destruct (check_resource_usage render cfg (tick_host t) (usage_scan t) st1)
    as [st2 r] eqn:Hrun.
  simpl in Hok, Hcount, Hal. subst r. cbn [fst].
  apply Qgtb_true in Hover.
  unfold next_streak in Hcount. unfold completes in Hal.
  rewrite Hover, Hc1 in Hcount. rewrite Hover, Hc1, Ha1 in Hal.
  split_and!; [done | done |].
  rewrite Hal, length_app. simpl.
  by destruct (alert_threshold cfg <=? streak + 1)%nat.
Qed.

(** Consecutive high rounds below the alert threshold: the streak counts
    them and no alert is raised; the round that completes the streak
    raises one alert and puts the streak back to zero. *)
Lemma streak_of_high_rounds m p ts : ∀ st,
  Forall (high_round cfg m p) ts ->
  (counter st (key_of m p) + length ts < alert_threshold cfg)%nat ->
  let st' := fold_left (after_round render cfg) ts st in
  for_each ts (monitor_round render cfg) st = (st', Ok tt)
  ∧ counter st' (key_of m p) = (counter st (key_of m p) + length ts)%nat
  ∧ length (resource_alerts m p st') = length (resource_alerts m p st).
Proof.
  induction ts as [| t ts IH]; intros st Hall Hlen.
  - simpl. by rewrite Nat.add_0_r.
  - apply Forall_cons in Hall as [Ht Hall]. simpl in Hlen.
    destruct (monitor_round_high m p t st Ht) as (Hrun & Hc & Ha).
    destruct (Nat.leb_spec (alert_threshold cfg)
                (counter st (key_of m p) + 1)); [lia |].
    destruct (IH (after_round render cfg st t) Hall) as (Hrun' & Hc' & Ha');
      [rewrite Hc; lia |].
    simpl. unfold bind. rewrite Hrun, Hrun'.
    split_and!; [done | rewrite Hc', Hc; lia | rewrite Ha', Ha; lia].
Qed.

Lemma streak_completed m p ts t st :
  Forall (high_round cfg m p) (ts ++ [t]) ->
  (counter st (key_of m p) + length (ts ++ [t]) = alert_threshold cfg)%nat ->
  let st' := fold_left (after_round render cfg) (ts ++ [t]) st in
  for_each (ts ++ [t]) (monitor_round render cfg) st = (st', Ok tt)
  ∧ counter st' (key_of m p) = 0%nat
  ∧ length (resource_alerts m p st')
    = S (length (resource_alerts m p st)).
Proof.
  intros Hall Hlen st'. rewrite length_app in Hlen. simpl in Hlen.
  apply Forall_app in Hall as [Hall Ht]. rewrite Forall_singleton in Ht.
  destruct (streak_of_high_rounds m p ts st Hall) as (Hrun & Hc & Ha);
    [lia |].
  destruct (monitor_round_high m p t
              (fold_left (after_round render cfg) ts st) Ht)
    as (Hrun' & Hc' & Ha').
  destruct (Nat.leb_spec (alert_threshold cfg)
              (counter (fold_left (after_round render cfg) ts st)
                 (key_of m p) + 1));
    [| lia].
  subst st'. rewrite fold_left_app. simpl.
  split_and!; [| done | rewrite Ha', Ha; lia].
  rewrite (MonadFacts.for_each_app _ _ _ _ _ Hrun). simpl.
  unfold bind. by rewrite Hrun'.
Qed.

End Watcher.
End ProcessLoopFacts.

(** C8 (defect of the code).  The loop of the process monitor is ended by
    the failure of one process: with a process whose CPU percentage is
    [None] in the table, the comparison raises [TypeError], which the
    [except] clause of the loop body does not name; [check_resource_usage]
    and [monitor] end with that exception in the first round, the busy
    process listed after it is never examined (its streak stays at zero)
    and the second round does not run.  The loop of the connection
    monitor, whose body catches every exception, completes its rounds. *)
Theorem C8_unreadable_reading_ends_the_process_monitor
    (render : ProcessMonitor.alert_message -> string) :
  let scan := [opaque_proc; busy_proc] in
  let rounds :=
    [ProcessMonitor.Tick quiet_host scan scan;
     ProcessMonitor.Tick quiet_host scan scan] in
  let out :=
    ProcessMonitor.monitor render ProcessMonitor.default_config [1; 7]%Z
      rounds ProcessMonitor.initial_state in
  snd (ProcessMonitor.check_resource_usage render
         ProcessMonitor.default_config quiet_host scan
         ProcessMonitor.initial_state) = Py.Raise Py.TypeError
  ∧ snd out = Py.Raise Py.TypeError
  ∧ ProcessMonitor.counter (fst out) "cpu_7" = 0%nat
  ∧ (∀ polls st, snd (NetworkMonitor.monitor polls st) = Py.Ok tt).
Proof.
  intros scan rounds out. split_and!.
  - reflexivity.
  - reflexivity.
  - reflexivity.
  - intros polls st. by rewrite NetworkMonitorFacts.monitor_eq.
Qed.

(** Without the unreadable process the same two rounds bring the streak
    of the busy process to two. *)
Example readable_rounds_count_the_streak
    (render : ProcessMonitor.alert_message -> string) :
  let scan := [busy_proc] in
  let rounds :=
    [ProcessMonitor.Tick quiet_host scan scan;
     ProcessMonitor.Tick quiet_host scan scan] in
  let out :=
    ProcessMonitor.monitor render ProcessMonitor.default_config [7]%Z
      rounds ProcessMonitor.initial_state in
  snd out = Py.Ok tt ∧ ProcessMonitor.counter (fst out) "cpu_7" = 2%nat.
Proof. split; reflexivity. Qed.

(** ** The port-scan detector over runs *)

Module PacketRunFacts.
Import Py PyFacts PacketMonitor PacketMonitorTerms PacketMonitorFacts
  PacketRunTerms.

Section Detector.
Context (cfg : config).

(** *** One call, seen from a source *)

Lemma track_ports now port e0 :
  ports (track cfg now port e0) ⊆ ports e0 ∪ {[port]}.
Proof. unfold track. destruct (Qgtb _ _); cbn [ports]; set_solver. Qed.

Lemma size_track now port e0 :
  (size (ports (track cfg now port e0)) <= S (size (ports e0)))%nat.
Proof.
  etrans; [apply subseteq_size, track_ports |].
  rewrite size_union_alt.
  assert (size ({[port]} ∖ ports e0) <= 1)%nat; [| lia].
  rewrite <- (size_singleton (C:=gset Z) port).
  apply subseteq_size. set_solver.
Qed.

Lemma track_dates now port e0 :
  syn_count (track cfg now port e0) = syn_count e0 ∨
  syn_count (track cfg now port e0) = 0%Z.
Proof. unfold track. destruct (Qgtb _ _); auto. Qed.

(** The entry and the alerts after a call, whether it fires or not. *)
Lemma detect_port_scan_entry now src dst port proto st :
  let e := track cfg now port (tracker_get (scan_tracker st) src) in
  scan_tracker (detect_port_scan cfg now src dst port proto st) !! src
  = Some (if (port_scan_threshold cfg <=? size (ports e))%nat
          then TrackerEntry (syn_count e) ∅ (Some now) (last_seen e)
          else e).
Proof.
  intros e. unfold detect_port_scan. fold e.
  destruct (_ <=? _)%nat; simpl; by rewrite lookup_insert_eq.
Qed.

Lemma detect_port_scan_alerts now src dst port proto st :
  let e := track cfg now port (tracker_get (scan_tracker st) src) in
  packet_alerts (detect_port_scan cfg now src dst port proto st)
  = packet_alerts st ++
      (if (port_scan_threshold cfg <=? size (ports e))%nat
       then [Alert "PORT_SCAN"
               (PortScanMessage src dst (size (ports e))
                  (now - default now (first_seen e))
                  (take 10 (sorted_ports (ports e)))
                  (10 <? length (sorted_ports (ports e)))%nat proto)]
       else []).
Proof.
  intros e. unfold detect_port_scan. fold e.
  destruct (_ <=? _)%nat; simpl; by rewrite ?app_nil_r.
Qed.

Lemma tracker_get_self now src dst port proto st :
  let e := track cfg now port (tracker_get (scan_tracker st) src) in
  tracker_get (scan_tracker (detect_port_scan cfg now src dst port proto st))
    src
  = if (port_scan_threshold cfg <=? size (ports e))%nat
    then TrackerEntry (syn_count e) ∅ (Some now) (last_seen e)
    else e.
Proof.
  intros e. unfold tracker_get at 1. by rewrite detect_port_scan_entry.
Qed.

Lemma tracker_get_other now src dst port proto st src' :
  src ≠ src' ->
  tracker_get (scan_tracker (detect_port_scan cfg now src dst port proto st))
    src'
  = tracker_get (scan_tracker st) src'.
Proof.
  intros Hne. unfold tracker_get. by rewrite detect_port_scan_other.
Qed.

Lemma alerts_about_other now src dst port proto st src' :
  src ≠ src' ->
  alerts_about src' (detect_port_scan cfg now src dst port proto st)
  = alerts_about src' st.
Proof.
  intros Hne. unfold alerts_about. rewrite detect_port_scan_alerts.
  rewrite List.filter_app.
  destruct (_ <=? _)%nat; simpl; [| by rewrite app_nil_r].
  destruct (String.eqb_spec src src'); [done |]. by rewrite app_nil_r.
Qed.

Lemma alerts_about_self now src dst port proto st :
  let e := track cfg now port (tracker_get (scan_tracker st) src) in
  length (alerts_about src (detect_port_scan cfg now src dst port proto st))
  = (length (alerts_about src st)
     + if (port_scan_threshold cfg <=? size (ports e))%nat then 1 else 0)%nat.
Proof.
  intros e. unfold alerts_about. rewrite detect_port_scan_alerts.
  rewrite List.filter_app, length_app. fold e.
  destruct (_ <=? _)%nat; simpl; [| done].
  by rewrite String.eqb_refl.
Qed.

(** *** Runs, seen from a source *)

Lemma observe_eq st p :
  observe cfg st p
  = detect_port_scan cfg (p_time p) (p_src p) (p_dst p) (p_port p)
      (p_proto p) st.
Proof. done. Qed.

Lemma probes_from_cons_eq p ps :
  probes_from (p_src p) (p :: ps) = p :: probes_from (p_src p) ps.
Proof. unfold probes_from. simpl. by rewrite String.eqb_refl. Qed.

Lemma probes_from_cons_ne src p ps :
  p_src p ≠ src -> probes_from src (p :: ps) = probes_from src ps.
Proof.
  intros Hne. unfold probes_from. simpl.
  by destruct (String.eqb_spec (p_src p) src).
Qed.

(** While the ports of a source stay inside a set smaller than the
    threshold, no alert names the source. *)
Lemma quiet_inside (P : gset Z) src ps : ∀ st,
  ports (tracker_get (scan_tracker st) src) ⊆ P ->
  ports_probed src ps ⊆ P ->
  (size P < port_scan_threshold cfg)%nat ->
  alerts_about src (observe_all cfg ps st) = alerts_about src st.
Proof.
  induction ps as [| p ps IH]; intros st Hst Hps Hsize; [done |].
  simpl. destruct (decide (p_src p = src)) as [<- | Hne].
  - unfold ports_probed in Hps. rewrite probes_from_cons_eq in Hps.
    rewrite fmap_cons, list_to_set_cons in Hps.
    set (e := track cfg (p_time p) (p_port p)
                (tracker_get (scan_tracker st) (p_src p))).
    assert (He : ports e ⊆ P).
    { etrans; [apply track_ports |]. set_solver. }
    assert (Hquiet : (size (ports e) < port_scan_threshold cfg)%nat).
    { eapply Nat.le_lt_trans; [by apply subseteq_size | done]. }
    rewrite observe_eq, detect_port_scan_quiet by done. fold e.
    rewrite IH; [done | | set_solver | done].
    unfold tracker_get. cbn [scan_tracker]. by rewrite lookup_insert_eq.
  - unfold ports_probed in Hps. rewrite probes_from_cons_ne in Hps by done.
    rewrite IH; [| | done | done].
    + rewrite observe_eq. by apply alerts_about_other.
    + rewrite observe_eq, tracker_get_other; done.
Qed.

(** Probes that come more than the window apart, each after the entry of
    the source was dated: every one of them restarts the entry. *)
Lemma spaced_probes_restart src ps : ∀ st e t,
  (1 < port_scan_threshold cfg)%nat ->
  scan_tracker st !! src = Some e ->
  first_seen e = Some t ->
  Forall (λ p, p_src p = src) ps ->
  (∀ q, head ps = Some q -> (time_window cfg < p_time q - t)%Q) ->
  (∀ i p q, ps !! i = Some p -> ps !! S i = Some q ->
            (time_window cfg < p_time q - p_time p)%Q) ->
  packet_alerts (observe_all cfg ps st) = packet_alerts st.
Proof.
  induction ps as [| p ps IH]; intros st e t HT Hlook Hfirst Hall Hhead Hgap;
    [done |].
  apply Forall_cons in Hall as [Hsrc Hall]. simpl.
  assert (Hstep : observe cfg st p
                  = State (<[src := TrackerEntry 0 {[p_port p]}
                                      (Some (p_time p)) (Some (p_time p))]>
                             (scan_tracker st))
                          (packet_alerts st)).
  { rewrite observe_eq, Hsrc, detect_port_scan_quiet;
      unfold tracker_get; rewrite Hlook; simpl;
      rewrite (track_expired _ _ _ _ t) by (by auto); [done |].
    cbn [ports]. rewrite size_singleton. lia. }
  rewrite Hstep.
  erewrite IH; [done | done | apply lookup_insert_eq | done | done | |].
  - intros q Hq. apply (Hgap 0%nat p q); [done |].
    by destruct ps; simplify_eq/=.
  - intros i p' q Hp Hq. by apply (Hgap (S i) p' q).
Qed.

(** The alerts are appended to: a run keeps the alerts it started with. *)
Lemma observe_all_alerts_prefix ps : ∀ st,
  ∃ new, packet_alerts (observe_all cfg ps st) = packet_alerts st ++ new.
Proof.
  induction ps as [| p ps IH]; intros st; [exists []; by rewrite app_nil_r |].
  simpl. destruct (IH (observe cfg st p)) as [new ->].
  rewrite observe_eq, detect_port_scan_alerts.
  eexists. by rewrite <- app_assoc.
Qed.

(** *** What an alert reports *)

Lemma track_span now port e0 :
  (0 <= time_window cfg)%Q ->
  (now - default now (first_seen (track cfg now port e0))
   <= time_window cfg)%Q.
Proof.
  intros HW. unfold track.
  destruct (Qgtb _ _) eqn:Hgt; simpl.
  - lra.
  - by apply Qgtb_false in Hgt.
Qed.

Lemma StronglySorted_take {A} (R : A -> A -> Prop) n (l : list A) :
  StronglySorted R l -> StronglySorted R (take n l).
Proof.
  intros Hl. revert n. induction Hl as [| x l Hl IH Hx]; intros [| n]; simpl;
    try constructor; [apply IH | by apply Forall_take].
Qed.

Lemma reports_threshold_detect now src dst port proto st :
  (0 < port_scan_threshold cfg)%nat ->
  (0 <= time_window cfg)%Q ->
  under_threshold cfg st ->
  Forall (reports_threshold cfg) (packet_alerts st) ->
  Forall (reports_threshold cfg)
    (packet_alerts (detect_port_scan cfg now src dst port proto st)).
Proof.
  intros HT HW Hunder Hall. rewrite detect_port_scan_alerts.
  apply Forall_app. split; [done |].
  set (e := track cfg now port (tracker_get (scan_tracker st) src)).
  destruct (Nat.leb_spec (port_scan_threshold cfg) (size (ports e)));
    [| constructor].
  assert (Hsize : size (ports e) = port_scan_threshold cfg).
  { assert (size (ports (tracker_get (scan_tracker st) src))
            < port_scan_threshold cfg)%nat.
    { unfold tracker_get.
      destruct (scan_tracker st !! src) as [e0 |] eqn:Hlook.
      - by eapply Hunder.
      - change (size (∅ : gset Z) < port_scan_threshold cfg)%nat.
        by rewrite size_empty. }
    pose proof (size_track now port (tracker_get (scan_tracker st) src))
      as Hstep.
    fold e in Hstep. lia. }
  constructor; [| constructor].
  unfold reports_threshold. cbn [severity message ps_unique_ports ps_ports
    ps_ellipsis ps_time_span].
  rewrite length_take, length_sorted_ports, Hsize.
  split_and!; try done.
  - apply StronglySorted_take, sorted_ports_sorted.
  - by apply track_span.
Qed.

Lemma reports_threshold_observe_all ps : ∀ st,
  (0 < port_scan_threshold cfg)%nat ->
  (0 <= time_window cfg)%Q ->
  under_threshold cfg st ->
  Forall (reports_threshold cfg) (packet_alerts st) ->
  Forall (reports_threshold cfg) (packet_alerts (observe_all cfg ps st)).
Proof.
  induction ps as [| p ps IH]; intros st HT HW Hunder Hall; [done |].
  simpl. apply IH; [done | done | |].
  - by apply under_threshold_detect.
  - by apply reports_threshold_detect.
Qed.

(** *** Alerts and probes of a source *)

(** Every call of a source adds at most one to the ports it holds plus the
    threshold for each of its alerts. *)
Lemma alert_budget_step src st p :
  (port_scan_threshold cfg * length (alerts_about src (observe cfg st p))
   + size (ports (tracker_get (scan_tracker (observe cfg st p)) src))
   <= port_scan_threshold cfg * length (alerts_about src st)
      + size (ports (tracker_get (scan_tracker st) src))
      + length (probes_from src [p]))%nat.
Proof.
  destruct (decide (p_src p = src)) as [<- | Hne].
  - rewrite probes_from_cons_eq. simpl.
    rewrite observe_eq, alerts_about_self, tracker_get_self. cbv zeta.
    pose proof (size_track (p_time p) (p_port p)
                  (tracker_get (scan_tracker st) (p_src p))) as Hsz.
    destruct (Nat.leb_spec (port_scan_threshold cfg)
                (size (ports (track cfg (p_time p) (p_port p)
                                (tracker_get (scan_tracker st) (p_src p))))));
      cbn [ports]; rewrite ?size_empty; nia.
  - rewrite probes_from_cons_ne by done. simpl.
    rewrite observe_eq, alerts_about_other, tracker_get_other by done. lia.
Qed.

Lemma alert_budget src ps : ∀ st,
  (port_scan_threshold cfg * length (alerts_about src (observe_all cfg ps st))
   + size (ports (tracker_get (scan_tracker (observe_all cfg ps st)) src))
   <= port_scan_threshold cfg * length (alerts_about src st)
      + size (ports (tracker_get (scan_tracker st) src))
      + length (probes_from src ps))%nat.
Proof.
  induction ps as [| p ps IH]; intros st; [simpl; lia |].
  change (observe_all cfg (p :: ps) st)
    with (observe_all cfg ps (observe cfg st p)).
  etrans; [apply IH |].
  pose proof (alert_budget_step src st p) as Hstep.
  assert (length (probes_from src (p :: ps))
          = length (probes_from src [p]) + length (probes_from src ps))%nat
    as Hlen.
  { unfold probes_from. simpl. destruct (String.eqb _ _); simpl; lia. }
  rewrite Hlen. lia.
Qed.

(** The entry and the alerts of a source after a call from that source
    depend on nothing but the entry and the alerts of that source. *)
Lemma own_view_step src st1 st2 p :
  scan_tracker st1 !! src = scan_tracker st2 !! src ->
  alerts_about src st1 = alerts_about src st2 ->
  p_src p = src ->
  scan_tracker (observe cfg st1 p) !! src
  = scan_tracker (observe cfg st2 p) !! src
  ∧ alerts_about src (observe cfg st1 p)
    = alerts_about src (observe cfg st2 p).
Proof.
  intros Hlook Halerts <-. rewrite !observe_eq.
  rewrite !detect_port_scan_entry. unfold alerts_about in *.
  rewrite !detect_port_scan_alerts, !List.filter_app.
  unfold tracker_get. by rewrite Hlook, Halerts.
Qed.

Lemma own_view src ps : ∀ st1 st2,
  scan_tracker st1 !! src = scan_tracker st2 !! src ->
  alerts_about src st1 = alerts_about src st2 ->
  scan_tracker (observe_all cfg ps st1) !! src
  = scan_tracker (observe_all cfg (probes_from src ps) st2) !! src
  ∧ alerts_about src (observe_all cfg ps st1)
    = alerts_about src (observe_all cfg (probes_from src ps) st2).
Proof.
  induction ps as [| p ps IH]; intros st1 st2 Hlook Halerts; [done |].
  destruct (decide (p_src p = src)) as [Heq | Hne].
  - assert (Hown : probes_from src (p :: ps) = p :: probes_from src ps).
    { rewrite <- Heq. apply probes_from_cons_eq. }
    rewrite Hown. simpl.
    destruct (own_view_step src st1 st2 p Hlook Halerts Heq).
    by apply IH.
  - rewrite probes_from_cons_ne by done. simpl. apply IH.
    + by rewrite observe_eq, detect_port_scan_other.
    + by rewrite observe_eq, alerts_about_other.
Qed.

(** *** What the tracker holds *)

Lemma probes_from_snoc src ps p :
  probes_from src (ps ++ [p])
  = probes_from src ps ++ (if String.eqb (p_src p) src then [p] else []).
Proof. unfold probes_from. by rewrite List.filter_app. Qed.

Lemma track_last_seen now port e0 :
  last_seen (track cfg now port e0) = Some now
  ∧ is_Some (first_seen (track cfg now port e0))
  ∧ (syn_count e0 = 0%Z -> syn_count (track cfg now port e0) = 0%Z).
Proof. unfold track. destruct (Qgtb _ _); cbn; eauto. Qed.

Lemma tracker_contents ps src :
  let st := observe_all cfg ps initial_state in
  (is_Some (scan_tracker st !! src) <-> src ∈ p_src <$> ps)
  ∧ ∀ e, scan_tracker st !! src = Some e ->
         syn_count e = 0%Z
         ∧ is_Some (first_seen e)
         ∧ last_seen e = p_time <$> last (probes_from src ps).
Proof.
  induction ps as [| p ps IH] using rev_ind.
  - simpl. rewrite lookup_empty. split; [| done].
    split; [by intros [? ?] | by intros ?%elem_of_nil].
  - cbv zeta in *. rewrite observe_all_snoc, observe_eq, fmap_app.
    rewrite probes_from_snoc. destruct IH as [IHdom IHentry].
    destruct (decide (p_src p = src)) as [<- | Hne].
    + rewrite detect_port_scan_entry, String.eqb_refl, last_snoc.
      split; [split; [set_solver | by eauto] |].
      intros e [= <-].
      set (e0 := tracker_get
                   (scan_tracker (observe_all cfg ps initial_state))
                   (p_src p)).
      destruct (track_last_seen (p_time p) (p_port p) e0) as (Hl & Hf & Hs).
      assert (Hsyn : syn_count e0 = 0%Z).
      { unfold e0, tracker_get.
        destruct (scan_tracker _ !! p_src p) as [e1 |] eqn:Hlook; [| done].
        by destruct (IHentry e1). }
      destruct (_ <=? _)%nat; cbn [syn_count first_seen last_seen];
        split_and!; eauto.
    + rewrite detect_port_scan_other by done.
      destruct (String.eqb_spec (p_src p) src); [done |].
      rewrite app_nil_r. split; [| done].
      rewrite IHdom. set_solver.
Qed.

(** The tracker and the number of alerts after a run depend on the times,
    the sources and the ports of the calls only. *)
Lemma footprint_step st1 st2 p1 p2 :
  scan_tracker st1 = scan_tracker st2 ->
  length (packet_alerts st1) = length (packet_alerts st2) ->
  footprint p1 = footprint p2 ->
  scan_tracker (observe cfg st1 p1) = scan_tracker (observe cfg st2 p2)
  ∧ length (packet_alerts (observe cfg st1 p1))
    = length (packet_alerts (observe cfg st2 p2)).
Proof.
  unfold footprint. intros Ht Hl [= Htime Hsrc Hport].
  rewrite !observe_eq, !detect_port_scan_alerts, !length_app.
  unfold detect_port_scan. rewrite Ht, Hl, Htime, Hsrc, Hport.
  by destruct (_ <=? _)%nat.
Qed.

Lemma footprint_run ps1 : ∀ ps2 st1 st2,
  scan_tracker st1 = scan_tracker st2 ->
  length (packet_alerts st1) = length (packet_alerts st2) ->
  footprint <$> ps1 = footprint <$> ps2 ->
  scan_tracker (observe_all cfg ps1 st1)
  = scan_tracker (observe_all cfg ps2 st2)
  ∧ length (packet_alerts (observe_all cfg ps1 st1))
    = length (packet_alerts (observe_all cfg ps2 st2)).
Proof.
  induction ps1 as [| p1 ps1 IH]; intros [| p2 ps2] st1 st2 Ht Hl Hfp;
    try done.
  rewrite !fmap_cons in Hfp. apply (inj2 cons) in Hfp as [Hp Hfp]. simpl.
  destruct (footprint_step st1 st2 p1 p2 Ht Hl Hp). by apply IH.
Qed.

End Detector.
End PacketRunFacts.


(** X1.  A source that has probed fewer distinct ports than the threshold,
    in all the calls of a run taken together, is named in no alert:
    whatever the times of its calls, however often it comes back to the
    same ports, and whatever the other sources do. *)
Theorem few_distinct_ports_never_alert
    (cfg : PacketMonitor.config) (calls : list PacketMonitor.probe)
    (src : string) :
  (size (PacketRunTerms.ports_probed src calls)
   < PacketMonitor.port_scan_threshold cfg)%nat ->
  PacketRunTerms.alerts_about src
    (PacketMonitor.observe_all cfg calls PacketMonitor.initial_state) = [].
Proof.
  intros Hfew.
  rewrite (PacketRunFacts.quiet_inside cfg
             (PacketRunTerms.ports_probed src calls)); [done | | done | done].
  unfold PacketMonitor.tracker_get, PacketMonitor.initial_state.
  cbn [PacketMonitor.scan_tracker]. rewrite lookup_empty.
  apply empty_subseteq.
Qed.

(** Six connections of one client to two ports raise no alert. *)
Lemma six_connections_to_two_ports_are_no_scan :
  PacketRunTerms.alerts_about "10.0.0.8"
    (PacketMonitor.observe_all PacketMonitor.default_config busy_client
       PacketMonitor.initial_state) = [].
Proof.
  apply (few_distinct_ports_never_alert PacketMonitor.default_config
           busy_client "10.0.0.8").
  vm_compute. lia.
Defined.

(** X2.  A scan slower than the window is never alerted.  Calls of one
    source that the tracker does not know yet, each of them more than the
    time window after the call before it, log no alert, however many
    distinct ports they probe: each call finds the window of the source
    over and restarts its entry. *)
Theorem slow_scan_never_alerts
    (cfg : PacketMonitor.config) (st : PacketMonitor.state) (src : string)
    (calls : list PacketMonitor.probe) :
  (1 < PacketMonitor.port_scan_threshold cfg)%nat ->
  PacketMonitor.scan_tracker st !! src = None ->
  Forall (λ p, PacketMonitor.p_src p = src) calls ->
  (∀ i p q, calls !! i = Some p -> calls !! S i = Some q ->
            (PacketMonitor.time_window cfg
             < PacketMonitor.p_time q - PacketMonitor.p_time p)%Q) ->
  PacketMonitor.packet_alerts (PacketMonitor.observe_all cfg calls st)
  = PacketMonitor.packet_alerts st.
Proof.
  intros HT Hnone Hall Hgap. destruct calls as [| f calls]; [done |].
  apply Forall_cons in Hall as [Hsrc Hall]. simpl.
  assert (Hstep :
    PacketMonitor.observe cfg st f
    = PacketMonitor.State
        (<[src := PacketMonitor.TrackerEntry 0 {[PacketMonitor.p_port f]}
                    (Some (PacketMonitor.p_time f))
                    (Some (PacketMonitor.p_time f))]>
           (PacketMonitor.scan_tracker st))
        (PacketMonitor.packet_alerts st)).
  { rewrite PacketRunFacts.observe_eq, Hsrc,
      PacketMonitorFacts.detect_port_scan_quiet;
      unfold PacketMonitor.tracker_get; rewrite Hnone; simpl;
      rewrite PacketMonitorFacts.track_fresh; [done |].
    cbn [PacketMonitor.ports]. rewrite size_singleton. lia. }
  rewrite Hstep.
  erewrite (PacketRunFacts.spaced_probes_restart cfg src calls);
    [done | done | apply lookup_insert_eq | done | done | |].
  - intros q Hq. apply (Hgap 0%nat f q); [done |].
    by destruct calls; simplify_eq/=.
  - intros i p q Hp Hq. by apply (Hgap (S i) p q).
Qed.

(** Six ports probed eleven seconds apart, under the default settings
    (five ports in ten seconds): no alert. *)
Lemma six_ports_in_a_minute_go_unnoticed :
  PacketMonitor.packet_alerts
    (PacketMonitor.observe_all PacketMonitor.default_config patient_scan
       PacketMonitor.initial_state) = [].
Proof.
  apply (slow_scan_never_alerts PacketMonitor.default_config
           PacketMonitor.initial_state "10.0.0.5" patient_scan).
  - simpl. lia.
  - reflexivity.
  - repeat constructor.
  - intros i p q Hp Hq.
    do 6 (destruct i as [| i]; [simplify_eq/=; vm_compute; reflexivity |]).
    destruct i; discriminate.
Defined.

(** X3.  What an alert reports.  From the empty tracker, with a threshold
    of at least one and a window that is not negative, every alert a run
    logs has the severity PORT_SCAN, reports exactly as many ports as the
    threshold, lists ten of them, or all when the threshold is below ten,
    in ascending order, carries the ellipsis exactly when the threshold is
    above ten, and reports a time span no longer than the window. *)
Theorem every_alert_reports_threshold_ports
    (cfg : PacketMonitor.config) (calls : list PacketMonitor.probe)
    (a : PacketMonitor.alert) :
  let T := PacketMonitor.port_scan_threshold cfg in
  (0 < T)%nat ->
  (0 <= PacketMonitor.time_window cfg)%Q ->
  a ∈ PacketMonitor.packet_alerts
        (PacketMonitor.observe_all cfg calls PacketMonitor.initial_state) ->
  PacketMonitor.severity a = "PORT_SCAN"
  ∧ PacketMonitor.ps_unique_ports (PacketMonitor.message a) = T
  ∧ length (PacketMonitor.ps_ports (PacketMonitor.message a))
    = (10 `min` T)%nat
  ∧ PacketMonitor.ps_ellipsis (PacketMonitor.message a) = (10 <? T)%nat
  ∧ StronglySorted Z.le (PacketMonitor.ps_ports (PacketMonitor.message a))
  ∧ (PacketMonitor.ps_time_span (PacketMonitor.message a)
     <= PacketMonitor.time_window cfg)%Q.
Proof.
  intros T HT HW Hin.
  assert (Hall : Forall (PacketRunTerms.reports_threshold cfg)
                   (PacketMonitor.packet_alerts
                      (PacketMonitor.observe_all cfg calls
                         PacketMonitor.initial_state))).
  { apply PacketRunFacts.reports_threshold_observe_all;
      [done | done | | constructor].
    intros src e Hlook. simpl in Hlook. by rewrite lookup_empty in Hlook. }
  rewrite Forall_forall in Hall. by apply Hall.
Qed.

(** The alert of the scenario is in the log of its run; it reports five
    ports, without ellipsis, in a span within the ten seconds. *)
Lemma the_alert_of_the_scenario_reports_five_ports :
  let a :=
    PacketMonitor.Alert "PORT_SCAN"
      (PacketMonitor.PortScanMessage "10.0.0.5" "192.168.1.10" 5 (4 - 0)
         [22; 80; 443; 3306; 8080]%Z false "TCP") in
  a ∈ PacketMonitor.packet_alerts
        (PacketMonitor.observe_all PacketMonitor.default_config scan_scenario
           PacketMonitor.initial_state)
  ∧ PacketMonitor.ps_unique_ports (PacketMonitor.message a) = 5%nat
  ∧ PacketMonitor.ps_ellipsis (PacketMonitor.message a) = false
  ∧ (PacketMonitor.ps_time_span (PacketMonitor.message a) <= 10)%Q.
Proof.
  assert (Hin :
    PacketMonitor.Alert "PORT_SCAN"
      (PacketMonitor.PortScanMessage "10.0.0.5" "192.168.1.10" 5 (4 - 0)
         [22; 80; 443; 3306; 8080]%Z false "TCP")
    ∈ PacketMonitor.packet_alerts
        (PacketMonitor.observe_all PacketMonitor.default_config scan_scenario
           PacketMonitor.initial_state))
    by (vm_compute; apply list_elem_of_here).
  split; [exact Hin |].
  destruct (every_alert_reports_threshold_ports PacketMonitor.default_config
              scan_scenario
              (PacketMonitor.Alert "PORT_SCAN"
                 (PacketMonitor.PortScanMessage "10.0.0.5" "192.168.1.10" 5
                    (4 - 0) [22; 80; 443; 3306; 8080]%Z false "TCP")))
    as (_ & Hports & _ & Hdots & _ & Hspan).
  - simpl. lia.
  - vm_compute. discriminate.
  - exact Hin.
  - split_and!; [exact Hports | exact Hdots | exact Hspan].
Defined.

(** X4.  Alerts are paid for with calls.  After any run from the empty
    tracker, the threshold times the number of alerts that name a source,
    plus the number of ports the tracker holds for it, is at most the
    number of calls that came from that source: a source that sent [n]
    packets is named in at most [n / threshold] alerts. *)
Theorem alerts_need_threshold_probes_each
    (cfg : PacketMonitor.config) (calls : list PacketMonitor.probe)
    (src : string) :
  let st := PacketMonitor.observe_all cfg calls PacketMonitor.initial_state in
  (PacketMonitor.port_scan_threshold cfg
   * length (PacketRunTerms.alerts_about src st)
   + size (PacketMonitor.ports
             (PacketMonitor.tracker_get (PacketMonitor.scan_tracker st) src))
   <= length (PacketRunTerms.probes_from src calls))%nat.
Proof.
  intros st. subst st.
  etrans; [apply PacketRunFacts.alert_budget |].
  unfold PacketRunTerms.alerts_about, PacketMonitor.tracker_get,
    PacketMonitor.initial_state.
  cbn [PacketMonitor.scan_tracker PacketMonitor.packet_alerts List.filter
       length].
  rewrite lookup_empty. unfold PacketMonitor.default_entry.
  cbn [default from_option PacketMonitor.ports].
  rewrite size_empty. lia.
Qed.

(** X5.  Sources are tracked independently.  After any run from the empty
    tracker, the entry of a source and the alerts that name it are those
    of the run in which only the calls of that source are made. *)
Theorem source_is_tracked_by_its_own_probes
    (cfg : PacketMonitor.config) (calls : list PacketMonitor.probe)
    (src : string) :
  let own := PacketRunTerms.probes_from src calls in
  PacketMonitor.scan_tracker
    (PacketMonitor.observe_all cfg calls PacketMonitor.initial_state) !! src
  = PacketMonitor.scan_tracker
      (PacketMonitor.observe_all cfg own PacketMonitor.initial_state) !! src
  ∧ PacketRunTerms.alerts_about src
      (PacketMonitor.observe_all cfg calls PacketMonitor.initial_state)
    = PacketRunTerms.alerts_about src
        (PacketMonitor.observe_all cfg own PacketMonitor.initial_state).
Proof. intros own. by apply PacketRunFacts.own_view. Qed.

(** X6.  The tracker never forgets a source.  After any run from the empty
    tracker, the sources that have an entry are exactly the sources of the
    calls made; the entry of a source has both dates set, its [last_seen]
    is the time of the latest call from that source, and its [syn_count] is
    zero: the counter is never advanced. *)
Theorem tracker_keeps_every_source_seen
    (cfg : PacketMonitor.config) (calls : list PacketMonitor.probe)
    (src : string) :
  let st := PacketMonitor.observe_all cfg calls PacketMonitor.initial_state in
  (is_Some (PacketMonitor.scan_tracker st !! src)
   <-> src ∈ PacketMonitor.p_src <$> calls)
  ∧ ∀ e, PacketMonitor.scan_tracker st !! src = Some e ->
         PacketMonitor.syn_count e = 0%Z
         ∧ is_Some (PacketMonitor.first_seen e)
         ∧ PacketMonitor.last_seen e
           = PacketMonitor.p_time
               <$> last (PacketRunTerms.probes_from src calls).
Proof. apply PacketRunFacts.tracker_contents. Qed.

(** X7.  The target and the protocol do not count.  Two runs from the
    empty tracker whose calls agree on time, source and destination port
    leave the same tracker and the same number of alerts, whatever the
    destination addresses and the protocols of the calls: probes of
    several machines, over TCP and UDP, add up in one set. *)
Theorem target_and_protocol_do_not_count
    (cfg : PacketMonitor.config) (calls calls' : list PacketMonitor.probe) :
  PacketRunTerms.footprint <$> calls = PacketRunTerms.footprint <$> calls' ->
  PacketMonitor.scan_tracker
    (PacketMonitor.observe_all cfg calls PacketMonitor.initial_state)
  = PacketMonitor.scan_tracker
      (PacketMonitor.observe_all cfg calls' PacketMonitor.initial_state)
  ∧ length (PacketMonitor.packet_alerts
              (PacketMonitor.observe_all cfg calls
                 PacketMonitor.initial_state))
    = length (PacketMonitor.packet_alerts
                (PacketMonitor.observe_all cfg calls'
                   PacketMonitor.initial_state)).
Proof. intros Hfp. by apply PacketRunFacts.footprint_run. Qed.

(** The scan of the scenario, spread over two machines and both
    protocols, is alerted all the same. *)
Lemma a_scan_spread_over_targets_is_one_scan :
  length (PacketMonitor.packet_alerts
            (PacketMonitor.observe_all PacketMonitor.default_config
               spread_scan PacketMonitor.initial_state)) = 1%nat.
Proof.
  destruct (target_and_protocol_do_not_count PacketMonitor.default_config
              spread_scan scan_scenario) as [_ Hlen].
  - reflexivity.
  - rewrite Hlen. reflexivity.
Defined.

(** ** The packet capture *)

Module PacketCaptureFacts.
Import Py PyFacts PacketMonitor PacketMonitorTerms PacketMonitorFacts
  PacketRunTerms.

(** [flags & 0x02] is not zero exactly when bit 1 of the flags is set. *)
Lemma syn_bit (flags : Z) :
  negb (Z.eqb (Z.land flags 2) 0) = Z.testbit flags 1.
Proof.
  assert (Hland : Z.land flags 2 = if Z.testbit flags 1 then 2%Z else 0%Z).
  { apply Z.bits_inj'. intros n Hn. rewrite Z.land_spec.
    change 2%Z with (2 ^ 1)%Z at 1. rewrite Z.pow2_bits_eqb by lia.
    destruct (Z.eqb_spec 1 n) as [<- | Hne].
    - rewrite andb_true_r. by destruct (Z.testbit flags 1).
    - rewrite andb_false_r. destruct (Z.testbit flags 1); [| by destruct n].
      change 2%Z with (2 ^ 1)%Z. rewrite Z.pow2_bits_eqb by lia.
      symmetry. by apply Z.eqb_neq. }
  rewrite Hland. by destruct (Z.testbit flags 1).
Qed.

Section Capture.
Context (cfg : config).

Lemma analyze_packet_tracked now ts pkt c p :
  probe_of (Arrival now ts pkt) = Some p ->
  ∃ info,
    analyze_packet cfg now ts pkt c
    = (Capture (observe cfg (detector c) p)
         (all_packets c ++ [PacketLine ts info]) (console c),
       Ok tt).
Proof.
  unfold probe_of, analyze_packet, log_packet. MonadFacts.unfold_M.
  cbn [a_packet a_time].
  destruct (ip_layer_of pkt) as [ip |]; [| done].
  destruct (tcp_layer_of pkt) as [tcp |].
  - rewrite syn_bit. destruct (Z.testbit (tcp_flags tcp) 1); [| done].
    intros [= <-]. by eexists.
  - destruct (udp_layer_of pkt) as [udp |]; [| done].
    intros [= <-]. by eexists.
Qed.

Lemma analyze_packet_ignored now ts pkt c :
  probe_of (Arrival now ts pkt) = None ->
  analyze_packet cfg now ts pkt c = (c, Ok tt).
Proof.
  unfold probe_of, analyze_packet, log_packet. MonadFacts.unfold_M.
  cbn [a_packet a_time].
  destruct (ip_layer_of pkt) as [ip |]; [| done].
  destruct (tcp_layer_of pkt) as [tcp |].
  - rewrite syn_bit. by destruct (Z.testbit (tcp_flags tcp) 1).
  - by destruct (udp_layer_of pkt) as [udp |].
Qed.

Lemma start_sniffing_eq captured : ∀ c,
  let out := start_sniffing cfg captured c in
  snd out = Ok tt
  ∧ detector (fst out)
    = observe_all cfg (omap probe_of captured) (detector c)
  ∧ length (all_packets (fst out))
    = (length (all_packets c) + length (omap probe_of captured))%nat
  ∧ console (fst out) = console c.
Proof.
  induction captured as [| [now ts pkt] captured IH]; intros c.
  - simpl. split_and!; [done | done | lia | done].
  - unfold start_sniffing in *. cbn [for_each a_time a_timestamp a_packet].
    unfold bind.
    assert (Homap : omap probe_of (Arrival now ts pkt :: captured)
                    = match probe_of (Arrival now ts pkt) with
                      | Some p => p :: omap probe_of captured
                      | None => omap probe_of captured
                      end) by done.
    rewrite Homap. clear Homap.
    destruct (probe_of (Arrival now ts pkt)) as [p |] eqn:Hp.
    + destruct (analyze_packet_tracked now ts pkt c p Hp) as [info ->].
      set (c1 := Capture _ _ _). lazy iota beta.
      destruct (IH c1) as (Hok & Hdet & Hlen & Hcon).
      split_and!; [done | exact Hdet | | exact Hcon].
      rewrite Hlen. subst c1. cbn [all_packets length].
      rewrite length_app. simpl. lia.
    + rewrite (analyze_packet_ignored now ts pkt c Hp). apply IH.
Qed.

End Capture.
End PacketCaptureFacts.

(** X8.  Which packets count.  [analyze_packet] never raises and prints
    nothing.  For an IP packet that is a TCP packet, everything hangs on
    bit 1 of the flags (SYN): when it is set, whatever the other flags,
    the detector is called with the addresses of the packet, its
    destination port and TCP, and one line is added to the packet log;
    when it is not set, nothing changes.  An IP packet that is not a TCP
    packet and is a UDP packet always counts, as UDP.  A packet without IP
    layer, or with neither a TCP nor a UDP layer, changes nothing. *)
Theorem analyze_packet_counts_syn_and_udp_packets
    (cfg : PacketMonitor.config) (now : Q) (ts : string)
    (pkt : PacketMonitor.packet) (c : PacketMonitor.capture) :
  let out := PacketMonitor.analyze_packet cfg now ts pkt c in
  snd out = Py.Ok tt
  ∧ PacketMonitor.console (fst out) = PacketMonitor.console c
  ∧ (∀ ip tcp,
       PacketMonitor.ip_layer_of pkt = Some ip ->
       PacketMonitor.tcp_layer_of pkt = Some tcp ->
       if Z.testbit (PacketMonitor.tcp_flags tcp) 1 then
         PacketMonitor.detector (fst out)
         = PacketMonitor.detect_port_scan cfg now (PacketMonitor.ip_src ip)
             (PacketMonitor.ip_dst ip) (PacketMonitor.tcp_dport tcp) "TCP"
             (PacketMonitor.detector c)
         ∧ PacketMonitor.all_packets (fst out)
           = PacketMonitor.all_packets c ++
               [PacketMonitor.PacketLine ts
                  ("SYN | Source: " +:+ PacketMonitor.ip_src ip +:+ ":" +:+
                   pretty (PacketMonitor.tcp_sport tcp) +:+ " -> " +:+
                   "Dest: " +:+ PacketMonitor.ip_dst ip +:+ ":" +:+
                   pretty (PacketMonitor.tcp_dport tcp) +:+
                   " | Protocol: TCP")]
       else fst out = c)
  ∧ (∀ ip udp,
       PacketMonitor.ip_layer_of pkt = Some ip ->
       PacketMonitor.tcp_layer_of pkt = None ->
       PacketMonitor.udp_layer_of pkt = Some udp ->
       PacketMonitor.detector (fst out)
       = PacketMonitor.detect_port_scan cfg now (PacketMonitor.ip_src ip)
           (PacketMonitor.ip_dst ip) (PacketMonitor.udp_dport udp) "UDP"
           (PacketMonitor.detector c)
       ∧ PacketMonitor.all_packets (fst out)
         = PacketMonitor.all_packets c ++
             [PacketMonitor.PacketLine ts
                ("UDP | Source: " +:+ PacketMonitor.ip_src ip +:+ ":" +:+
                 pretty (PacketMonitor.udp_sport udp) +:+ " -> " +:+
                 "Dest: " +:+ PacketMonitor.ip_dst ip +:+ ":" +:+
                 pretty (PacketMonitor.udp_dport udp) +:+
                 " | Protocol: UDP")])
  ∧ (PacketMonitor.ip_layer_of pkt = None
     ∨ (PacketMonitor.tcp_layer_of pkt = None
        ∧ PacketMonitor.udp_layer_of pkt = None) ->
     fst out = c).
Proof.
  intros out. subst out.
  unfold PacketMonitor.analyze_packet, PacketMonitor.log_packet.
  MonadFacts.unfold_M.
  destruct (PacketMonitor.ip_layer_of pkt) as [ip |];
    [| by split_and!; try done].
  destruct (PacketMonitor.tcp_layer_of pkt) as [tcp |].
  - rewrite PacketCaptureFacts.syn_bit.
    destruct (Z.testbit (PacketMonitor.tcp_flags tcp) 1) eqn:Hsyn;
      cbn [fst snd PacketMonitor.console PacketMonitor.detector
           PacketMonitor.all_packets].
    + split_and!; [done | done | | done | intros [? | [? ?]]; done].
      intros ip' tcp' [= <-] [= <-]. by rewrite Hsyn.
    + split_and!; [done | done | | done | done].
      intros ip' tcp' [= <-] [= <-]. by rewrite Hsyn.
  - destruct (PacketMonitor.udp_layer_of pkt) as [udp |];
      cbn [fst snd PacketMonitor.console PacketMonitor.detector
           PacketMonitor.all_packets].
    + split_and!; [done | done | done | | intros [? | [? ?]]; done].
      by intros ip' udp' [= <-] _ [= <-].
    + by split_and!.
Qed.

(** The SYN-ACK by which a server answers a connection of this machine
    counts as a probe by that server; an ACK does not count. *)
Example a_syn_ack_counts_as_a_probe :
  PacketMonitor.scan_tracker
    (PacketMonitor.detector
       (fst (PacketMonitor.analyze_packet PacketMonitor.default_config 0
               "2024-05-01 12:00:00" syn_ack_packet
               PacketMonitor.initial_capture))) !! "93.184.216.34"
  = Some (PacketMonitor.TrackerEntry 0 {[40112%Z]} (Some 0%Q) (Some 0%Q))
  ∧ fst (PacketMonitor.analyze_packet PacketMonitor.default_config 0
           "2024-05-01 12:00:00" ack_packet PacketMonitor.initial_capture)
    = PacketMonitor.initial_capture.
Proof. split; vm_compute; reflexivity. Qed.

(** X9.  What the capture feeds the detector.  [start_sniffing] never
    raises; after any captured packets the detector is in the state that
    the calls for the packets that count, in the order of capture, lead
    to; the packet log has grown by one line for each of them; nothing
    was printed by the handler. *)
Theorem sniffing_feeds_the_detector
    (cfg : PacketMonitor.config) (captured : list PacketMonitor.arrival)
    (c : PacketMonitor.capture) :
  let out := PacketMonitor.start_sniffing cfg captured c in
  let calls := omap PacketRunTerms.probe_of captured in
  snd out = Py.Ok tt
  ∧ PacketMonitor.detector (fst out)
    = PacketMonitor.observe_all cfg calls (PacketMonitor.detector c)
  ∧ length (PacketMonitor.all_packets (fst out))
    = (length (PacketMonitor.all_packets c) + length calls)%nat
  ∧ PacketMonitor.console (fst out) = PacketMonitor.console c.
Proof. intros out calls. apply PacketCaptureFacts.start_sniffing_eq. Qed.

(** Five captured packets: the SYN, the SYN-ACK and the DNS request count,
    the ACK and the ARP frame do not. *)
Example three_of_five_packets_count :
  let captured :=
    [ PacketMonitor.Arrival 0 "2024-05-01 12:00:00" syn_packet;
      PacketMonitor.Arrival 1 "2024-05-01 12:00:01" syn_ack_packet;
      PacketMonitor.Arrival 2 "2024-05-01 12:00:02" ack_packet;
      PacketMonitor.Arrival 3 "2024-05-01 12:00:03" dns_packet;
      PacketMonitor.Arrival 4 "2024-05-01 12:00:04" arp_frame ] in
  let out :=
    PacketMonitor.start_sniffing PacketMonitor.default_config captured
      PacketMonitor.initial_capture in
  PacketMonitor.all_packets (fst out)
  = [ PacketMonitor.PacketLine "2024-05-01 12:00:00"
        ("SYN | Source: 10.0.0.5:51422 -> Dest: 192.168.1.10:443 " +:+
         "| Protocol: TCP");
      PacketMonitor.PacketLine "2024-05-01 12:00:01"
        ("SYN | Source: 93.184.216.34:443 -> Dest: 192.168.1.10:40112 " +:+
         "| Protocol: TCP");
      PacketMonitor.PacketLine "2024-05-01 12:00:03"
        ("UDP | Source: 192.168.1.10:40000 -> Dest: 9.9.9.9:53 " +:+
         "| Protocol: UDP") ]
  ∧ dom (PacketMonitor.scan_tracker (PacketMonitor.detector (fst out)))
    = {[ "10.0.0.5"; "93.184.216.34"; "192.168.1.10" ]}.
Proof.
  split; [vm_compute; reflexivity |].
  apply (bool_decide_unpack _). vm_compute. exact I.
Qed.

(** ** The connection monitor over runs *)

Module NetworkRunFacts.
Import Py NetworkMonitor NetworkMonitorTerms NetworkMonitorFacts
  NetworkRunTerms.

(** *** What a run writes *)

Lemma visited_known h st conn : known st conn -> visited h st conn = st.
Proof.
  intros Hknown. unfold visited. rewrite visit_connection_eq.
  destruct (conn_id conn) as [id |] eqn:Hid; [| done].
  rewrite bool_decide_eq_true_2; [done |]. by apply Hknown.
Qed.

Lemma fold_visited_known h conns : ∀ st,
  Forall (known st) conns -> fold_left (visited h) conns st = st.
Proof.
  induction conns as [| c conns IH]; intros st Hall; [done |].
  apply Forall_cons in Hall as [Hc Hall]. simpl.
  rewrite visited_known by done. by apply IH.
Qed.

Lemma polled_known h conns st :
  Forall (known (polled st (h, conns))) conns.
Proof.
  apply Forall_forall. intros conn Hin id Hid.
  by eapply polled_marks.
Qed.

Lemma tallied_visited h st conn : tallied st -> tallied (visited h st conn).
Proof.
  intros [Hlines Halerts]. unfold visited, tallied.
  rewrite visit_connection_eq.
  destruct (conn_id conn) as [id |]; [| done].
  case_bool_decide as Hseen; [done |]. cbn [fst all_connections
    network_alerts seen_connections].
  rewrite !length_app, size_union, size_singleton by set_solver.
  destruct (is_inbound_connection h conn); simpl; lia.
Qed.

End NetworkRunFacts.

(** X10.  The addresses of the machine.  [get_local_ips] returns exactly
    the addresses that some interface lists with the family AF_INET:
    addresses of the other families (IPv6, link layer) are left out. *)
Theorem local_ips_are_the_ipv4_addresses
    (net_if_addrs : list (string * list NetworkMonitor.snicaddr))
    (x : string) :
  x ∈ NetworkMonitor.get_local_ips net_if_addrs
  <-> ∃ name addrs a,
        (name, addrs) ∈ net_if_addrs ∧ a ∈ addrs
        ∧ NetworkMonitor.family a = NetworkMonitor.AF_INET
        ∧ NetworkMonitor.address a = x.
Proof. apply NetworkMonitorFacts.get_local_ips_spec. Qed.

(** X11.  Connections that arrive over IPv6 are never inbound threats.
    On a monitor whose local addresses are those [get_local_ips] collects,
    a connection whose local address is no AF_INET address of an
    interface is not classified as inbound, whatever its status and its
    remote address, and its analysis logs no alert. *)
Theorem connection_to_non_ipv4_address_is_never_inbound
    (net_if_addrs : list (string * list NetworkMonitor.snicaddr))
    (h : NetworkMonitor.host) (conn : NetworkMonitor.sconn)
    (st : NetworkMonitor.state) :
  NetworkMonitor.local_ips h = NetworkMonitor.get_local_ips net_if_addrs ->
  (∀ l name addrs a,
     NetworkMonitor.laddr conn = Some l ->
     (name, addrs) ∈ net_if_addrs -> a ∈ addrs ->
     NetworkMonitor.address a = NetworkMonitor.ip l ->
     NetworkMonitor.family a ≠ NetworkMonitor.AF_INET) ->
  NetworkMonitor.is_inbound_connection h conn = false
  ∧ snd (NetworkMonitor.analyze_connection h conn st) = Py.Ok false
  ∧ NetworkMonitor.network_alerts
      (fst (NetworkMonitor.analyze_connection h conn st))
    = NetworkMonitor.network_alerts st.
Proof.
  intros Hips Hother.
  assert (Hno : NetworkMonitor.is_inbound_connection h conn = false).
  { apply not_true_is_false.
    rewrite NetworkMonitorFacts.is_inbound_connection_spec.
    intros (_ & l & r & Hl & _ & Hlocal & _).
    rewrite Hips in Hlocal.
    apply NetworkMonitorFacts.get_local_ips_spec in Hlocal
      as (name & addrs & a & Hin & Ha & Hfam & Haddr).
    by apply (Hother l name addrs a). }
  rewrite NetworkMonitorFacts.analyze_connection_eq, Hno. simpl.
  by rewrite app_nil_r.
Qed.

(** A remote machine connected to the IPv6 address of the web server: no
    alert. *)
Lemma inbound_over_ipv6_goes_unnoticed :
  NetworkMonitor.is_inbound_connection dual_stack_host ipv6_conn = false
  ∧ NetworkMonitor.network_alerts
      (fst (NetworkMonitor.analyze_connection dual_stack_host ipv6_conn
              NetworkMonitor.initial_state)) = [].
Proof.
  destruct (connection_to_non_ipv4_address_is_never_inbound dual_stack
              dual_stack_host ipv6_conn NetworkMonitor.initial_state)
    as (Hno & _ & Hlog).
  - reflexivity.
  - intros l name addrs a [= <-] Hin Ha Haddr.
    apply list_elem_of_In in Hin. simpl in Hin.
    destruct Hin as [[= <- <-] | [[= <- <-] | []]];
      apply list_elem_of_In in Ha; simpl in Ha;
      repeat (destruct Ha as [<- | Ha]; [done |]); done.
  - split; [exact Hno | exact Hlog].
Defined.

(** X12.  One evidence line per identity.  After any run of [monitor]
    from its start, the connection log has exactly as many lines as there
    are identities in [seen_connections], and the alert log has at most as
    many lines as the connection log: every alert has its evidence
    line. *)
Theorem one_evidence_line_per_identity
    (rounds : list (NetworkMonitor.host * list NetworkMonitor.sconn)) :
  let st := fst (NetworkMonitor.monitor rounds NetworkMonitor.initial_state) in
  length (NetworkMonitor.all_connections st)
  = size (NetworkMonitor.seen_connections st)
  ∧ (length (NetworkMonitor.network_alerts st)
     <= length (NetworkMonitor.all_connections st))%nat.
Proof.
  intros st. subst st. rewrite NetworkMonitorFacts.monitor_eq. cbn [fst].
  apply (NetworkMonitorFacts.fold_polled_invariant NetworkRunTerms.tallied).
  - intros. by apply NetworkRunFacts.tallied_visited.
  - split; [| done]. symmetry. apply (size_empty (C:=gset string)).
Qed.

(** X13.  A poll of the same connections is silent.  When a poll yields
    the connections of the poll before it, nothing is written and nothing
    is marked, whatever the machine says meanwhile about the owning
    processes or its own addresses. *)
Theorem repeated_poll_is_silent
    (h h' : NetworkMonitor.host) (conns : list NetworkMonitor.sconn)
    (st : NetworkMonitor.state) :
  let st1 := fst (NetworkMonitor.poll h conns st) in
  NetworkMonitor.poll h' conns st1 = (st1, Py.Ok tt).
Proof.
  intros st1. subst st1. rewrite !NetworkMonitorFacts.poll_eq. cbn [fst].
  rewrite NetworkRunFacts.fold_visited_known; [done |].
  apply (NetworkRunFacts.polled_known h conns st).
Qed.

(** X14.  Listening ports are reported, not alerted.  The analysis of a
    connection in the state LISTEN returns [False], logs no alert and
    prints one line that names the listening address and the owning
    process; the analysis of a connection in another state that is not an
    inbound threat prints nothing. *)
Theorem listening_port_is_reported_not_alerted
    (h : NetworkMonitor.host) (conn : NetworkMonitor.sconn)
    (st : NetworkMonitor.state) :
  let out := NetworkMonitor.analyze_connection h conn st in
  (NetworkMonitor.status conn = "LISTEN" ->
   snd out = Py.Ok false
   ∧ NetworkMonitor.network_alerts (fst out)
     = NetworkMonitor.network_alerts st
   ∧ NetworkMonitor.console (fst out)
     = NetworkMonitor.console st ++
         ["Listening port detected: " +:+
          NetworkMonitorTerms.local_addr_of conn +:+ " (Process: " +:+
          NetworkMonitorTerms.resolved_name h conn +:+ ")"])
  ∧ (NetworkMonitor.status conn ≠ "LISTEN" ->
     NetworkMonitor.is_inbound_connection h conn = false ->
     NetworkMonitor.console (fst out) = NetworkMonitor.console st).
Proof.
  intros out. subst out.
  rewrite NetworkMonitorFacts.analyze_connection_eq.
  cbn [fst snd NetworkMonitor.network_alerts NetworkMonitor.console].
  unfold NetworkMonitorTerms.console_lines, NetworkMonitor.is_listening_port.
  split.
  - intros Hlisten.
    assert (Hno : NetworkMonitor.is_inbound_connection h conn = false).
    { unfold NetworkMonitor.is_inbound_connection. by rewrite Hlisten. }
    rewrite Hno, Hlisten. simpl. by rewrite app_nil_r.
  - intros Hother ->.
    destruct (String.eqb_spec (NetworkMonitor.status conn) "LISTEN");
      [done | by rewrite app_nil_r].
Qed.

(** ** The popup *)

Module NotificationFacts.
Import Py PyFacts AlertSystem AlertSystemTerms NotificationTerms.

(** *** Characters of a string *)

Lemma string_append_assoc s1 s2 s3 :
  (s1 +:+ s2) +:+ s3 = s1 +:+ s2 +:+ s3.
Proof.
  induction s1 as [| a s1 IH]; [done |]. by rewrite !append_cons, IH.
Qed.

Lemma has_char_nil c : has_char c EmptyString = false.
Proof. done. Qed.

Lemma has_char_cons c a s :
  has_char c (String a s) = Ascii.eqb a c || has_char c s.
Proof.
  unfold has_char.
  change (contains (String c EmptyString) (String a s))
    with (String.prefix (String c EmptyString) (String a s)
          || contains (String c EmptyString) s).
  f_equal. simpl.
  destruct (Ascii.ascii_dec c a) as [<- | Hne].
  - rewrite Ascii.eqb_refl. by destruct s.
  - symmetry. apply Ascii.eqb_neq. congruence.
Qed.

Lemma has_char_app c s1 s2 :
  has_char c (s1 +:+ s2) = has_char c s1 || has_char c s2.
Proof.
  induction s1 as [| a s1 IH]; [done |].
  by rewrite append_cons, !has_char_cons, IH, orb_assoc.
Qed.

(** *** [replace] *)

Lemma replace_char_cons old new a s :
  replace_char old new (String a s)
  = if Ascii.eqb a old then new +:+ replace_char old new s
    else String a (replace_char old new s).
Proof. done. Qed.

Lemma replace_char_removes old new s :
  has_char old new = false ->
  has_char old (replace_char old new s) = false.
Proof.
  intros Hnew. induction s as [| a s IH]; [done |].
  rewrite replace_char_cons.
  destruct (Ascii.eqb a old) eqn:Ha.
  - by rewrite has_char_app, Hnew, IH.
  - by rewrite has_char_cons, Ha, IH.
Qed.

Lemma replace_char_keeps_out c old new s :
  has_char c new = false -> has_char c s = false ->
  has_char c (replace_char old new s) = false.
Proof.
  intros Hnew. induction s as [| a s IH]; [done |].
  rewrite has_char_cons, replace_char_cons.
  intros [Ha Hs]%orb_false_iff.
  destruct (Ascii.eqb a old).
  - by rewrite has_char_app, Hnew, IH.
  - by rewrite has_char_cons, Ha, IH.
Qed.

Lemma replace_char_absent old new s :
  has_char old s = false -> replace_char old new s = s.
Proof.
  induction s as [| a s IH]; [done |].
  rewrite has_char_cons, replace_char_cons.
  intros [-> Hs]%orb_false_iff. by rewrite IH.
Qed.

Lemma replace_char_app old new s1 s2 :
  replace_char old new (s1 +:+ s2)
  = replace_char old new s1 +:+ replace_char old new s2.
Proof.
  induction s1 as [| a s1 IH]; [done |].
  rewrite append_cons, !replace_char_cons, IH.
  destruct (Ascii.eqb a old); [| done].
  by rewrite string_append_assoc.
Qed.

Lemma length_replace_char old c s :
  String.length (replace_char old (String c EmptyString) s) = String.length s.
Proof.
  induction s as [| a s IH]; [done |].
  rewrite replace_char_cons.
  destruct (Ascii.eqb a old);
    [change (String.length
               (String c (replace_char old (String c EmptyString) s))
             = String.length (String a s)) |];
    simpl; by rewrite IH.
Qed.

(** *** Slices *)

Lemma slice_to_0 s : slice_to 0 s = EmptyString.
Proof. by destruct s. Qed.

Lemma slice_to_cons n a s :
  slice_to (S n) (String a s) = String a (slice_to n s).
Proof. done. Qed.

Lemma length_slice_to n s :
  String.length (slice_to n s) = (n `min` String.length s)%nat.
Proof.
  revert n. induction s as [| a s IH]; intros [| n]; try done.
  rewrite slice_to_cons. simpl. by rewrite IH.
Qed.

Lemma has_char_slice_to c n s :
  has_char c s = false -> has_char c (slice_to n s) = false.
Proof.
  revert n. induction s as [| a s IH]; intros [| n]; try done.
  rewrite slice_to_cons, !has_char_cons.
  intros [-> Hs]%orb_false_iff. by rewrite IH.
Qed.

Lemma slice_to_app s1 s2 :
  slice_to (String.length s1) (s1 +:+ s2) = s1.
Proof.
  induction s1 as [| a s1 IH]; [apply slice_to_0 |].
  rewrite append_cons. simpl String.length. by rewrite slice_to_cons, IH.
Qed.

(** *** The cleaned text *)

Lemma cleaned_has_no_mark s :
  has_char "!"%char (cleaned s) = false
  ∧ has_char double_quote (cleaned s) = false.
Proof.
  unfold cleaned. split.
  - apply replace_char_keeps_out; [done |]. by apply replace_char_removes.
  - by apply replace_char_removes.
Qed.

End NotificationFacts.

(** X15.  The popup is cleaned and cut.  Whatever the title and the
    message, and whether or not the popup raises,
    [send_desktop_notification] returns normally after one attempt at a
    popup whose title and text hold no exclamation mark and no double
    quote, and whose text has at most 200 characters. *)
Theorem popup_is_cleaned_and_cut
    {Msg : Type} (h : AlertSystem.host) (title message : string)
    (s : AlertSystem.sink Msg) :
  ∃ shown_title shown_text,
    AlertSystem.send_desktop_notification h title message s
    = (AlertSystem.Sink
         (AlertSystem.attempts s ++ [AlertSystem.Popup shown_title shown_text])
         (AlertSystem.console s) (AlertSystem.alerts_log s),
       Py.Ok tt)
    ∧ NotificationTerms.has_char "!"%char shown_title = false
    ∧ NotificationTerms.has_char AlertSystem.double_quote shown_title = false
    ∧ NotificationTerms.has_char "!"%char shown_text = false
    ∧ NotificationTerms.has_char AlertSystem.double_quote shown_text = false
    ∧ (String.length shown_text <= 200)%nat.
Proof.
  eexists _, _. split; [apply AlertSystemFacts.send_desktop_notification_eq |].
  destruct (NotificationFacts.cleaned_has_no_mark title) as [Ht1 Ht2].
  destruct (NotificationFacts.cleaned_has_no_mark message) as [Hm1 Hm2].
  split_and!; [exact Ht1 | exact Ht2 | | |].
  - by apply NotificationFacts.has_char_slice_to.
  - by apply NotificationFacts.has_char_slice_to.
  - rewrite NotificationFacts.length_slice_to. lia.
Qed.

(** X16.  The ellipsis of a long message is cut off again.  [send_alert]
    shortens a message of more than 200 characters to its first 200
    characters followed by three dots, and [send_desktop_notification]
    then cuts the text to 200 characters: when the first 200 characters
    hold no exclamation mark, the popup shows exactly these 200
    characters, with their double quotes turned into single ones, and no
    dots. *)
Theorem ellipsis_of_a_long_message_is_cut_off
    {Msg : Type} (text : Msg -> string) (h : AlertSystem.host)
    (message : Msg) (severity : string) (s : AlertSystem.sink Msg) :
  (200 < String.length (text message))%nat ->
  NotificationTerms.has_char "!"%char (Py.slice_to 200 (text message))
  = false ->
  ∃ shown_title,
    AlertSystem.attempts
      (fst (AlertSystem.send_alert text h message severity false true s))
    = AlertSystem.attempts s ++
        [AlertSystem.Popup shown_title
           (Py.replace_char AlertSystem.double_quote "'"
              (Py.slice_to 200 (text message)))].
Proof.
  intros Hlong Hmark. eexists.
  rewrite AlertSystemFacts.sink_send_alert_eq. cbn [fst AlertSystem.attempts].
  unfold AlertSystemTerms.delivery_attempts, AlertSystemTerms.popup_of.
  apply Nat.ltb_lt in Hlong. rewrite Hlong. cbn [app].
  do 3 f_equal.
  rewrite !NotificationFacts.replace_char_app.
  rewrite (NotificationFacts.replace_char_absent "!"%char) by done.
  set (head := Py.replace_char AlertSystem.double_quote "'"
                 (Py.slice_to 200 (text message))).
  assert (Hlen : String.length head = 200%nat).
  { unfold head. rewrite NotificationFacts.length_replace_char,
      NotificationFacts.length_slice_to.
    apply Nat.ltb_lt in Hlong. lia. }
  rewrite <- Hlen at 1. apply NotificationFacts.slice_to_app.
Qed.

(** A message of 250 letters: the popup shows the first 200 of them. *)
Lemma popup_of_a_long_message_has_no_dots :
  ∃ shown_title,
    AlertSystem.attempts
      (fst (AlertSystem.send_alert id desk_host long_message "HIGH_CPU" false
              true AlertSystem.empty_sink))
    = [AlertSystem.Popup shown_title
         (Py.replace_char AlertSystem.double_quote "'"
            (Py.slice_to 200 long_message))].
Proof.
  apply (ellipsis_of_a_long_message_is_cut_off id desk_host long_message
           "HIGH_CPU" AlertSystem.empty_sink).
  - vm_compute. lia.
  - vm_compute. reflexivity.
Defined.

(** ** The file monitor over runs *)

Module FileRunFacts.
Import Py PyFacts FileMonitor FileMonitorTerms FileMonitorFacts FileRunTerms.

Lemma on_moved_eq h ev st :
  is_directory ev = false ->
  on_moved h ev st
  = (State (recent_events st)
           (file_access_log st ++
              [FileLine (AlertSystem.timestamp h)
                 ("MOVED from " +:+ src_path ev +:+ " to " +:+ dest_path ev)
                 EmptyString])
           (dispatched h
              ("File moved: " +:+ src_path ev +:+ " -> " +:+ dest_path ev)
              "FILE_MOVED" false (alert_system st)),
     Ok tt).
Proof.
  intros Hfile. unfold on_moved. rewrite Hfile.
  unfold log_file_event. MonadFacts.unfold_M.
  by rewrite file_send_alert_eq.
Qed.

Lemma alerts_log_dispatched_file h message severity play_sound s :
  AlertSystem.alerts_log (dispatched h message severity play_sound s)
  = AlertSystem.alerts_log s ++
      [AlertSystem.LogLine (AlertSystem.timestamp h) severity message].
Proof. unfold dispatched. by rewrite AlertSystemFacts.sink_send_alert_eq. Qed.

(** What the handler of an event on a directory does: nothing. *)
Lemma dispatch_directory o st :
  on_file o = false -> dispatch o st = (st, Ok tt).
Proof.
  unfold on_file, dispatch, on_modified, on_created, on_deleted, on_moved.
  intros Hdir%negb_false_iff. rewrite Hdir. by destruct (o_kind o).
Qed.

(** What the handler of an event on a file leaves behind: one evidence
    line, at most one alert line (exactly one for a deletion or a move),
    and every key of the table of recent events. *)
Lemma dispatch_file o st :
  on_file o = true ->
  ∃ st',
    dispatch o st = (st', Ok tt)
    ∧ length (file_access_log st') = S (length (file_access_log st))
    ∧ (length (alert_lines st) + (if critical o then 1 else 0)
       <= length (alert_lines st'))%nat
    ∧ (length (alert_lines st') <= S (length (alert_lines st)))%nat
    ∧ dom (recent_events st) ⊆ dom (recent_events st').
Proof.
  unfold on_file, critical, on_file, dispatch, alert_lines.
  intros Hfile%negb_true_iff. rewrite Hfile. cbn [negb andb].
  destruct (o_kind o).
  - destruct (recently_alerted_cases st (o_time o)
                ("modified:" +:+ src_path (o_event o))).
    + rewrite on_modified_suppressed by done. eexists. split; [done |].
      unfold logged. cbn [file_access_log alert_system recent_events].
      rewrite length_app. simpl. split_and!; [lia | lia | lia | done].
    + rewrite on_modified_alerts by done. eexists. split; [done |].
      cbn [file_access_log alert_system recent_events].
      rewrite alerts_log_dispatched_file, !length_app. simpl.
      split_and!; [lia | lia | lia | set_solver].
  - destruct (recently_alerted_cases st (o_time o)
                ("created:" +:+ src_path (o_event o))).
    + rewrite on_created_suppressed by done. eexists. split; [done |].
      unfold logged. cbn [file_access_log alert_system recent_events].
      rewrite length_app. simpl. split_and!; [lia | lia | lia | done].
    + rewrite on_created_alerts by done. eexists. split; [done |].
      cbn [file_access_log alert_system recent_events].
      rewrite alerts_log_dispatched_file, !length_app. simpl.
      split_and!; [lia | lia | lia | set_solver].
  - rewrite on_deleted_eq by done. eexists. split; [done |].
    cbn [file_access_log alert_system recent_events].
    rewrite alerts_log_dispatched_file, !length_app. simpl.
    split_and!; [lia | lia | lia | done].
  - rewrite on_moved_eq by done. eexists. split; [done |].
    cbn [file_access_log alert_system recent_events].
    rewrite alerts_log_dispatched_file, !length_app. simpl.
    split_and!; [lia | lia | lia | done].
Qed.

Lemma run_tally os : ∀ st,
  ∃ st',
    for_each os dispatch st = (st', Ok tt)
    ∧ length (file_access_log st')
      = (length (file_access_log st) + length (List.filter on_file os))%nat
    ∧ (length (alert_lines st) + length (List.filter critical os)
       <= length (alert_lines st'))%nat
    ∧ (length (alert_lines st')
       <= length (alert_lines st) + length (List.filter on_file os))%nat
    ∧ dom (recent_events st) ⊆ dom (recent_events st').
Proof.
  induction os as [| o os IH]; intros st.
  - exists st. simpl. split_and!; [done | lia | lia | lia | done].
  - cbn [for_each List.filter]. unfold bind.
    destruct (on_file o) eqn:Hfile.
    + destruct (dispatch_file o st Hfile)
        as (st1 & -> & Hlog & Hmin & Hmax & Hdom).
      destruct (IH st1) as (st' & -> & Hlog' & Hmin' & Hmax' & Hdom').
      exists st'. split; [done |].
      destruct (critical o); simpl in *;
        split_and!; [lia | lia | lia | set_solver
                    | lia | lia | lia | set_solver].
    + rewrite dispatch_directory by done.
      assert (Hc : critical o = false) by (unfold critical; by rewrite Hfile).
      rewrite Hc. apply IH.
Qed.

End FileRunFacts.

(** X17.  Events on directories are ignored.  For an event on a
    directory each of the four handlers returns at once: no evidence line,
    no alert, no change of the table of recent events.  The removal of a
    whole directory, in particular, raises no alert of its own. *)
Theorem directory_events_are_ignored
    (h : AlertSystem.host) (now : Q) (ev : FileMonitor.event)
    (st : FileMonitor.state) :
  FileMonitor.is_directory ev = true ->
  FileMonitor.on_modified h now ev st = (st, Py.Ok tt)
  ∧ FileMonitor.on_created h now ev st = (st, Py.Ok tt)
  ∧ FileMonitor.on_deleted h ev st = (st, Py.Ok tt)
  ∧ FileMonitor.on_moved h ev st = (st, Py.Ok tt).
Proof.
  intros Hdir.
  unfold FileMonitor.on_modified, FileMonitor.on_created,
    FileMonitor.on_deleted, FileMonitor.on_moved.
  by rewrite Hdir.
Qed.

(** The removal of a directory leaves no trace. *)
Lemma removal_of_a_directory_leaves_no_trace :
  FileMonitor.on_deleted desk_host photos_event FileMonitor.initial_state
  = (FileMonitor.initial_state, Py.Ok tt).
Proof.
  destruct (directory_events_are_ignored desk_host 0 photos_event
              FileMonitor.initial_state eq_refl) as (_ & _ & Hdeleted & _).
  exact Hdeleted.
Defined.

(** X18.  A move is alerted every time.  For a file, [on_moved] consults
    no table of recent events: it writes an evidence line whose event
    type carries the two paths and whose path is empty, raises a
    FILE_MOVED alert without the sound, and leaves the table of recent
    events as it is. *)
Theorem move_is_always_alerted
    (h : AlertSystem.host) (ev : FileMonitor.event) (st : FileMonitor.state) :
  FileMonitor.is_directory ev = false ->
  let out := FileMonitor.on_moved h ev st in
  let ts := AlertSystem.timestamp h in
  let message :=
    "File moved: " +:+ FileMonitor.src_path ev +:+ " -> " +:+
    FileMonitor.dest_path ev in
  snd out = Py.Ok tt
  ∧ FileMonitor.file_access_log (fst out)
    = FileMonitor.file_access_log st ++
        [FileMonitor.FileLine ts
           ("MOVED from " +:+ FileMonitor.src_path ev +:+ " to " +:+
            FileMonitor.dest_path ev)
           EmptyString]
  ∧ FileMonitor.alert_system (fst out)
    = fst (AlertSystem.send_alert id h message "FILE_MOVED" false true
             (FileMonitor.alert_system st))
  ∧ AlertSystem.alerts_log (FileMonitor.alert_system (fst out))
    = AlertSystem.alerts_log (FileMonitor.alert_system st) ++
        [AlertSystem.LogLine ts "FILE_MOVED" message]
  ∧ FileMonitor.recent_events (fst out) = FileMonitor.recent_events st.
Proof.
  intros Hfile out ts message. subst out.
  rewrite FileRunFacts.on_moved_eq by done.
  cbn [fst snd FileMonitor.file_access_log FileMonitor.alert_system
       FileMonitor.recent_events].
  split_and!; try done.
  apply FileRunFacts.alerts_log_dispatched_file.
Qed.

(** The same rename reported twice at once is alerted twice. *)
Lemma rename_reported_twice_alerts_twice :
  let st1 :=
    fst (FileMonitor.on_moved desk_host rename_event
           FileMonitor.initial_state) in
  let st2 := fst (FileMonitor.on_moved desk_host rename_event st1) in
  AlertSystem.alerts_log (FileMonitor.alert_system st2)
  = [AlertSystem.LogLine "2024-05-01 12:00:00" "FILE_MOVED"
       "File moved: /home/alice/draft.txt -> /home/alice/final.txt";
     AlertSystem.LogLine "2024-05-01 12:00:00" "FILE_MOVED"
       "File moved: /home/alice/draft.txt -> /home/alice/final.txt"].
Proof.
  destruct (move_is_always_alerted desk_host rename_event
              (fst (FileMonitor.on_moved desk_host rename_event
                      FileMonitor.initial_state)) eq_refl)
    as (_ & _ & _ & Hlog & _).
  exact Hlog.
Defined.

(** X19.  The window runs from the last alert, not from the last event.
    A modification that comes less than a second after the alert for the
    same file is logged and not alerted, and it does not date the key: a
    modification that comes a second or more after the alert is alerted,
    however shortly after the suppressed one it comes.  A file that keeps
    changing is alerted about once a second. *)
Theorem suppressed_event_does_not_extend_the_window
    (h : AlertSystem.host) (ev : FileMonitor.event) (st : FileMonitor.state)
    (t0 t1 t2 : Q) :
  let key := "modified:" +:+ FileMonitor.src_path ev in
  let st1 := fst (FileMonitor.on_modified h t1 ev st) in
  let st2 := fst (FileMonitor.on_modified h t2 ev st1) in
  FileMonitor.is_directory ev = false ->
  FileMonitor.recent_events st !! key = Some t0 ->
  (t1 - t0 < FileMonitor.event_window)%Q ->
  (FileMonitor.event_window <= t2 - t0)%Q ->
  FileRunTerms.alert_lines st1 = FileRunTerms.alert_lines st
  ∧ FileMonitor.recent_events st1 = FileMonitor.recent_events st
  ∧ FileRunTerms.alert_lines st2
    = FileRunTerms.alert_lines st ++
        [AlertSystem.LogLine (AlertSystem.timestamp h) "FILE_MODIFIED"
           ("File modified: " +:+ FileMonitor.src_path ev)]
  ∧ FileMonitor.recent_events st2 !! key = Some t2.
Proof.
  intros key st1 st2 Hfile Hlook Hnear Hfar.
  assert (Hst1 : st1 = FileMonitorTerms.logged h "MODIFIED"
                         (FileMonitor.src_path ev) st).
  { subst st1. rewrite FileMonitorFacts.on_modified_suppressed; [done.. |].
    by exists t0. }
  assert (Hnot : ¬ FileMonitorTerms.recently_alerted st1 t2 key).
  { rewrite Hst1. intros (t & Ht & Hlt). simpl in Ht.
    fold key in Hlook. rewrite Hlook in Ht. injection Ht as <-.
    apply Qlt_not_le in Hlt. by apply Hlt. }
  subst st2. rewrite FileMonitorFacts.on_modified_alerts by done.
  unfold FileRunTerms.alert_lines.
  cbn [fst FileMonitor.alert_system FileMonitor.recent_events].
  rewrite FileRunFacts.alerts_log_dispatched_file.
  fold key. rewrite lookup_insert_eq. by rewrite Hst1.
Qed.

(** The file alerted at 10: a change at 10.9 is suppressed, a change at
    11, a tenth of a second later, is alerted. *)
Lemma change_a_tenth_after_a_suppressed_one_alerts :
  let st1 :=
    fst (FileMonitor.on_modified desk_host (109 # 10) notes_event
           just_alerted) in
  let st2 := fst (FileMonitor.on_modified desk_host 11 notes_event st1) in
  FileRunTerms.alert_lines st1 = []
  ∧ FileRunTerms.alert_lines st2
    = [AlertSystem.LogLine "2024-05-01 12:00:00" "FILE_MODIFIED"
         "File modified: /home/alice/notes.txt"].
Proof.
  destruct (suppressed_event_does_not_extend_the_window desk_host notes_event
              just_alerted 10 (109 # 10) 11)
    as (Hfirst & _ & Hsecond & _).
  - reflexivity.
  - reflexivity.
  - vm_compute. reflexivity.
  - vm_compute. discriminate.
  - split; [exact Hfirst | exact Hsecond].
Defined.

(** X20.  Creation and modification are suppressed separately.  The key
    of an event is its kind together with the path: when neither the
    creation nor the modification of a file was alerted within the last
    second, the creation of the file and a modification of it at the same
    moment raise two alerts. *)
Theorem creation_and_modification_alert_separately
    (h : AlertSystem.host) (now : Q) (ev : FileMonitor.event)
    (st : FileMonitor.state) :
  let path := FileMonitor.src_path ev in
  let ts := AlertSystem.timestamp h in
  let st2 :=
    fst (FileMonitor.on_modified h now ev
           (fst (FileMonitor.on_created h now ev st))) in
  FileMonitor.is_directory ev = false ->
  ¬ FileMonitorTerms.recently_alerted st now ("created:" +:+ path) ->
  ¬ FileMonitorTerms.recently_alerted st now ("modified:" +:+ path) ->
  FileRunTerms.alert_lines st2
  = FileRunTerms.alert_lines st ++
      [AlertSystem.LogLine ts "FILE_CREATED" ("File created: " +:+ path);
       AlertSystem.LogLine ts "FILE_MODIFIED" ("File modified: " +:+ path)].
Proof.
  intros path ts st2 Hfile Hcreated Hmodified. subst st2.
  rewrite FileMonitorFacts.on_created_alerts by done. cbn [fst].
  rewrite FileMonitorFacts.on_modified_alerts; [| done |].
  - unfold FileRunTerms.alert_lines. cbn [fst FileMonitor.alert_system].
    rewrite !FileRunFacts.alerts_log_dispatched_file.
    by rewrite <- app_assoc.
  - intros (t & Ht & Hlt). apply Hmodified. exists t. split; [| done].
    cbn [FileMonitor.recent_events] in Ht.
    by rewrite lookup_insert_ne in Ht.
Qed.

(** A new file that is written at once: two alerts. *)
Lemma new_file_written_at_once_alerts_twice :
  FileRunTerms.alert_lines
    (fst (FileMonitor.on_modified desk_host 5 notes_event
            (fst (FileMonitor.on_created desk_host 5 notes_event
                    FileMonitor.initial_state))))
  = [AlertSystem.LogLine "2024-05-01 12:00:00" "FILE_CREATED"
       "File created: /home/alice/notes.txt";
     AlertSystem.LogLine "2024-05-01 12:00:00" "FILE_MODIFIED"
       "File modified: /home/alice/notes.txt"].
Proof.
  apply (creation_and_modification_alert_separately desk_host 5 notes_event
           FileMonitor.initial_state eq_refl).
  - intros (t & Ht & _). vm_compute in Ht. discriminate.
  - intros (t & Ht & _). vm_compute in Ht. discriminate.
Defined.

(** X21.  What a run of events leaves behind.  Whatever events watchdog
    hands to the handlers, none of them raises; the evidence log grows by
    exactly one line for every event on a file; the alert log grows by at
    most one line for every event on a file and by at least one line for
    every deletion or move of a file; and no key ever leaves the table of
    recent events. *)
Theorem every_file_event_leaves_an_evidence_line
    (events : list FileRunTerms.occurrence) (st : FileMonitor.state) :
  let out := Py.for_each events FileRunTerms.dispatch st in
  let on_files := length (List.filter FileRunTerms.on_file events) in
  let criticals := length (List.filter FileRunTerms.critical events) in
  snd out = Py.Ok tt
  ∧ length (FileMonitor.file_access_log (fst out))
    = (length (FileMonitor.file_access_log st) + on_files)%nat
  ∧ (length (FileRunTerms.alert_lines st) + criticals
     <= length (FileRunTerms.alert_lines (fst out)))%nat
  ∧ (length (FileRunTerms.alert_lines (fst out))
     <= length (FileRunTerms.alert_lines st) + on_files)%nat
  ∧ dom (FileMonitor.recent_events st)
    ⊆ dom (FileMonitor.recent_events (fst out)).
Proof.
  intros out on_files criticals. subst out.
  destruct (FileRunFacts.run_tally events st) as (st' & -> & H).
  by split.
Qed.

(** ** The process watcher over runs *)

Module ProcessRunFacts.
Import Py PyFacts ProcessMonitor ProcessMonitorTerms ProcessMonitorFacts
  ProcessWatchTerms ProcessWatchFacts ProcessLoopTerms ProcessLoopFacts
  ProcessRunTerms.

(** *** Invariants through the combinators *)



Section Watcher.
Context (render : alert_message -> string) (cfg : config).

(** *** The check of one process, in every case *)

Lemma check_process_half h proc cpu st :
  cpu_percent proc = Some cpu -> memory_percent proc = None ->
  check_process render cfg h proc st
  = (after_metric render cfg h Cpu proc cpu st, Raise TypeError).
Proof.
  intros Hcpu Hmem. unfold check_process. MonadFacts.unfold_M.
  by rewrite Hcpu, Hmem, check_metric_eq.
Qed.




(** *** The scan for new processes, in every case *)

Lemma visit_process_known h known proc current st :
  pid proc ∈ known ->
  visit_process render cfg h known proc current st
  = (st, Ok (current ∪ {[pid proc]})).
Proof.
  intros Hknown. unfold visit_process. MonadFacts.unfold_M.
  by rewrite bool_decide_eq_true_2.
Qed.

Lemma visit_process_nameless h known proc current st :
  name proc = None -> pid proc ∉ known ->
  visit_process render cfg h known proc current st
  = (State (known_processes st) (high_resource_tracker st)
       (process_log st ++ [new_process_line h proc]) (alert_system st),
     Raise AttributeError).
Proof.
  intros Hname Hnew.
  unfold visit_process, log_process_event, new_process_line, command_of.
  MonadFacts.unfold_M.
  rewrite bool_decide_eq_false_2 by done. by rewrite Hname.
Qed.

Lemma noticed_known h known st proc :
  pid proc ∈ known -> noticed render cfg h known st proc = st.
Proof. intros Hknown. unfold noticed. by rewrite bool_decide_eq_true_2. Qed.

Lemma visit_process_total h known proc current st :
  named proc ∨ pid proc ∈ known ->
  visit_process render cfg h known proc current st
  = (noticed render cfg h known st proc, Ok (current ∪ {[pid proc]})).
Proof.
  intros [Hnamed | Hknown].
  - by apply visit_process_eq.
  - by rewrite visit_process_known, noticed_known.
Qed.

Lemma visit_processes_total h known procs : ∀ current st,
  Forall (λ proc, named proc ∨ pid proc ∈ known) procs ->
  visit_processes render cfg h known procs current st
  = (fold_left (noticed render cfg h known) procs st,
     Ok (current ∪ list_to_set (pid <$> procs))).
Proof.
  induction procs as [| proc procs IH]; intros current st Hall.
  - simpl. unfold ret. by rewrite (right_id_L ∅ (∪)).
  - apply Forall_cons in Hall as [Hproc Hall]. simpl. unfold bind.
    rewrite visit_process_total, IH by done.
    do 2 f_equal. set_solver.
Qed.

Lemma check_new_processes_total h procs st :
  Forall (λ proc, named proc ∨ pid proc ∈ known_processes st) procs ->
  check_new_processes render cfg h procs st
  = (let st' :=
       fold_left (noticed render cfg h (known_processes st)) procs st in
     State (list_to_set (pid <$> procs)) (high_resource_tracker st')
           (process_log st') (alert_system st'),
     Ok tt).
Proof.
  intros Hall. unfold check_new_processes, bind, get, modify.
  rewrite visit_processes_total by done. cbv zeta.
  by rewrite (left_id_L ∅ (∪)).
Qed.






(** *** Suspicion alerts across the rounds *)

Lemma suspicion_alerts_after_metric h m proc percent st p :
  suspicion_alerts p (after_metric render cfg h m proc percent st)
  = suspicion_alerts p st.
Proof.
  unfold suspicion_alerts, after_metric. cbn [alert_system].
  destruct (completes cfg _ _); [| done].
  rewrite alerts_log_dispatched, List.filter_app.
  destruct m; simpl; by rewrite app_nil_r.
Qed.

Lemma checked_readable h st proc :
  readable proc ->
  ∃ cpu mem,
    checked render cfg h st proc
    = after_metric render cfg h Memory proc mem
        (after_metric render cfg h Cpu proc cpu st).
Proof.
  intros [[cpu Hcpu] [mem Hmem]]. exists cpu, mem. unfold checked.
  by rewrite (check_process_eq _ _ h proc cpu mem).
Qed.

Lemma fold_checked_watch h p procs : ∀ st,
  Forall readable procs ->
  known_processes (fold_left (checked render cfg h) procs st)
  = known_processes st
  ∧ suspicion_alerts p (fold_left (checked render cfg h) procs st)
    = suspicion_alerts p st.
Proof.
  induction procs as [| q procs IH]; intros st Hall; [done |].
  apply Forall_cons in Hall as [Hq Hall]. simpl.
  destruct (IH (checked render cfg h st q) Hall) as [-> ->].
  destruct (checked_readable h st q Hq) as (cpu & mem & ->).
  by rewrite !suspicion_alerts_after_metric.
Qed.

Lemma fold_noticed_known h known p procs : ∀ st,
  p ∈ known ->
  suspicion_alerts p (fold_left (noticed render cfg h known) procs st)
  = suspicion_alerts p st.
Proof.
  induction procs as [| q procs IH]; intros st Hknown; [done |].
  simpl. rewrite IH, suspicion_alerts_noticed by done.
  destruct (Z.eqb_spec (pid q) p) as [-> | Hne].
  - rewrite bool_decide_eq_true_2 by done. by rewrite app_nil_r.
  - by rewrite andb_false_r, app_nil_r.
Qed.

Lemma monitor_round_known p t st :
  readable_round t -> p ∈ known_processes st -> p ∈ pid <$> new_scan t ->
  monitor_round render cfg t st = (after_round render cfg st t, Ok tt)
  ∧ p ∈ known_processes (after_round render cfg st t)
  ∧ suspicion_alerts p (after_round render cfg st t) = suspicion_alerts p st.
Proof.
  intros [Hnamed Hread] Hknown Hscan.
  unfold after_round, monitor_round, mbind, M_bind, bind.
  rewrite (check_new_processes_eq render cfg) by done. cbv zeta.
  set (st1 := State _ _ _ _).
  rewrite (check_resource_usage_eq render cfg) by done. cbn [fst].
  destruct (fold_checked_watch (tick_host t) p (usage_scan t) st1 Hread)
    as [-> ->].
  split_and!; [done | | ].
  - subst st1. cbn [known_processes]. by apply elem_of_list_to_set.
  - subst st1. unfold suspicion_alerts at 1. cbn [alert_system].
    by apply fold_noticed_known.
Qed.

Lemma rounds_known p ts : ∀ st,
  Forall (λ t, readable_round t ∧ p ∈ pid <$> new_scan t) ts ->
  p ∈ known_processes st ->
  let out := for_each ts (monitor_round render cfg) st in
  snd out = Ok tt ∧ suspicion_alerts p (fst out) = suspicion_alerts p st.
Proof.
  induction ts as [| t ts IH]; intros st Hall Hknown; [done |].
  apply Forall_cons in Hall as [[Hread Hscan] Hall].
  destruct (monitor_round_known p t st Hread Hknown Hscan)
    as (Hrun & Hknown' & Halerts).
  cbn [for_each]. unfold bind. rewrite Hrun.
  destruct (IH (after_round render cfg st t) Hall Hknown') as [Hok Hsame].
  cbv zeta in *. by rewrite Hok, Hsame, Halerts.
Qed.

(** *** The lines of the process log *)

Lemma process_log_noticed h known st proc :
  process_log (noticed render cfg h known st proc)
  = process_log st ++
      (if unknown known proc then [new_process_line h proc] else []).
Proof.
  unfold noticed, unknown. case_bool_decide; simpl; by rewrite ?app_nil_r.
Qed.

Lemma process_log_fold_noticed h known procs : ∀ st,
  process_log (fold_left (noticed render cfg h known) procs st)
  = process_log st ++
      (new_process_line h <$> List.filter (unknown known) procs).
Proof.
  induction procs as [| q procs IH]; intros st; [by rewrite app_nil_r |].
  simpl. rewrite IH, process_log_noticed.
  destruct (unknown known q); simpl; by rewrite <- ?app_assoc, ?app_nil_r.
Qed.

(** *** The streaks of a process that a scan does not list *)

Lemma after_metric_lookup h m proc percent st m' p :
  (m, pid proc) ≠ (m', p) ->
  high_resource_tracker (after_metric render cfg h m proc percent st)
    !! key_of m' p
  = high_resource_tracker st !! key_of m' p.
Proof.
  intros Hne. unfold after_metric. cbn [high_resource_tracker].
  apply lookup_insert_ne. intros Heq.
  apply key_of_inj in Heq as [? ?]. congruence.
Qed.

Lemma fold_checked_lookup h m p procs : ∀ st,
  Forall readable procs -> p ∉ pid <$> procs ->
  high_resource_tracker (fold_left (checked render cfg h) procs st)
    !! key_of m p
  = high_resource_tracker st !! key_of m p.
Proof.
  induction procs as [| q procs IH]; intros st Hall Hnot; [done |].
  apply Forall_cons in Hall as [Hq Hall].
  rewrite fmap_cons, not_elem_of_cons in Hnot. destruct Hnot as [Hne Hnot].
  simpl. rewrite IH by done.
  destruct (checked_readable h st q Hq) as (cpu & mem & ->).
  rewrite !after_metric_lookup; [done | congruence | congruence].
Qed.

(** *** The cadence of the resource alerts *)

Lemma cadence m p k : ∀ ts st,
  (0 < alert_threshold cfg)%nat ->
  counter st (key_of m p) = 0%nat ->
  Forall (high_round cfg m p) ts ->
  length ts = (k * alert_threshold cfg)%nat ->
  let st' := fold_left (after_round render cfg) ts st in
  for_each ts (monitor_round render cfg) st = (st', Ok tt)
  ∧ counter st' (key_of m p) = 0%nat
  ∧ length (resource_alerts m p st')
    = (length (resource_alerts m p st) + k)%nat.
Proof.
  induction k as [| k IH]; intros ts st HT Hzero Hall Hlen.
  - destruct ts; [| done]. simpl. split_and!; [done | done | lia].
  - assert (Hsplit : ts = take (alert_threshold cfg) ts
                          ++ drop (alert_threshold cfg) ts)
      by (by rewrite take_drop).
    assert (Hfirst : length (take (alert_threshold cfg) ts)
                     = alert_threshold cfg)
      by (rewrite length_take; simpl in Hlen; lia).
    assert (Hrest : length (drop (alert_threshold cfg) ts)
                    = (k * alert_threshold cfg)%nat)
      by (rewrite length_drop; simpl in Hlen; lia).
    destruct (exists_last (l := take (alert_threshold cfg) ts))
      as (init & t & Hlast).
    { intros Hnil. rewrite Hnil in Hfirst. simpl in Hfirst. lia. }
    rewrite Hsplit in Hall. apply Forall_app in Hall as [Hall1 Hall2].
    rewrite Hlast in Hall1, Hfirst.
    destruct (streak_completed render cfg m p init t st Hall1)
      as (Hrun1 & Hc1 & Ha1); [rewrite Hzero, Hfirst; lia |].
    cbv zeta in Hrun1, Hc1, Ha1.
    set (st1 := fold_left (after_round render cfg) (init ++ [t]) st) in *.
    destruct (IH (drop (alert_threshold cfg) ts) st1 HT Hc1 Hall2 Hrest)
      as (Hrun2 & Hc2 & Ha2).
    cbv zeta in Hrun2, Hc2, Ha2.
    rewrite Hsplit, Hlast. cbv zeta. rewrite fold_left_app. fold st1.
    split_and!; [| done | rewrite Ha2, Ha1; lia].
    by rewrite (MonadFacts.for_each_app _ _ _ _ _ Hrun1).
Qed.

End Watcher.

(** *** Capital letters *)

Lemma lower_char_not_upper c : is_upper (lower_char c) = false.
Proof.
  unfold lower_char.
  destruct ((65 <=? Ascii.nat_of_ascii c)%nat
            && (Ascii.nat_of_ascii c <=? 90)%nat) eqn:Hup.
  - apply andb_true_iff in Hup as [Hlo%Nat.leb_le Hhi%Nat.leb_le].
    unfold is_upper. rewrite Ascii.nat_ascii_embedding by lia.
    apply andb_false_iff. right. apply Nat.leb_gt. lia.
  - exact Hup.
Qed.

Lemma has_upper_lower s : has_upper (lower s) = false.
Proof.
  induction s as [| c s IH]; [done |].
  simpl. by rewrite lower_char_not_upper, IH.
Qed.

Lemma has_upper_app s1 s2 :
  has_upper (s1 +:+ s2) = has_upper s1 || has_upper s2.
Proof.
  induction s1 as [| c s1 IH]; [done |].
  rewrite append_cons. simpl. by rewrite IH, orb_assoc.
Qed.

Lemma contains_has_upper sub s :
  contains sub s = true -> has_upper sub = true -> has_upper s = true.
Proof.
  intros (pre & post & ->)%contains_spec Hsub.
  rewrite !has_upper_app, Hsub. by rewrite orb_true_r.
Qed.

Lemma capital_pattern_is_dead pattern n :
  has_upper pattern = true -> contains pattern (lower n) = false.
Proof.
  intros Hup. apply not_true_is_false. intros Hin.
  pose proof (contains_has_upper _ _ Hin Hup) as Hlow.
  by rewrite has_upper_lower in Hlow.
Qed.

End ProcessRunFacts.



(** X23.  What runs at the start is never flagged.  [monitor] takes the
    processes that run when it starts as known.  Through rounds in which
    every name and reading can be taken, a process that was running at
    the start and shows up in every scan raises no SUSPICIOUS_PROCESS
    alert, whatever its name. *)
Theorem process_running_at_startup_is_never_flagged
    (render : ProcessMonitor.alert_message -> string)
    (cfg : ProcessMonitor.config) (pids : list Z)
    (rounds : list ProcessMonitor.tick) (st : ProcessMonitor.state) (p : Z) :
  p ∈ pids ->
  Forall (λ t, ProcessRunTerms.readable_round t
               ∧ p ∈ ProcessMonitor.pid <$> ProcessMonitor.new_scan t)
    rounds ->
  let out := ProcessMonitor.monitor render cfg pids rounds st in
  snd out = Py.Ok tt
  ∧ ProcessWatchTerms.suspicion_alerts p (fst out)
    = ProcessWatchTerms.suspicion_alerts p st.
Proof.
  intros Hstart Hall out. subst out.
  unfold ProcessMonitor.monitor, mbind, Py.M_bind, Py.bind, Py.modify.
  set (st0 := ProcessMonitor.State _ _ _ _).
  destruct (ProcessRunFacts.rounds_known render cfg p rounds st0 Hall)
    as [Hok Hsame].
  - subst st0. cbn [ProcessMonitor.known_processes].
    by apply elem_of_list_to_set.
  - split; [exact Hok | by rewrite Hsame].
Qed.

(** A netcat listener that runs when the monitor starts raises no
    alert. *)
Lemma listener_running_at_startup_raises_no_alert :
  let out :=
    ProcessMonitor.monitor plain_render ProcessMonitor.default_config
      [7; 4242]%Z [busy_round; busy_round] ProcessMonitor.initial_state in
  snd out = Py.Ok tt
  ∧ ProcessWatchTerms.suspicion_alerts 4242 (fst out) = [].
Proof.
  apply (process_running_at_startup_is_never_flagged plain_render
           ProcessMonitor.default_config [7; 4242]%Z [busy_round; busy_round]
           ProcessMonitor.initial_state 4242).
  - apply list_elem_of_In. simpl. tauto.
  - repeat constructor; try (by eexists);
      apply list_elem_of_In; simpl; tauto.
Defined.

(** X24.  The log of new processes.  A scan in which every process
    either has a name or is a known one never raises.  It leaves the pids
    of the scan as the known processes and adds to the process log one
    NEW_PROCESS line for each process of the scan whose pid was not known,
    in the order of the scan, suspicious or not.  The command of such a
    line has at most 100 characters. *)
Theorem every_new_pid_is_logged_once
    (render : ProcessMonitor.alert_message -> string)
    (cfg : ProcessMonitor.config) (h : AlertSystem.host)
    (procs : list ProcessMonitor.proc_info) (st : ProcessMonitor.state) :
  Forall (λ q, ProcessRunTerms.named q
               ∨ ProcessMonitor.pid q ∈ ProcessMonitor.known_processes st)
    procs ->
  let out := ProcessMonitor.check_new_processes render cfg h procs st in
  snd out = Py.Ok tt
  ∧ ProcessMonitor.known_processes (fst out)
    = list_to_set (ProcessMonitor.pid <$> procs)
  ∧ ProcessMonitor.process_log (fst out)
    = ProcessMonitor.process_log st ++
        (ProcessRunTerms.new_process_line h
           <$> List.filter
                 (ProcessRunTerms.unknown (ProcessMonitor.known_processes st))
                 procs)
  ∧ ∀ q, (String.length (ProcessWatchTerms.command_of q) <= 100)%nat.
Proof.
  intros Hall out. subst out.
  rewrite ProcessRunFacts.check_new_processes_total by done. cbv zeta.
  cbn [fst snd ProcessMonitor.known_processes ProcessMonitor.process_log].
  split_and!; [done | done | apply ProcessRunFacts.process_log_fold_noticed |].
  intros q. unfold ProcessWatchTerms.command_of.
  rewrite NotificationFacts.length_slice_to. lia.
Qed.

(** A scan with a known busy process, a known process without a name and
    a new listener: one line, for the listener. *)
Lemma one_line_for_the_new_listener :
  let st :=
    ProcessMonitor.State {[7; 2]}%Z ∅ [] AlertSystem.empty_sink in
  ProcessMonitor.process_log
    (fst (ProcessMonitor.check_new_processes plain_render
            ProcessMonitor.default_config quiet_host
            [busy_proc; nameless_proc; netcat_proc] st))
  = [ProcessMonitor.ProcessLine "2024-05-01 12:00:00" "NEW_PROCESS"
       (ProcessMonitor.NewProcess 4242 (Some "Netcat") (Some "mallory")
          "Netcat -l 4444")].
Proof.
  destruct (every_new_pid_is_logged_once plain_render
              ProcessMonitor.default_config quiet_host
              [busy_proc; nameless_proc; netcat_proc]
              (ProcessMonitor.State {[7; 2]}%Z ∅ [] AlertSystem.empty_sink))
    as (_ & _ & Hlog & _).
  - apply Forall_cons. split; [left; by eexists |].
    apply Forall_cons. split.
    { right. apply (bool_decide_unpack _). vm_compute. exact I. }
    apply Forall_cons. split; [left; by eexists | constructor].
  - exact Hlog.
Defined.

(** X25.  One alert for every full streak.  With an alert threshold of
    at least one and a streak that stands at zero, through [k] times the
    alert threshold rounds in each of which the process reads above the
    threshold of the resource, [monitor] raises exactly [k] alerts for
    that process and resource, and the streak is back at zero: a process
    that stays busy is alerted once every [alert_threshold] rounds. *)
Theorem one_alert_for_every_full_streak
    (render : ProcessMonitor.alert_message -> string)
    (cfg : ProcessMonitor.config) (pids : list Z)
    (m : ProcessMonitorTerms.metric) (p : Z) (k : nat)
    (rounds : list ProcessMonitor.tick) (st : ProcessMonitor.state) :
  (0 < ProcessMonitor.alert_threshold cfg)%nat ->
  ProcessMonitor.counter st (ProcessMonitorTerms.key_of m p) = 0%nat ->
  Forall (ProcessLoopTerms.high_round cfg m p) rounds ->
  length rounds = (k * ProcessMonitor.alert_threshold cfg)%nat ->
  let out := ProcessMonitor.monitor render cfg pids rounds st in
  snd out = Py.Ok tt
  ∧ ProcessMonitor.counter (fst out) (ProcessMonitorTerms.key_of m p) = 0%nat
  ∧ length (ProcessMonitorTerms.resource_alerts m p (fst out))
    = (length (ProcessMonitorTerms.resource_alerts m p st) + k)%nat.
Proof.
  intros HT Hzero Hall Hlen out. subst out.
  unfold ProcessMonitor.monitor, mbind, Py.M_bind, Py.bind, Py.modify.
  set (st0 := ProcessMonitor.State _ _ _ _).
  destruct (ProcessRunFacts.cadence render cfg m p k rounds st0 HT)
    as (-> & Hc & Ha); [exact Hzero | done | done |].
  by split_and!.
Qed.

(** Six rounds with the busy process, under the default settings: two
    HIGH_CPU alerts. *)
Lemma six_busy_rounds_raise_two_alerts :
  let out :=
    ProcessMonitor.monitor plain_render ProcessMonitor.default_config
      [7; 4242]%Z
      [busy_round; busy_round; busy_round; busy_round; busy_round; busy_round]
      ProcessMonitor.initial_state in
  snd out = Py.Ok tt
  ∧ ProcessMonitor.counter (fst out) "cpu_7" = 0%nat
  ∧ length (ProcessMonitorTerms.resource_alerts ProcessMonitorTerms.Cpu 7
              (fst out)) = 2%nat.
Proof.
  apply (one_alert_for_every_full_streak plain_render
           ProcessMonitor.default_config [7; 4242]%Z ProcessMonitorTerms.Cpu
           7 2
           [busy_round; busy_round; busy_round; busy_round; busy_round;
            busy_round]
           ProcessMonitor.initial_state).
  - simpl. lia.
  - reflexivity.
  - assert (Hhigh : ProcessLoopTerms.high_round ProcessMonitor.default_config
                      ProcessMonitorTerms.Cpu 7 busy_round).
    { split_and!.
      - repeat constructor; by eexists.
      - apply (bool_decide_unpack _). vm_compute. exact I.
      - repeat constructor; by eexists.
      - exists busy_proc, 95%Q.
        split_and!; [apply list_elem_of_here | done | done |].
        vm_compute. reflexivity. }
    repeat (apply Forall_cons; split; [exact Hhigh |]). constructor.
  - reflexivity.
Defined.

(** X26.  What is done before the exception.  For a process whose CPU
    percentage could be read and whose memory percentage is [None], the
    CPU check is carried out in full (the streak moves, and the alert of
    a completed streak is logged and dispatched) before the comparison of
    the memory percentage raises [TypeError], which the handler of the
    loop body does not catch. *)
Theorem unreadable_memory_raises_after_the_cpu_check
    (render : ProcessMonitor.alert_message -> string)
    (cfg : ProcessMonitor.config) (h : AlertSystem.host)
    (proc : ProcessMonitor.proc_info) (cpu : Q) (st : ProcessMonitor.state) :
  ProcessMonitor.cpu_percent proc = Some cpu ->
  ProcessMonitor.memory_percent proc = None ->
  let out := ProcessMonitor.check_process render cfg h proc st in
  let key := ProcessMonitor.cpu_key (ProcessMonitor.pid proc) in
  let over := Py.Qgtb cpu (ProcessMonitor.cpu_threshold cfg) in
  let full :=
    over && (ProcessMonitor.alert_threshold cfg
             <=? ProcessMonitor.counter st key + 1)%nat in
  snd out = Py.Raise Py.TypeError
  ∧ ProcessMonitor.counter (fst out) key
    = (if over then if full then 0 else ProcessMonitor.counter st key + 1
       else 0)%nat
  ∧ AlertSystem.alerts_log (ProcessMonitor.alert_system (fst out))
    = AlertSystem.alerts_log (ProcessMonitor.alert_system st) ++
        (if full
         then [AlertSystem.LogLine (AlertSystem.timestamp h) "HIGH_CPU"
                 (ProcessMonitor.HighCpuUsage (ProcessMonitor.name proc)
                    (ProcessMonitor.pid proc) cpu
                    (ProcessMonitor.cpu_threshold cfg))]
         else []).
Proof.
  intros Hcpu Hmem out key over full. subst out.
  rewrite (ProcessRunFacts.check_process_half render cfg h proc cpu)
    by done.
  cbn [fst snd]. split; [done |].
  unfold ProcessMonitorTerms.after_metric.
  cbn [ProcessMonitorTerms.key_of ProcessMonitorTerms.threshold_of
       ProcessMonitor.alert_system].
  fold key over. rewrite ProcessMonitorFacts.counter_insert_eq.
  unfold ProcessMonitorTerms.next_streak, ProcessMonitorTerms.completes.
  fold full. split.
  - subst full. by destruct over.
  - destruct full; [| by rewrite app_nil_r].
    by rewrite ProcessMonitorFacts.alerts_log_dispatched.
Qed.

(** The CPU streak of a process whose memory could not be read has moved
    when the scan is ended by the exception. *)
Lemma streak_has_moved_when_the_scan_breaks :
  let out :=
    ProcessMonitor.check_process plain_render ProcessMonitor.default_config
      quiet_host half_read_proc ProcessMonitor.initial_state in
  snd out = Py.Raise Py.TypeError
  ∧ ProcessMonitor.counter (fst out) "cpu_9" = 1%nat.
Proof.
  destruct (unreadable_memory_raises_after_the_cpu_check plain_render
              ProcessMonitor.default_config quiet_host half_read_proc 97
              ProcessMonitor.initial_state eq_refl eq_refl)
    as (Hraise & Hcount & _).
  split; [exact Hraise | exact Hcount].
Defined.

(** X27.  The name is read for new processes only.  A process that
    psutil lists without a name passes the scan untouched while its pid
    is known; when its pid is new, its NEW_PROCESS line is written and
    then the lower-casing of the name raises [AttributeError], which the
    handler of the loop body does not catch. *)
Theorem name_is_read_for_new_processes_only
    (render : ProcessMonitor.alert_message -> string)
    (cfg : ProcessMonitor.config) (h : AlertSystem.host) (known : gset Z)
    (proc : ProcessMonitor.proc_info) (current : gset Z)
    (st : ProcessMonitor.state) :
  ProcessMonitor.name proc = None ->
  let out := ProcessMonitor.visit_process render cfg h known proc current st in
  (ProcessMonitor.pid proc ∈ known ->
   out = (st, Py.Ok (current ∪ {[ProcessMonitor.pid proc]})))
  ∧ (ProcessMonitor.pid proc ∉ known ->
     out
     = (ProcessMonitor.State (ProcessMonitor.known_processes st)
          (ProcessMonitor.high_resource_tracker st)
          (ProcessMonitor.process_log st ++
             [ProcessMonitor.ProcessLine (AlertSystem.timestamp h)
                "NEW_PROCESS"
                (ProcessMonitor.NewProcess (ProcessMonitor.pid proc) None
                   (ProcessMonitor.username proc)
                   (ProcessWatchTerms.command_of proc))])
          (ProcessMonitor.alert_system st),
        Py.Raise Py.AttributeError)).
Proof.
  intros Hname out. subst out. split.
  - intros Hknown. by apply ProcessRunFacts.visit_process_known.
  - intros Hnew. rewrite ProcessRunFacts.visit_process_nameless by done.
    unfold ProcessRunTerms.new_process_line. by rewrite Hname.
Qed.

(** The process without a name: untouched when known, an exception after
    its line when new. *)
Lemma nameless_process_breaks_the_scan_when_new :
  ProcessMonitor.visit_process plain_render ProcessMonitor.default_config
    quiet_host {[2%Z]} nameless_proc ∅ ProcessMonitor.initial_state
  = (ProcessMonitor.initial_state, Py.Ok (∅ ∪ {[2%Z]}))
  ∧ snd (ProcessMonitor.visit_process plain_render
           ProcessMonitor.default_config quiet_host ∅ nameless_proc ∅
           ProcessMonitor.initial_state)
    = Py.Raise Py.AttributeError.
Proof.
  split.
  - destruct (name_is_read_for_new_processes_only plain_render
                ProcessMonitor.default_config quiet_host {[2%Z]}
                nameless_proc ∅ ProcessMonitor.initial_state eq_refl)
      as [Hknown _].
    apply Hknown. by apply elem_of_singleton.
  - destruct (name_is_read_for_new_processes_only plain_render
                ProcessMonitor.default_config quiet_host ∅ nameless_proc ∅
                ProcessMonitor.initial_state eq_refl)
      as [_ Hnew].
    rewrite Hnew; [done |]. apply not_elem_of_empty.
Defined.

(** X28.  A pattern with a capital letter is dead.  [is_suspicious_name]
    lower-cases the name and not the patterns: a pattern that holds an
    ASCII capital letter is found in no name, so that the verdict is the
    one of the list without that pattern. *)
Theorem pattern_with_a_capital_letter_is_dead
    (before after : list string) (pattern : string) (cpu mem : Q)
    (k : nat) (n : string) (st : ProcessMonitor.state) :
  ProcessRunTerms.has_upper pattern = true ->
  ProcessMonitor.is_suspicious_name
    (ProcessMonitor.Config (before ++ pattern :: after) cpu mem k) (Some n) st
  = ProcessMonitor.is_suspicious_name
      (ProcessMonitor.Config (before ++ after) cpu mem k) (Some n) st.
Proof.
  intros Hup. unfold ProcessMonitor.is_suspicious_name, Py.ret.
  cbn [ProcessMonitor.suspicious_names].
  rewrite !existsb_app. cbn [existsb].
  by rewrite (ProcessRunFacts.capital_pattern_is_dead pattern n Hup).
Qed.

(** A list that names Mimikatz with its capital letter misses
    mimikatz.exe and Mimikatz.exe alike. *)
Lemma capitalised_pattern_misses_the_tool :
  ProcessMonitor.is_suspicious_name
    (ProcessMonitor.Config ["Mimikatz"] 80 80 3) (Some "Mimikatz.exe")
    ProcessMonitor.initial_state
  = (ProcessMonitor.initial_state, Py.Ok false).
Proof.
  apply (pattern_with_a_capital_letter_is_dead [] [] "Mimikatz" 80 80 3
           "Mimikatz.exe" ProcessMonitor.initial_state).
  reflexivity.
Defined.

(** X29.  A process that comes back is new again.  The known processes
    are those of the last scan only: a suspicious process that was absent
    from one scan is alerted in the next scan that lists it, whether or
    not it was known, and alerted, before its absence. *)
Theorem process_that_comes_back_is_new_again
    (render : ProcessMonitor.alert_message -> string)
    (cfg : ProcessMonitor.config) (h1 h2 : AlertSystem.host)
    (scan1 scan2 : list ProcessMonitor.proc_info)
    (proc : ProcessMonitor.proc_info) (n : string)
    (st : ProcessMonitor.state) :
  Forall ProcessRunTerms.named scan1 ->
  Forall ProcessRunTerms.named scan2 ->
  NoDup (ProcessMonitor.pid <$> scan2) ->
  ProcessMonitor.pid proc ∉ ProcessMonitor.pid <$> scan1 ->
  proc ∈ scan2 ->
  ProcessMonitor.name proc = Some n ->
  (∃ s, s ∈ ProcessMonitor.suspicious_names cfg
        ∧ Py.contains s (Py.lower n) = true) ->
  let st1 :=
    fst (ProcessMonitor.check_new_processes render cfg h1 scan1 st) in
  let out := ProcessMonitor.check_new_processes render cfg h2 scan2 st1 in
  snd out = Py.Ok tt
  ∧ ProcessWatchTerms.suspicion_alerts (ProcessMonitor.pid proc) (fst out)
    = ProcessWatchTerms.suspicion_alerts (ProcessMonitor.pid proc) st1 ++
        [AlertSystem.LogLine (AlertSystem.timestamp h2) "SUSPICIOUS_PROCESS"
           (ProcessWatchTerms.suspicion_of proc)].
Proof.
  intros Hnamed1 Hnamed2 Hnd Habsent Hin Hname Hsus st1 out.
  apply (ProcessWatchFacts.existsb_suspicious cfg) in Hsus.
  assert (Hknown : ProcessMonitor.known_processes st1
                   = list_to_set (ProcessMonitor.pid <$> scan1)).
  { subst st1. by rewrite ProcessWatchFacts.check_new_processes_eq. }
  subst out. rewrite ProcessWatchFacts.check_new_processes_eq by done.
  cbv zeta. cbn [fst snd]. split; [done |].
  unfold ProcessWatchTerms.suspicion_alerts at 1.
  cbn [ProcessMonitor.alert_system].
  fold (ProcessWatchTerms.suspicion_alerts (ProcessMonitor.pid proc)
          (fold_left
             (ProcessWatchTerms.noticed render cfg h2
                (ProcessMonitor.known_processes st1)) scan2 st1)).
  rewrite ProcessWatchFacts.fold_noticed_one by done.
  rewrite Hname. simpl. rewrite Hsus, andb_true_r.
  rewrite bool_decide_eq_false_2; [done |].
  rewrite Hknown. by rewrite elem_of_list_to_set.
Qed.

(** The listener was known, stops, and starts again under the same pid:
    it is alerted when it is back. *)
Lemma listener_that_restarts_is_alerted_again :
  let st := ProcessMonitor.State {[7; 4242]}%Z ∅ [] AlertSystem.empty_sink in
  let st1 :=
    fst (ProcessMonitor.check_new_processes plain_render
           ProcessMonitor.default_config quiet_host [busy_proc] st) in
  ProcessWatchTerms.suspicion_alerts 4242
    (fst (ProcessMonitor.check_new_processes plain_render
            ProcessMonitor.default_config quiet_host [busy_proc; netcat_proc]
            st1))
  = [AlertSystem.LogLine "2024-05-01 12:00:00" "SUSPICIOUS_PROCESS"
       (ProcessMonitor.SuspiciousProcessDetected (Some "Netcat") 4242
          (Some "mallory") "Netcat -l 4444")].
Proof.
  destruct (process_that_comes_back_is_new_again plain_render
              ProcessMonitor.default_config quiet_host quiet_host
              [busy_proc] [busy_proc; netcat_proc] netcat_proc "Netcat"
              (ProcessMonitor.State {[7; 4242]}%Z ∅ []
                 AlertSystem.empty_sink))
    as [_ Halerts].
  - repeat constructor; by eexists.
  - repeat constructor; by eexists.
  - apply (bool_decide_unpack _). vm_compute. exact I.
  - apply (bool_decide_unpack _). vm_compute. exact I.
  - apply list_elem_of_In. simpl. tauto.
  - reflexivity.
  - exists "netcat". split; [| reflexivity].
    apply (bool_decide_unpack _). vm_compute. exact I.
  - exact Halerts.
Defined.

(** X30.  A streak outlives the scans that miss the process.  A scan in
    which a pid does not appear leaves the two streaks of that pid, and
    the alerts raised for it, as they are: the streak counts the
    consecutive high readings among the scans that list the pid, and it
    is neither put to zero nor dropped when the process is gone. *)
Theorem streak_outlives_a_scan_without_the_process
    (render : ProcessMonitor.alert_message -> string)
    (cfg : ProcessMonitor.config) (h : AlertSystem.host)
    (procs : list ProcessMonitor.proc_info) (m : ProcessMonitorTerms.metric)
    (p : Z) (st : ProcessMonitor.state) :
  Forall ProcessMonitorTerms.readable procs ->
  p ∉ ProcessMonitor.pid <$> procs ->
  let out := ProcessMonitor.check_resource_usage render cfg h procs st in
  snd out = Py.Ok tt
  ∧ ProcessMonitor.high_resource_tracker (fst out)
      !! ProcessMonitorTerms.key_of m p
    = ProcessMonitor.high_resource_tracker st
        !! ProcessMonitorTerms.key_of m p
  ∧ ProcessMonitorTerms.resource_alerts m p (fst out)
    = ProcessMonitorTerms.resource_alerts m p st.
Proof.
  intros Hall Hnot out. subst out.
  rewrite ProcessMonitorFacts.check_resource_usage_eq by done. cbn [fst snd].
  split_and!; [done | by apply ProcessRunFacts.fold_checked_lookup |].
  by apply ProcessMonitorFacts.fold_checked_other.
Qed.

(** The busy process stands at two high readings and is missing from the
    next scan: its streak still stands at two. *)
Lemma streak_of_a_missing_process_is_kept :
  ProcessMonitor.high_resource_tracker
    (fst (ProcessMonitor.check_resource_usage plain_render
            ProcessMonitor.default_config quiet_host [idle_netcat]
            two_high_readings)) !! "cpu_7"
  = Some 2%nat.
Proof.
  destruct (streak_outlives_a_scan_without_the_process plain_render
              ProcessMonitor.default_config quiet_host [idle_netcat]
              ProcessMonitorTerms.Cpu 7 two_high_readings)
    as (_ & Hkept & _).
  - repeat constructor; by eexists.
  - apply (bool_decide_unpack _). vm_compute. exact I.
  - exact Hkept.
Defined.
